(** * vntaptd: the callback-to-queue bridge of the TAP trading API

    A shallow embedding of [vnpy/api/tap/vntap/vntaptd/vntaptd.cpp].

    Every SDK callback [TdApi::OnXxx] fills a [Task], tags it with a
    constant and pushes it onto [task_queue]; the worker thread started by
    [TdApi::init] runs [TdApi::processTask], which pops tasks, switches on
    the tag and calls [TdApi::processXxx]; that function rebuilds a Python
    dict from the vendor struct and calls the overridable handler
    [onXxx].

    The header [vntaptd.h] and the vendor headers are not part of the
    sources at hand.  What they declare is taken as follows:
    - the values of the tag constants: a parameter [tag], assumed injective
      where a result needs it (C++ rejects a [switch] with two equal case
      labels, so a translation unit that compiles has distinct tags);
    - the vendor structs: a struct is its field accessor, [Struct], over an
      abstract type [CVal] of C values; [toUtf] and pybind11's implicit
      cast to a Python object are parameters; [vendor_structs] lists the
      members of each struct type that the file names;
    - [Task], its default value and the task queue: see [Task] and
      [TdApi] below. *)

From stdpp Require Import gmap strings list fin_maps sorting.
From Stdlib Require Import ZArith Lia.

Local Open Scope Z_scope.

(** ** Scalar conversions of C++ *)

(** Conversion of an integer to [int] (32 bits, two's complement): what
    happens to an [unsigned int] argument on its way to a handler's [int]
    parameter.  The identity on the range of [int]. *)
Definition to_int (z : Z) : Z := (z + 2 ^ 31) mod 2 ^ 32 - 2 ^ 31.

(** Conversion of a [char] to [bool]: what happens to [isLast] on its way
    to a handler's [bool last]. *)
Definition to_bool (z : Z) : bool := negb (z =? 0).

(** ** Tags *)

(** The names of the [task_name] constants used in vntaptd.cpp. *)
Inductive TaskName : Set :=
  | ONCONNECT
  | ONRSPLOGIN
  | ONRTNCONTACTINFO
  | ONRSPREQUESTVERTIFICATECODE
  | ONEXPRIATIONDATE
  | ONAPIREADY
  | ONDISCONNECT
  | ONRSPCHANGEPASSWORD
  | ONRSPAUTHPASSWORD
  | ONRSPQRYTRADINGDATE
  | ONRSPSETRESERVEDINFO
  | ONRSPQRYACCOUNT
  | ONRSPQRYFUND
  | ONRTNFUND
  | ONRSPQRYEXCHANGE
  | ONRSPQRYCOMMODITY
  | ONRSPQRYCONTRACT
  | ONRTNCONTRACT
  | ONRSPORDERACTION
  | ONRTNORDER
  | ONRSPQRYORDER
  | ONRSPQRYORDERPROCESS
  | ONRSPQRYFILL
  | ONRTNFILL
  | ONRSPQRYPOSITION
  | ONRTNPOSITION
  | ONRSPQRYPOSITIONSUMMARY
  | ONRTNPOSITIONSUMMARY
  | ONRTNPOSITIONPROFIT
  | ONRSPQRYCURRENCY
  | ONRSPQRYTRADEMESSAGE
  | ONRTNTRADEMESSAGE
  | ONRSPQRYHISORDER
  | ONRSPQRYHISORDERPROCESS
  | ONRSPQRYHISMATCH
  | ONRSPQRYHISPOSITION
  | ONRSPQRYHISDELIVERY
  | ONRSPQRYACCOUNTCASHADJUST
  | ONRSPQRYBILL
  | ONRSPQRYACCOUNTFEERENT
  | ONRSPQRYACCOUNTMARGINRENT
  | ONRSPHKMARKETORDERINSERT
  | ONRSPHKMARKETORDERDELETE
  | ONHKMARKETQUOTENOTICE
  | ONRSPORDERLOCALREMOVE
  | ONRSPORDERLOCALINPUT
  | ONRSPORDERLOCALMODIFY
  | ONRSPORDERLOCALTRANSFER
  | ONRSPFILLLOCALINPUT
  | ONRSPFILLLOCALREMOVE
.

(** The constants in the order in which the callbacks that use them are defined. *)
Definition all_tags : list TaskName :=
  [ ONCONNECT;
    ONRSPLOGIN;
    ONRTNCONTACTINFO;
    ONRSPREQUESTVERTIFICATECODE;
    ONEXPRIATIONDATE;
    ONAPIREADY;
    ONDISCONNECT;
    ONRSPCHANGEPASSWORD;
    ONRSPAUTHPASSWORD;
    ONRSPQRYTRADINGDATE;
    ONRSPSETRESERVEDINFO;
    ONRSPQRYACCOUNT;
    ONRSPQRYFUND;
    ONRTNFUND;
    ONRSPQRYEXCHANGE;
    ONRSPQRYCOMMODITY;
    ONRSPQRYCONTRACT;
    ONRTNCONTRACT;
    ONRSPORDERACTION;
    ONRTNORDER;
    ONRSPQRYORDER;
    ONRSPQRYORDERPROCESS;
    ONRSPQRYFILL;
    ONRTNFILL;
    ONRSPQRYPOSITION;
    ONRTNPOSITION;
    ONRSPQRYPOSITIONSUMMARY;
    ONRTNPOSITIONSUMMARY;
    ONRTNPOSITIONPROFIT;
    ONRSPQRYCURRENCY;
    ONRSPQRYTRADEMESSAGE;
    ONRTNTRADEMESSAGE;
    ONRSPQRYHISORDER;
    ONRSPQRYHISORDERPROCESS;
    ONRSPQRYHISMATCH;
    ONRSPQRYHISPOSITION;
    ONRSPQRYHISDELIVERY;
    ONRSPQRYACCOUNTCASHADJUST;
    ONRSPQRYBILL;
    ONRSPQRYACCOUNTFEERENT;
    ONRSPQRYACCOUNTMARGINRENT;
    ONRSPHKMARKETORDERINSERT;
    ONRSPHKMARKETORDERDELETE;
    ONHKMARKETQUOTENOTICE;
    ONRSPORDERLOCALREMOVE;
    ONRSPORDERLOCALINPUT;
    ONRSPORDERLOCALMODIFY;
    ONRSPORDERLOCALTRANSFER;
    ONRSPFILLLOCALINPUT;
    ONRSPFILLLOCALREMOVE ].

(** Position of a constant in [all_tags]. *)
Definition tag_index (t : TaskName) : nat :=
  match t with
  | ONCONNECT => 0
  | ONRSPLOGIN => 1
  | ONRTNCONTACTINFO => 2
  | ONRSPREQUESTVERTIFICATECODE => 3
  | ONEXPRIATIONDATE => 4
  | ONAPIREADY => 5
  | ONDISCONNECT => 6
  | ONRSPCHANGEPASSWORD => 7
  | ONRSPAUTHPASSWORD => 8
  | ONRSPQRYTRADINGDATE => 9
  | ONRSPSETRESERVEDINFO => 10
  | ONRSPQRYACCOUNT => 11
  | ONRSPQRYFUND => 12
  | ONRTNFUND => 13
  | ONRSPQRYEXCHANGE => 14
  | ONRSPQRYCOMMODITY => 15
  | ONRSPQRYCONTRACT => 16
  | ONRTNCONTRACT => 17
  | ONRSPORDERACTION => 18
  | ONRTNORDER => 19
  | ONRSPQRYORDER => 20
  | ONRSPQRYORDERPROCESS => 21
  | ONRSPQRYFILL => 22
  | ONRTNFILL => 23
  | ONRSPQRYPOSITION => 24
  | ONRTNPOSITION => 25
  | ONRSPQRYPOSITIONSUMMARY => 26
  | ONRTNPOSITIONSUMMARY => 27
  | ONRTNPOSITIONPROFIT => 28
  | ONRSPQRYCURRENCY => 29
  | ONRSPQRYTRADEMESSAGE => 30
  | ONRTNTRADEMESSAGE => 31
  | ONRSPQRYHISORDER => 32
  | ONRSPQRYHISORDERPROCESS => 33
  | ONRSPQRYHISMATCH => 34
  | ONRSPQRYHISPOSITION => 35
  | ONRSPQRYHISDELIVERY => 36
  | ONRSPQRYACCOUNTCASHADJUST => 37
  | ONRSPQRYBILL => 38
  | ONRSPQRYACCOUNTFEERENT => 39
  | ONRSPQRYACCOUNTMARGINRENT => 40
  | ONRSPHKMARKETORDERINSERT => 41
  | ONRSPHKMARKETORDERDELETE => 42
  | ONHKMARKETQUOTENOTICE => 43
  | ONRSPORDERLOCALREMOVE => 44
  | ONRSPORDERLOCALINPUT => 45
  | ONRSPORDERLOCALMODIFY => 46
  | ONRSPORDERLOCALTRANSFER => 47
  | ONRSPFILLLOCALINPUT => 48
  | ONRSPFILLLOCALREMOVE => 49
  end.

(** A numbering of the tags: each constant is its position. *)
Definition tag_position (t : TaskName) : Z := Z.of_nat (tag_index t).

(** ** Copying a vendor struct into a dict *)

(** One statement of a [processXxx] body:
    [SetUtf k f] is [data["k"] = toUtf(task_data->f);] and
    [SetRaw k f] is [data["k"] = task_data->f;]. *)
Inductive Assign : Set :=
  | SetUtf (key field : string)
  | SetRaw (key field : string).

Definition key (a : Assign) : string :=
  match a with SetUtf k _ | SetRaw k _ => k end.

Definition field (a : Assign) : string :=
  match a with SetUtf _ f | SetRaw _ f => f end.

Section Bridge.

Context {CVal PyObj : Type}.

(** [toUtf] of the absent header, on the C value of a [char] array field. *)
Variable toUtf : CVal -> CVal.
(** pybind11's conversion of a C++ value assigned to [data[...]]. *)
Variable cast : CVal -> PyObj.
(** The value each tag constant is defined as. *)
Variable tag : TaskName -> Z.

(** A vendor struct, read through its field names. *)
Definition Struct : Type := string -> CVal.

Abbreviation dict := (gmap string PyObj).

(** Modelled from the spec: the "generic tagged task".  [struct Task] is
    declared in a header that is absent; the fields are the ones
    vntaptd.cpp reads and writes.  [task_id] and [task_int] are [int] and
    [task_last] is [bool], the types of the handler parameters they are
    passed to, so a value is converted when it is stored; were a field of
    the callback's type, the same conversion would happen at the handler
    call.  [task_data] is the owning [void*], [None] for a null pointer. *)
Record Task := mkTask {
  task_name : Z;
  task_data : option Struct;
  task_id : Z;
  task_int : Z;
  task_last : bool;
  task_string : string
}.

(** [Task()]: value initialisation. *)
Definition Task0 : Task := mkTask 0 None 0 0 false "".

Definition set_task_name (v : Z) (t : Task) : Task :=
  mkTask v (task_data t) (task_id t) (task_int t) (task_last t) (task_string t).
Definition set_task_data (v : option Struct) (t : Task) : Task :=
  mkTask (task_name t) v (task_id t) (task_int t) (task_last t) (task_string t).
Definition set_task_id (v : Z) (t : Task) : Task :=
  mkTask (task_name t) (task_data t) v (task_int t) (task_last t) (task_string t).
Definition set_task_int (v : Z) (t : Task) : Task :=
  mkTask (task_name t) (task_data t) (task_id t) v (task_last t) (task_string t).
Definition set_task_last (v : bool) (t : Task) : Task :=
  mkTask (task_name t) (task_data t) (task_id t) (task_int t) v (task_string t).
Definition set_task_string (v : string) (t : Task) : Task :=
  mkTask (task_name t) (task_data t) (task_id t) (task_int t) (task_last t) v.

(** ** Handlers *)

(** A call of a user-overridable handler with its arguments, as declared
    by the overrides of [PyTdApi] (vntaptd.cpp:2943-3551).  The source
    names both [int] parameters of [onRspQryAccount] [session]; the second
    one is called [error] here, after the callback's [errorCode]. *)
Inductive HandlerCall :=
  | onConnect
  | onRspLogin (error : Z) (data : dict)
  | onRtnContactInfo (error : Z) (last : bool) (ContactInfo : string)
  | onRspRequestVertificateCode (session : Z) (error : Z) (data : dict)
  | onExpriationDate (date : string) (days : Z)
  | onAPIReady (error : Z)
  | onDisconnect (reasonCode : Z)
  | onRspChangePassword (session : Z) (error : Z)
  | onRspAuthPassword (session : Z) (error : Z)
  | onRspQryTradingDate (session : Z) (error : Z) (data : dict)
  | onRspSetReservedInfo (session : Z) (error : Z) (info : string)
  | onRspQryAccount (session : Z) (error : Z) (last : bool) (data : dict)
  | onRspQryFund (session : Z) (error : Z) (last : bool) (data : dict)
  | onRtnFund (data : dict)
  | onRspQryExchange (session : Z) (error : Z) (last : bool) (data : dict)
  | onRspQryCommodity (session : Z) (error : Z) (last : bool) (data : dict)
  | onRspQryContract (session : Z) (error : Z) (last : bool) (data : dict)
  | onRtnContract (data : dict)
  | onRspOrderAction (session : Z) (error : Z) (data : dict)
  | onRtnOrder (data : dict)
  | onRspQryOrder (session : Z) (error : Z) (last : bool) (data : dict)
  | onRspQryOrderProcess (session : Z) (error : Z) (last : bool) (data : dict)
  | onRspQryFill (session : Z) (error : Z) (last : bool) (data : dict)
  | onRtnFill (data : dict)
  | onRspQryPosition (session : Z) (error : Z) (last : bool) (data : dict)
  | onRtnPosition (data : dict)
  | onRspQryPositionSummary (session : Z) (error : Z) (last : bool) (data : dict)
  | onRtnPositionSummary (data : dict)
  | onRtnPositionProfit (data : dict)
  | onRspQryCurrency (session : Z) (error : Z) (last : bool) (data : dict)
  | onRspQryTradeMessage (session : Z) (error : Z) (last : bool) (data : dict)
  | onRtnTradeMessage (data : dict)
  | onRspQryHisOrder (session : Z) (error : Z) (last : bool) (data : dict)
  | onRspQryHisOrderProcess (session : Z) (error : Z) (last : bool) (data : dict)
  | onRspQryHisMatch (session : Z) (error : Z) (last : bool) (data : dict)
  | onRspQryHisPosition (session : Z) (error : Z) (last : bool) (data : dict)
  | onRspQryHisDelivery (session : Z) (error : Z) (last : bool) (data : dict)
  | onRspQryAccountCashAdjust (session : Z) (error : Z) (last : bool) (data : dict)
  | onRspQryBill (session : Z) (error : Z) (last : bool) (data : dict)
  | onRspQryAccountFeeRent (session : Z) (error : Z) (last : bool) (data : dict)
  | onRspQryAccountMarginRent (session : Z) (error : Z) (last : bool) (data : dict)
  | onRspHKMarketOrderInsert (session : Z) (error : Z) (data : dict)
  | onRspHKMarketOrderDelete (session : Z) (error : Z) (data : dict)
  | onHKMarketQuoteNotice (data : dict)
  | onRspOrderLocalRemove (session : Z) (error : Z) (data : dict)
  | onRspOrderLocalInput (session : Z) (error : Z) (data : dict)
  | onRspOrderLocalModify (session : Z) (error : Z) (data : dict)
  | onRspOrderLocalTransfer (session : Z) (error : Z) (data : dict)
  | onRspFillLocalInput (session : Z) (error : Z) (data : dict)
  | onRspFillLocalRemove (session : Z) (error : Z) (data : dict)
.

(** What a piece of code does to the outside: push a task, pop one, call a
    handler. *)
Inductive Action :=
  | Push (task : Task)
  | Pop (task : Task)
  | Invoke (h : HandlerCall).

Definition assign (task_data : Struct) (data : dict) (a : Assign) : dict :=
  match a with
  | SetUtf k f => <[k := cast (toUtf (task_data f))]> data
  | SetRaw k f => <[k := cast (task_data f)]> data
  end.

(** The assignments of a body, run in order. *)
Definition fill (body : list Assign) (task_data : Struct) (data : dict) : dict :=
  foldl (assign task_data) data body.

(** ** The callbacks (vntaptd.cpp:12-712) *)

(** vntaptd.cpp:12 *)
Definition OnConnect : list Action :=
  let task := Task0 in
  let task := set_task_name (tag ONCONNECT) task in
  [Push task].

(** vntaptd.cpp:19 *)
Definition OnRspLogin (errorCode : Z) (loginRspInfo : option Struct) : list Action :=
  let task := Task0 in
  let task := set_task_name (tag ONRSPLOGIN) task in
  let task := set_task_int errorCode task in
  let task := match loginRspInfo with Some d => set_task_data (Some d) task | None => task end in
  [Push task].

(** vntaptd.cpp:33 *)
Definition OnRtnContactInfo (errorCode : Z) (isLast : Z) (ContactInfo : string) : list Action :=
  let task := Task0 in
  let task := set_task_name (tag ONRTNCONTACTINFO) task in
  let task := set_task_int errorCode task in
  let task := set_task_last (to_bool isLast) task in
  let task := set_task_string ContactInfo task in
  [Push task].

(** vntaptd.cpp:43 *)
Definition OnRspRequestVertificateCode (sessionID : Z) (errorCode : Z) (rsp : option Struct) : list Action :=
  let task := Task0 in
  let task := set_task_name (tag ONRSPREQUESTVERTIFICATECODE) task in
  let task := set_task_id (to_int sessionID) task in
  let task := set_task_int errorCode task in
  let task := match rsp with Some d => set_task_data (Some d) task | None => task end in
  [Push task].

(** vntaptd.cpp:58 *)
Definition OnExpriationDate (date : string) (days : Z) : list Action :=
  let task := Task0 in
  let task := set_task_name (tag ONEXPRIATIONDATE) task in
  let task := set_task_string date task in
  let task := set_task_int days task in
  [Push task].

(** vntaptd.cpp:67 *)
Definition OnAPIReady (errorCode : Z) : list Action :=
  let task := Task0 in
  let task := set_task_name (tag ONAPIREADY) task in
  let task := set_task_int errorCode task in
  [Push task].

(** vntaptd.cpp:75 *)
Definition OnDisconnect (reasonCode : Z) : list Action :=
  let task := Task0 in
  let task := set_task_name (tag ONDISCONNECT) task in
  let task := set_task_int reasonCode task in
  [Push task].

(** vntaptd.cpp:83 *)
Definition OnRspChangePassword (sessionID : Z) (errorCode : Z) : list Action :=
  let task := Task0 in
  let task := set_task_name (tag ONRSPCHANGEPASSWORD) task in
  let task := set_task_id (to_int sessionID) task in
  let task := set_task_int errorCode task in
  [Push task].

(** vntaptd.cpp:92 *)
Definition OnRspAuthPassword (sessionID : Z) (errorCode : Z) : list Action :=
  let task := Task0 in
  let task := set_task_name (tag ONRSPAUTHPASSWORD) task in
  let task := set_task_id (to_int sessionID) task in
  let task := set_task_int errorCode task in
  [Push task].

(** vntaptd.cpp:101 *)
Definition OnRspQryTradingDate (sessionID : Z) (errorCode : Z) (info : option Struct) : list Action :=
  let task := Task0 in
  let task := set_task_name (tag ONRSPQRYTRADINGDATE) task in
  let task := set_task_id (to_int sessionID) task in
  let task := set_task_int errorCode task in
  let task := match info with Some d => set_task_data (Some d) task | None => task end in
  [Push task].

(** vntaptd.cpp:116 *)
Definition OnRspSetReservedInfo (sessionID : Z) (errorCode : Z) (info : string) : list Action :=
  let task := Task0 in
  let task := set_task_name (tag ONRSPSETRESERVEDINFO) task in
  let task := set_task_id (to_int sessionID) task in
  let task := set_task_int errorCode task in
  let task := set_task_string info task in
  [Push task].

(** vntaptd.cpp:126.  [errorCode] is an [unsigned int] here, and it is stored in
    [task_id], over [sessionID]; [task_int] is left as it was. *)
Definition OnRspQryAccount (sessionID : Z) (errorCode : Z) (isLast : Z) (info : option Struct) : list Action :=
  let task := Task0 in
  let task := set_task_name (tag ONRSPQRYACCOUNT) task in
  let task := set_task_id (to_int sessionID) task in
  let task := set_task_id (to_int errorCode) task in
  let task := set_task_last (to_bool isLast) task in
  let task := match info with Some d => set_task_data (Some d) task | None => task end in
  [Push task].

(** vntaptd.cpp:142 *)
Definition OnRspQryFund (sessionID : Z) (errorCode : Z) (isLast : Z) (info : option Struct) : list Action :=
  let task := Task0 in
  let task := set_task_name (tag ONRSPQRYFUND) task in
  let task := set_task_id (to_int sessionID) task in
  let task := set_task_int errorCode task in
  let task := set_task_last (to_bool isLast) task in
  let task := match info with Some d => set_task_data (Some d) task | None => task end in
  [Push task].

(** vntaptd.cpp:158 *)
Definition OnRtnFund (info : option Struct) : list Action :=
  let task := Task0 in
  let task := set_task_name (tag ONRTNFUND) task in
  let task := match info with Some d => set_task_data (Some d) task | None => task end in
  [Push task].

(** vntaptd.cpp:171 *)
Definition OnRspQryExchange (sessionID : Z) (errorCode : Z) (isLast : Z) (info : option Struct) : list Action :=
  let task := Task0 in
  let task := set_task_name (tag ONRSPQRYEXCHANGE) task in
  let task := set_task_id (to_int sessionID) task in
  let task := set_task_int errorCode task in
  let task := set_task_last (to_bool isLast) task in
  let task := match info with Some d => set_task_data (Some d) task | None => task end in
  [Push task].

(** vntaptd.cpp:187 *)
Definition OnRspQryCommodity (sessionID : Z) (errorCode : Z) (isLast : Z) (info : option Struct) : list Action :=
  let task := Task0 in
  let task := set_task_name (tag ONRSPQRYCOMMODITY) task in
  let task := set_task_id (to_int sessionID) task in
  let task := set_task_int errorCode task in
  let task := set_task_last (to_bool isLast) task in
  let task := match info with Some d => set_task_data (Some d) task | None => task end in
  [Push task].

(** vntaptd.cpp:203 *)
Definition OnRspQryContract (sessionID : Z) (errorCode : Z) (isLast : Z) (info : option Struct) : list Action :=
  let task := Task0 in
  let task := set_task_name (tag ONRSPQRYCONTRACT) task in
  let task := set_task_id (to_int sessionID) task in
  let task := set_task_int errorCode task in
  let task := set_task_last (to_bool isLast) task in
  let task := match info with Some d => set_task_data (Some d) task | None => task end in
  [Push task].

(** vntaptd.cpp:219 *)
Definition OnRtnContract (info : option Struct) : list Action :=
  let task := Task0 in
  let task := set_task_name (tag ONRTNCONTRACT) task in
  let task := match info with Some d => set_task_data (Some d) task | None => task end in
  [Push task].

(** vntaptd.cpp:232 *)
Definition OnRspOrderAction (sessionID : Z) (errorCode : Z) (info : option Struct) : list Action :=
  let task := Task0 in
  let task := set_task_name (tag ONRSPORDERACTION) task in
  let task := set_task_id (to_int sessionID) task in
  let task := set_task_int errorCode task in
  let task := match info with Some d => set_task_data (Some d) task | None => task end in
  [Push task].

(** vntaptd.cpp:247 *)
Definition OnRtnOrder (info : option Struct) : list Action :=
  let task := Task0 in
  let task := set_task_name (tag ONRTNORDER) task in
  let task := match info with Some d => set_task_data (Some d) task | None => task end in
  [Push task].

(** vntaptd.cpp:260 *)
Definition OnRspQryOrder (sessionID : Z) (errorCode : Z) (isLast : Z) (info : option Struct) : list Action :=
  let task := Task0 in
  let task := set_task_name (tag ONRSPQRYORDER) task in
  let task := set_task_id (to_int sessionID) task in
  let task := set_task_int errorCode task in
  let task := set_task_last (to_bool isLast) task in
  let task := match info with Some d => set_task_data (Some d) task | None => task end in
  [Push task].

(** vntaptd.cpp:276 *)
Definition OnRspQryOrderProcess (sessionID : Z) (errorCode : Z) (isLast : Z) (info : option Struct) : list Action :=
  let task := Task0 in
  let task := set_task_name (tag ONRSPQRYORDERPROCESS) task in
  let task := set_task_id (to_int sessionID) task in
  let task := set_task_int errorCode task in
  let task := set_task_last (to_bool isLast) task in
  let task := match info with Some d => set_task_data (Some d) task | None => task end in
  [Push task].

(** vntaptd.cpp:292 *)
Definition OnRspQryFill (sessionID : Z) (errorCode : Z) (isLast : Z) (info : option Struct) : list Action :=
  let task := Task0 in
  let task := set_task_name (tag ONRSPQRYFILL) task in
  let task := set_task_id (to_int sessionID) task in
  let task := set_task_int errorCode task in
  let task := set_task_last (to_bool isLast) task in
  let task := match info with Some d => set_task_data (Some d) task | None => task end in
  [Push task].

(** vntaptd.cpp:308 *)
Definition OnRtnFill (info : option Struct) : list Action :=
  let task := Task0 in
  let task := set_task_name (tag ONRTNFILL) task in
  let task := match info with Some d => set_task_data (Some d) task | None => task end in
  [Push task].

(** vntaptd.cpp:321 *)
Definition OnRspQryPosition (sessionID : Z) (errorCode : Z) (isLast : Z) (info : option Struct) : list Action :=
  let task := Task0 in
  let task := set_task_name (tag ONRSPQRYPOSITION) task in
  let task := set_task_id (to_int sessionID) task in
  let task := set_task_int errorCode task in
  let task := set_task_last (to_bool isLast) task in
  let task := match info with Some d => set_task_data (Some d) task | None => task end in
  [Push task].

(** vntaptd.cpp:337 *)
Definition OnRtnPosition (info : option Struct) : list Action :=
  let task := Task0 in
  let task := set_task_name (tag ONRTNPOSITION) task in
  let task := match info with Some d => set_task_data (Some d) task | None => task end in
  [Push task].

(** vntaptd.cpp:350 *)
Definition OnRspQryPositionSummary (sessionID : Z) (errorCode : Z) (isLast : Z) (info : option Struct) : list Action :=
  let task := Task0 in
  let task := set_task_name (tag ONRSPQRYPOSITIONSUMMARY) task in
  let task := set_task_id (to_int sessionID) task in
  let task := set_task_int errorCode task in
  let task := set_task_last (to_bool isLast) task in
  let task := match info with Some d => set_task_data (Some d) task | None => task end in
  [Push task].

(** vntaptd.cpp:366 *)
Definition OnRtnPositionSummary (info : option Struct) : list Action :=
  let task := Task0 in
  let task := set_task_name (tag ONRTNPOSITIONSUMMARY) task in
  let task := match info with Some d => set_task_data (Some d) task | None => task end in
  [Push task].

(** vntaptd.cpp:379 *)
Definition OnRtnPositionProfit (info : option Struct) : list Action :=
  let task := Task0 in
  let task := set_task_name (tag ONRTNPOSITIONPROFIT) task in
  let task := match info with Some d => set_task_data (Some d) task | None => task end in
  [Push task].

(** vntaptd.cpp:392 *)
Definition OnRspQryCurrency (sessionID : Z) (errorCode : Z) (isLast : Z) (info : option Struct) : list Action :=
  let task := Task0 in
  let task := set_task_name (tag ONRSPQRYCURRENCY) task in
  let task := set_task_id (to_int sessionID) task in
  let task := set_task_int errorCode task in
  let task := set_task_last (to_bool isLast) task in
  let task := match info with Some d => set_task_data (Some d) task | None => task end in
  [Push task].

(** vntaptd.cpp:408 *)
Definition OnRspQryTradeMessage (sessionID : Z) (errorCode : Z) (isLast : Z) (info : option Struct) : list Action :=
  let task := Task0 in
  let task := set_task_name (tag ONRSPQRYTRADEMESSAGE) task in
  let task := set_task_id (to_int sessionID) task in
  let task := set_task_int errorCode task in
  let task := set_task_last (to_bool isLast) task in
  let task := match info with Some d => set_task_data (Some d) task | None => task end in
  [Push task].

(** vntaptd.cpp:424 *)
Definition OnRtnTradeMessage (info : option Struct) : list Action :=
  let task := Task0 in
  let task := set_task_name (tag ONRTNTRADEMESSAGE) task in
  let task := match info with Some d => set_task_data (Some d) task | None => task end in
  [Push task].

(** vntaptd.cpp:437 *)
Definition OnRspQryHisOrder (sessionID : Z) (errorCode : Z) (isLast : Z) (info : option Struct) : list Action :=
  let task := Task0 in
  let task := set_task_name (tag ONRSPQRYHISORDER) task in
  let task := set_task_id (to_int sessionID) task in
  let task := set_task_int errorCode task in
  let task := set_task_last (to_bool isLast) task in
  let task := match info with Some d => set_task_data (Some d) task | None => task end in
  [Push task].

(** vntaptd.cpp:453 *)
Definition OnRspQryHisOrderProcess (sessionID : Z) (errorCode : Z) (isLast : Z) (info : option Struct) : list Action :=
  let task := Task0 in
  let task := set_task_name (tag ONRSPQRYHISORDERPROCESS) task in
  let task := set_task_id (to_int sessionID) task in
  let task := set_task_int errorCode task in
  let task := set_task_last (to_bool isLast) task in
  let task := match info with Some d => set_task_data (Some d) task | None => task end in
  [Push task].

(** vntaptd.cpp:469 *)
Definition OnRspQryHisMatch (sessionID : Z) (errorCode : Z) (isLast : Z) (info : option Struct) : list Action :=
  let task := Task0 in
  let task := set_task_name (tag ONRSPQRYHISMATCH) task in
  let task := set_task_id (to_int sessionID) task in
  let task := set_task_int errorCode task in
  let task := set_task_last (to_bool isLast) task in
  let task := match info with Some d => set_task_data (Some d) task | None => task end in
  [Push task].

(** vntaptd.cpp:485 *)
Definition OnRspQryHisPosition (sessionID : Z) (errorCode : Z) (isLast : Z) (info : option Struct) : list Action :=
  let task := Task0 in
  let task := set_task_name (tag ONRSPQRYHISPOSITION) task in
  let task := set_task_id (to_int sessionID) task in
  let task := set_task_int errorCode task in
  let task := set_task_last (to_bool isLast) task in
  let task := match info with Some d => set_task_data (Some d) task | None => task end in
  [Push task].

(** vntaptd.cpp:501 *)
Definition OnRspQryHisDelivery (sessionID : Z) (errorCode : Z) (isLast : Z) (info : option Struct) : list Action :=
  let task := Task0 in
  let task := set_task_name (tag ONRSPQRYHISDELIVERY) task in
  let task := set_task_id (to_int sessionID) task in
  let task := set_task_int errorCode task in
  let task := set_task_last (to_bool isLast) task in
  let task := match info with Some d => set_task_data (Some d) task | None => task end in
  [Push task].

(** vntaptd.cpp:517 *)
Definition OnRspQryAccountCashAdjust (sessionID : Z) (errorCode : Z) (isLast : Z) (info : option Struct) : list Action :=
  let task := Task0 in
  let task := set_task_name (tag ONRSPQRYACCOUNTCASHADJUST) task in
  let task := set_task_id (to_int sessionID) task in
  let task := set_task_int errorCode task in
  let task := set_task_last (to_bool isLast) task in
  let task := match info with Some d => set_task_data (Some d) task | None => task end in
  [Push task].

(** vntaptd.cpp:533 *)
Definition OnRspQryBill (sessionID : Z) (errorCode : Z) (isLast : Z) (info : option Struct) : list Action :=
  let task := Task0 in
  let task := set_task_name (tag ONRSPQRYBILL) task in
  let task := set_task_id (to_int sessionID) task in
  let task := set_task_int errorCode task in
  let task := set_task_last (to_bool isLast) task in
  let task := match info with Some d => set_task_data (Some d) task | None => task end in
  [Push task].

(** vntaptd.cpp:549 *)
Definition OnRspQryAccountFeeRent (sessionID : Z) (errorCode : Z) (isLast : Z) (info : option Struct) : list Action :=
  let task := Task0 in
  let task := set_task_name (tag ONRSPQRYACCOUNTFEERENT) task in
  let task := set_task_id (to_int sessionID) task in
  let task := set_task_int errorCode task in
  let task := set_task_last (to_bool isLast) task in
  let task := match info with Some d => set_task_data (Some d) task | None => task end in
  [Push task].

(** vntaptd.cpp:565 *)
Definition OnRspQryAccountMarginRent (sessionID : Z) (errorCode : Z) (isLast : Z) (info : option Struct) : list Action :=
  let task := Task0 in
  let task := set_task_name (tag ONRSPQRYACCOUNTMARGINRENT) task in
  let task := set_task_id (to_int sessionID) task in
  let task := set_task_int errorCode task in
  let task := set_task_last (to_bool isLast) task in
  let task := match info with Some d => set_task_data (Some d) task | None => task end in
  [Push task].

(** vntaptd.cpp:581 *)
Definition OnRspHKMarketOrderInsert (sessionID : Z) (errorCode : Z) (info : option Struct) : list Action :=
  let task := Task0 in
  let task := set_task_name (tag ONRSPHKMARKETORDERINSERT) task in
  let task := set_task_id (to_int sessionID) task in
  let task := set_task_int errorCode task in
  let task := match info with Some d => set_task_data (Some d) task | None => task end in
  [Push task].

(** vntaptd.cpp:596 *)
Definition OnRspHKMarketOrderDelete (sessionID : Z) (errorCode : Z) (info : option Struct) : list Action :=
  let task := Task0 in
  let task := set_task_name (tag ONRSPHKMARKETORDERDELETE) task in
  let task := set_task_id (to_int sessionID) task in
  let task := set_task_int errorCode task in
  let task := match info with Some d => set_task_data (Some d) task | None => task end in
  [Push task].

(** vntaptd.cpp:611 *)
Definition OnHKMarketQuoteNotice (info : option Struct) : list Action :=
  let task := Task0 in
  let task := set_task_name (tag ONHKMARKETQUOTENOTICE) task in
  let task := match info with Some d => set_task_data (Some d) task | None => task end in
  [Push task].

(** vntaptd.cpp:624 *)
Definition OnRspOrderLocalRemove (sessionID : Z) (errorCode : Z) (info : option Struct) : list Action :=
  let task := Task0 in
  let task := set_task_name (tag ONRSPORDERLOCALREMOVE) task in
  let task := set_task_id (to_int sessionID) task in
  let task := set_task_int errorCode task in
  let task := match info with Some d => set_task_data (Some d) task | None => task end in
  [Push task].

(** vntaptd.cpp:639 *)
Definition OnRspOrderLocalInput (sessionID : Z) (errorCode : Z) (info : option Struct) : list Action :=
  let task := Task0 in
  let task := set_task_name (tag ONRSPORDERLOCALINPUT) task in
  let task := set_task_id (to_int sessionID) task in
  let task := set_task_int errorCode task in
  let task := match info with Some d => set_task_data (Some d) task | None => task end in
  [Push task].

(** vntaptd.cpp:654 *)
Definition OnRspOrderLocalModify (sessionID : Z) (errorCode : Z) (info : option Struct) : list Action :=
  let task := Task0 in
  let task := set_task_name (tag ONRSPORDERLOCALMODIFY) task in
  let task := set_task_id (to_int sessionID) task in
  let task := set_task_int errorCode task in
  let task := match info with Some d => set_task_data (Some d) task | None => task end in
  [Push task].

(** vntaptd.cpp:669 *)
Definition OnRspOrderLocalTransfer (sessionID : Z) (errorCode : Z) (info : option Struct) : list Action :=
  let task := Task0 in
  let task := set_task_name (tag ONRSPORDERLOCALTRANSFER) task in
  let task := set_task_id (to_int sessionID) task in
  let task := set_task_int errorCode task in
  let task := match info with Some d => set_task_data (Some d) task | None => task end in
  [Push task].

(** vntaptd.cpp:684 *)
Definition OnRspFillLocalInput (sessionID : Z) (errorCode : Z) (info : option Struct) : list Action :=
  let task := Task0 in
  let task := set_task_name (tag ONRSPFILLLOCALINPUT) task in
  let task := set_task_id (to_int sessionID) task in
  let task := set_task_int errorCode task in
  let task := match info with Some d => set_task_data (Some d) task | None => task end in
  [Push task].

(** vntaptd.cpp:699 *)
Definition OnRspFillLocalRemove (sessionID : Z) (errorCode : Z) (info : option Struct) : list Action :=
  let task := Task0 in
  let task := set_task_name (tag ONRSPFILLLOCALREMOVE) task in
  let task := set_task_id (to_int sessionID) task in
  let task := set_task_int errorCode task in
  let task := match info with Some d => set_task_data (Some d) task | None => task end in
  [Push task].
(** ** The process functions (vntaptd.cpp:1040-2626) *)

(** vntaptd.cpp:1040 *)
Definition processConnect (task : Task) : list Action :=
  [Invoke onConnect].

(** vntaptd.cpp:1045, the assignments to [data] in order; [task_data] is a
    [TapAPITradeLoginRspInfo]. *)
Definition processRspLogin_copy : list Assign :=
  [ SetUtf "UserNo" "UserNo";
    SetRaw "UserType" "UserType";
    SetUtf "UserName" "UserName";
    SetUtf "ReservedInfo" "ReservedInfo";
    SetUtf "LastLoginIP" "LastLoginIP";
    SetRaw "LastLoginProt" "LastLoginProt";
    SetUtf "LastLoginTime" "LastLoginTime";
    SetUtf "LastLogoutTime" "LastLogoutTime";
    SetUtf "TradeDate" "TradeDate";
    SetUtf "LastSettleTime" "LastSettleTime";
    SetUtf "StartTime" "StartTime";
    SetUtf "InitTime" "InitTime" ].

Definition processRspLogin (task : Task) : list Action :=
  let data : dict := ∅ in
  let data :=
    match task_data task with
    | Some d => fill processRspLogin_copy d data
    | None => data
    end in
  [Invoke (onRspLogin (task_int task) data)].

(** vntaptd.cpp:1069 *)
Definition processRtnContactInfo (task : Task) : list Action :=
  [Invoke (onRtnContactInfo (task_int task) (task_last task) (task_string task))].

(** vntaptd.cpp:1075, the assignments to [data] in order; [task_data] is a
    [TapAPIRequestVertificateCodeRsp]. *)
Definition processRspRequestVertificateCode_copy : list Assign :=
  [ SetUtf "SecondSerialID" "SecondSerialID";
    SetRaw "Effective" "Effective" ].

Definition processRspRequestVertificateCode (task : Task) : list Action :=
  let data : dict := ∅ in
  let data :=
    match task_data task with
    | Some d => fill processRspRequestVertificateCode_copy d data
    | None => data
    end in
  [Invoke (onRspRequestVertificateCode (task_id task) (task_int task) data)].

(** vntaptd.cpp:1089 *)
Definition processExpriationDate (task : Task) : list Action :=
  [Invoke (onExpriationDate (task_string task) (task_int task))].

(** vntaptd.cpp:1095 *)
Definition processAPIReady (task : Task) : list Action :=
  [Invoke (onAPIReady (task_int task))].

(** vntaptd.cpp:1101 *)
Definition processDisconnect (task : Task) : list Action :=
  [Invoke (onDisconnect (task_int task))].

(** vntaptd.cpp:1107 *)
Definition processRspChangePassword (task : Task) : list Action :=
  [Invoke (onRspChangePassword (task_id task) (task_int task))].

(** vntaptd.cpp:1113 *)
Definition processRspAuthPassword (task : Task) : list Action :=
  [Invoke (onRspAuthPassword (task_id task) (task_int task))].

(** vntaptd.cpp:1119, the assignments to [data] in order; [task_data] is a
    [TapAPITradingCalendarQryRsp]. *)
Definition processRspQryTradingDate_copy : list Assign :=
  [ SetUtf "CurrTradeDate" "CurrTradeDate";
    SetUtf "LastSettlementDate" "LastSettlementDate";
    SetUtf "PromptDate" "PromptDate";
    SetUtf "LastPromptDate" "LastPromptDate" ].

Definition processRspQryTradingDate (task : Task) : list Action :=
  let data : dict := ∅ in
  let data :=
    match task_data task with
    | Some d => fill processRspQryTradingDate_copy d data
    | None => data
    end in
  [Invoke (onRspQryTradingDate (task_id task) (task_int task) data)].

(** vntaptd.cpp:1135 *)
Definition processRspSetReservedInfo (task : Task) : list Action :=
  [Invoke (onRspSetReservedInfo (task_id task) (task_int task) (task_string task))].

(** vntaptd.cpp:1141, the assignments to [data] in order; [task_data] is a
    [TapAPIAccountInfo]. *)
Definition processRspQryAccount_copy : list Assign :=
  [ SetUtf "AccountNo" "AccountNo";
    SetRaw "AccountType" "AccountType";
    SetRaw "AccountState" "AccountState";
    SetRaw "AccountTradeRight" "AccountTradeRight";
    SetUtf "CommodityGroupNo" "CommodityGroupNo";
    SetUtf "AccountShortName" "AccountShortName";
    SetUtf "AccountEnShortName" "AccountEnShortName" ].

Definition processRspQryAccount (task : Task) : list Action :=
  let data : dict := ∅ in
  let data :=
    match task_data task with
    | Some d => fill processRspQryAccount_copy d data
    | None => data
    end in
  [Invoke (onRspQryAccount (task_id task) (task_id task) (task_last task) data)].

(** vntaptd.cpp:1160, the assignments to [data] in order; [task_data] is a
    [TapAPIFundData]. *)
Definition processRspQryFund_copy : list Assign :=
  [ SetUtf "AccountNo" "AccountNo";
    SetUtf "CurrencyGroupNo" "CurrencyGroupNo";
    SetUtf "CurrencyNo" "CurrencyNo";
    SetRaw "TradeRate" "TradeRate";
    SetRaw "FutureAlg" "FutureAlg";
    SetRaw "OptionAlg" "OptionAlg";
    SetRaw "PreBalance" "PreBalance";
    SetRaw "PreUnExpProfit" "PreUnExpProfit";
    SetRaw "PreLMEPositionProfit" "PreLMEPositionProfit";
    SetRaw "PreEquity" "PreEquity";
    SetRaw "PreAvailable1" "PreAvailable1";
    SetRaw "PreMarketEquity" "PreMarketEquity";
    SetRaw "CashInValue" "CashInValue";
    SetRaw "CashOutValue" "CashOutValue";
    SetRaw "CashAdjustValue" "CashAdjustValue";
    SetRaw "CashPledged" "CashPledged";
    SetRaw "FrozenFee" "FrozenFee";
    SetRaw "FrozenDeposit" "FrozenDeposit";
    SetRaw "AccountFee" "AccountFee";
    SetRaw "SwapInValue" "SwapInValue";
    SetRaw "SwapOutValue" "SwapOutValue";
    SetRaw "PremiumIncome" "PremiumIncome";
    SetRaw "PremiumPay" "PremiumPay";
    SetRaw "CloseProfit" "CloseProfit";
    SetRaw "FrozenFund" "FrozenFund";
    SetRaw "UnExpProfit" "UnExpProfit";
    SetRaw "ExpProfit" "ExpProfit";
    SetRaw "PositionProfit" "PositionProfit";
    SetRaw "LmePositionProfit" "LmePositionProfit";
    SetRaw "OptionMarketValue" "OptionMarketValue";
    SetRaw "AccountIntialMargin" "AccountIntialMargin";
    SetRaw "AccountMaintenanceMargin" "AccountMaintenanceMargin";
    SetRaw "UpperInitalMargin" "UpperInitalMargin";
    SetRaw "UpperMaintenanceMargin" "UpperMaintenanceMargin";
    SetRaw "Discount" "Discount";
    SetRaw "Balance" "Balance";
    SetRaw "Equity" "Equity";
    SetRaw "Available" "Available";
    SetRaw "CanDraw" "CanDraw";
    SetRaw "MarketEquity" "MarketEquity";
    SetRaw "AuthMoney" "AuthMoney" ].

Definition processRspQryFund (task : Task) : list Action :=
  let data : dict := ∅ in
  let data :=
    match task_data task with
    | Some d => fill processRspQryFund_copy d data
    | None => data
    end in
  [Invoke (onRspQryFund (task_id task) (task_int task) (task_last task) data)].

(** vntaptd.cpp:1213, the assignments to [data] in order; [task_data] is a
    [TapAPIFundData]. *)
Definition processRtnFund_copy : list Assign :=
  [ SetUtf "AccountNo" "AccountNo";
    SetUtf "CurrencyGroupNo" "CurrencyGroupNo";
    SetUtf "CurrencyNo" "CurrencyNo";
    SetRaw "TradeRate" "TradeRate";
    SetRaw "FutureAlg" "FutureAlg";
    SetRaw "OptionAlg" "OptionAlg";
    SetRaw "PreBalance" "PreBalance";
    SetRaw "PreUnExpProfit" "PreUnExpProfit";
    SetRaw "PreLMEPositionProfit" "PreLMEPositionProfit";
    SetRaw "PreEquity" "PreEquity";
    SetRaw "PreAvailable1" "PreAvailable1";
    SetRaw "PreMarketEquity" "PreMarketEquity";
    SetRaw "CashInValue" "CashInValue";
    SetRaw "CashOutValue" "CashOutValue";
    SetRaw "CashAdjustValue" "CashAdjustValue";
    SetRaw "CashPledged" "CashPledged";
    SetRaw "FrozenFee" "FrozenFee";
    SetRaw "FrozenDeposit" "FrozenDeposit";
    SetRaw "AccountFee" "AccountFee";
    SetRaw "SwapInValue" "SwapInValue";
    SetRaw "SwapOutValue" "SwapOutValue";
    SetRaw "PremiumIncome" "PremiumIncome";
    SetRaw "PremiumPay" "PremiumPay";
    SetRaw "CloseProfit" "CloseProfit";
    SetRaw "FrozenFund" "FrozenFund";
    SetRaw "UnExpProfit" "UnExpProfit";
    SetRaw "ExpProfit" "ExpProfit";
    SetRaw "PositionProfit" "PositionProfit";
    SetRaw "LmePositionProfit" "LmePositionProfit";
    SetRaw "OptionMarketValue" "OptionMarketValue";
    SetRaw "AccountIntialMargin" "AccountIntialMargin";
    SetRaw "AccountMaintenanceMargin" "AccountMaintenanceMargin";
    SetRaw "UpperInitalMargin" "UpperInitalMargin";
    SetRaw "UpperMaintenanceMargin" "UpperMaintenanceMargin";
    SetRaw "Discount" "Discount";
    SetRaw "Balance" "Balance";
    SetRaw "Equity" "Equity";
    SetRaw "Available" "Available";
    SetRaw "CanDraw" "CanDraw";
    SetRaw "MarketEquity" "MarketEquity";
    SetRaw "AuthMoney" "AuthMoney" ].

Definition processRtnFund (task : Task) : list Action :=
  let data : dict := ∅ in
  let data :=
    match task_data task with
    | Some d => fill processRtnFund_copy d data
    | None => data
    end in
  [Invoke (onRtnFund data)].

(** vntaptd.cpp:1266, the assignments to [data] in order; [task_data] is a
    [TapAPIExchangeInfo]. *)
Definition processRspQryExchange_copy : list Assign :=
  [ SetUtf "ExchangeNo" "ExchangeNo";
    SetUtf "ExchangeName" "ExchangeName" ].

Definition processRspQryExchange (task : Task) : list Action :=
  let data : dict := ∅ in
  let data :=
    match task_data task with
    | Some d => fill processRspQryExchange_copy d data
    | None => data
    end in
  [Invoke (onRspQryExchange (task_id task) (task_int task) (task_last task) data)].

(** vntaptd.cpp:1280, the assignments to [data] in order; [task_data] is a
    [TapAPICommodityInfo]. *)
Definition processRspQryCommodity_copy : list Assign :=
  [ SetUtf "ExchangeNo" "ExchangeNo";
    SetRaw "CommodityType" "CommodityType";
    SetUtf "CommodityNo" "CommodityNo";
    SetUtf "CommodityName" "CommodityName";
    SetUtf "CommodityEngName" "CommodityEngName";
    SetUtf "RelateExchangeNo" "RelateExchangeNo";
    SetRaw "RelateCommodityType" "RelateCommodityType";
    SetUtf "RelateCommodityNo" "RelateCommodityNo";
    SetUtf "RelateExchangeNo2" "RelateExchangeNo2";
    SetRaw "RelateCommodityType2" "RelateCommodityType2";
    SetUtf "RelateCommodityNo2" "RelateCommodityNo2";
    SetUtf "CurrencyGroupNo" "CurrencyGroupNo";
    SetUtf "TradeCurrency" "TradeCurrency";
    SetRaw "ContractSize" "ContractSize";
    SetRaw "OpenCloseMode" "OpenCloseMode";
    SetRaw "StrikePriceTimes" "StrikePriceTimes";
    SetRaw "CommodityTickSize" "CommodityTickSize";
    SetRaw "CommodityDenominator" "CommodityDenominator";
    SetRaw "CmbDirect" "CmbDirect";
    SetRaw "DeliveryMode" "DeliveryMode";
    SetRaw "DeliveryDays" "DeliveryDays";
    SetUtf "AddOneTime" "AddOneTime";
    SetRaw "CommodityTimeZone" "CommodityTimeZone";
    SetRaw "IsAddOne" "IsAddOne" ].

Definition processRspQryCommodity (task : Task) : list Action :=
  let data : dict := ∅ in
  let data :=
    match task_data task with
    | Some d => fill processRspQryCommodity_copy d data
    | None => data
    end in
  [Invoke (onRspQryCommodity (task_id task) (task_int task) (task_last task) data)].

(** vntaptd.cpp:1316, the assignments to [data] in order; [task_data] is a
    [TapAPITradeContractInfo]. *)
Definition processRspQryContract_copy : list Assign :=
  [ SetUtf "ExchangeNo" "ExchangeNo";
    SetRaw "CommodityType" "CommodityType";
    SetUtf "CommodityNo" "CommodityNo";
    SetUtf "ContractNo1" "ContractNo1";
    SetUtf "StrikePrice1" "StrikePrice1";
    SetRaw "CallOrPutFlag1" "CallOrPutFlag1";
    SetUtf "ContractNo2" "ContractNo2";
    SetUtf "StrikePrice2" "StrikePrice2";
    SetRaw "CallOrPutFlag2" "CallOrPutFlag2";
    SetRaw "ContractType" "ContractType";
    SetUtf "QuoteUnderlyingContract" "QuoteUnderlyingContract";
    SetUtf "ContractName" "ContractName";
    SetUtf "ContractExpDate" "ContractExpDate";
    SetUtf "LastTradeDate" "LastTradeDate";
    SetUtf "FirstNoticeDate" "FirstNoticeDate" ].

Definition processRspQryContract (task : Task) : list Action :=
  let data : dict := ∅ in
  let data :=
    match task_data task with
    | Some d => fill processRspQryContract_copy d data
    | None => data
    end in
  [Invoke (onRspQryContract (task_id task) (task_int task) (task_last task) data)].

(** vntaptd.cpp:1343, the assignments to [data] in order; [task_data] is a
    [TapAPITradeContractInfo]. *)
Definition processRtnContract_copy : list Assign :=
  [ SetUtf "ExchangeNo" "ExchangeNo";
    SetRaw "CommodityType" "CommodityType";
    SetUtf "CommodityNo" "CommodityNo";
    SetUtf "ContractNo1" "ContractNo1";
    SetUtf "StrikePrice1" "StrikePrice1";
    SetRaw "CallOrPutFlag1" "CallOrPutFlag1";
    SetUtf "ContractNo2" "ContractNo2";
    SetUtf "StrikePrice2" "StrikePrice2";
    SetRaw "CallOrPutFlag2" "CallOrPutFlag2";
    SetRaw "ContractType" "ContractType";
    SetUtf "QuoteUnderlyingContract" "QuoteUnderlyingContract";
    SetUtf "ContractName" "ContractName";
    SetUtf "ContractExpDate" "ContractExpDate";
    SetUtf "LastTradeDate" "LastTradeDate";
    SetUtf "FirstNoticeDate" "FirstNoticeDate" ].

Definition processRtnContract (task : Task) : list Action :=
  let data : dict := ∅ in
  let data :=
    match task_data task with
    | Some d => fill processRtnContract_copy d data
    | None => data
    end in
  [Invoke (onRtnContract data)].

(** vntaptd.cpp:1370, the assignments to [data] in order; [task_data] is a
    [TapAPIOrderActionRsp]. *)
Definition processRspOrderAction_copy : list Assign :=
  [ SetRaw "ActionType" "ActionType";
    SetRaw "OrderInfo" "OrderInfo" ].

Definition processRspOrderAction (task : Task) : list Action :=
  let data : dict := ∅ in
  let data :=
    match task_data task with
    | Some d => fill processRspOrderAction_copy d data
    | None => data
    end in
  [Invoke (onRspOrderAction (task_id task) (task_int task) data)].

(** vntaptd.cpp:1384, the assignments to [data] in order; [task_data] is a
    [TapAPIOrderInfoNotice]. *)
Definition processRtnOrder_copy : list Assign :=
  [ SetRaw "SessionID" "SessionID";
    SetRaw "ErrorCode" "ErrorCode";
    SetRaw "OrderInfo" "OrderInfo" ].

Definition processRtnOrder (task : Task) : list Action :=
  let data : dict := ∅ in
  let data :=
    match task_data task with
    | Some d => fill processRtnOrder_copy d data
    | None => data
    end in
  [Invoke (onRtnOrder data)].

(** vntaptd.cpp:1399, the assignments to [data] in order; [task_data] is a
    [TapAPIOrderInfo]. *)
Definition processRspQryOrder_copy : list Assign :=
  [ SetUtf "AccountNo" "AccountNo";
    SetUtf "ExchangeNo" "ExchangeNo";
    SetRaw "CommodityType" "CommodityType";
    SetUtf "CommodityNo" "CommodityNo";
    SetUtf "ContractNo" "ContractNo";
    SetUtf "StrikePrice" "StrikePrice";
    SetRaw "CallOrPutFlag" "CallOrPutFlag";
    SetUtf "ContractNo2" "ContractNo2";
    SetUtf "StrikePrice2" "StrikePrice2";
    SetRaw "CallOrPutFlag2" "CallOrPutFlag2";
    SetRaw "OrderType" "OrderType";
    SetRaw "OrderSource" "OrderSource";
    SetRaw "TimeInForce" "TimeInForce";
    SetUtf "ExpireTime" "ExpireTime";
    SetRaw "IsRiskOrder" "IsRiskOrder";
    SetRaw "OrderSide" "OrderSide";
    SetRaw "PositionEffect" "PositionEffect";
    SetRaw "PositionEffect2" "PositionEffect2";
    SetUtf "InquiryNo" "InquiryNo";
    SetRaw "HedgeFlag" "HedgeFlag";
    SetRaw "OrderPrice" "OrderPrice";
    SetRaw "OrderPrice2" "OrderPrice2";
    SetRaw "StopPrice" "StopPrice";
    SetRaw "OrderQty" "OrderQty";
    SetRaw "OrderMinQty" "OrderMinQty";
    SetRaw "RefInt" "RefInt";
    SetRaw "RefDouble" "RefDouble";
    SetUtf "RefString" "RefString";
    SetRaw "MinClipSize" "MinClipSize";
    SetRaw "MaxClipSize" "MaxClipSize";
    SetUtf "LicenseNo" "LicenseNo";
    SetRaw "ServerFlag" "ServerFlag";
    SetUtf "OrderNo" "OrderNo";
    SetUtf "ClientOrderNo" "ClientOrderNo";
    SetUtf "ClientID" "ClientID";
    SetRaw "TacticsType" "TacticsType";
    SetRaw "TriggerCondition" "TriggerCondition";
    SetRaw "TriggerPriceType" "TriggerPriceType";
    SetRaw "AddOneIsValid" "AddOneIsValid";
    SetUtf "ClientLocalIP" "ClientLocalIP";
    SetUtf "ClientMac" "ClientMac";
    SetUtf "ClientIP" "ClientIP";
    SetRaw "OrderStreamID" "OrderStreamID";
    SetUtf "UpperNo" "UpperNo";
    SetUtf "UpperChannelNo" "UpperChannelNo";
    SetUtf "OrderLocalNo" "OrderLocalNo";
    SetRaw "UpperStreamID" "UpperStreamID";
    SetUtf "OrderSystemNo" "OrderSystemNo";
    SetUtf "OrderExchangeSystemNo" "OrderExchangeSystemNo";
    SetUtf "OrderParentSystemNo" "OrderParentSystemNo";
    SetUtf "OrderInsertUserNo" "OrderInsertUserNo";
    SetUtf "OrderInsertTime" "OrderInsertTime";
    SetUtf "OrderCommandUserNo" "OrderCommandUserNo";
    SetUtf "OrderUpdateUserNo" "OrderUpdateUserNo";
    SetUtf "OrderUpdateTime" "OrderUpdateTime";
    SetRaw "OrderState" "OrderState";
    SetRaw "OrderMatchPrice" "OrderMatchPrice";
    SetRaw "OrderMatchPrice2" "OrderMatchPrice2";
    SetRaw "OrderMatchQty" "OrderMatchQty";
    SetRaw "OrderMatchQty2" "OrderMatchQty2";
    SetRaw "ErrorCode" "ErrorCode";
    SetUtf "ErrorText" "ErrorText";
    SetRaw "IsBackInput" "IsBackInput";
    SetRaw "IsDeleted" "IsDeleted";
    SetRaw "IsAddOne" "IsAddOne" ].

Definition processRspQryOrder (task : Task) : list Action :=
  let data : dict := ∅ in
  let data :=
    match task_data task with
    | Some d => fill processRspQryOrder_copy d data
    | None => data
    end in
  [Invoke (onRspQryOrder (task_id task) (task_int task) (task_last task) data)].

(** vntaptd.cpp:1476, the assignments to [data] in order; [task_data] is a
    [TapAPIOrderInfo]. *)
Definition processRspQryOrderProcess_copy : list Assign :=
  [ SetUtf "AccountNo" "AccountNo";
    SetUtf "ExchangeNo" "ExchangeNo";
    SetRaw "CommodityType" "CommodityType";
    SetUtf "CommodityNo" "CommodityNo";
    SetUtf "ContractNo" "ContractNo";
    SetUtf "StrikePrice" "StrikePrice";
    SetRaw "CallOrPutFlag" "CallOrPutFlag";
    SetUtf "ContractNo2" "ContractNo2";
    SetUtf "StrikePrice2" "StrikePrice2";
    SetRaw "CallOrPutFlag2" "CallOrPutFlag2";
    SetRaw "OrderType" "OrderType";
    SetRaw "OrderSource" "OrderSource";
    SetRaw "TimeInForce" "TimeInForce";
    SetUtf "ExpireTime" "ExpireTime";
    SetRaw "IsRiskOrder" "IsRiskOrder";
    SetRaw "OrderSide" "OrderSide";
    SetRaw "PositionEffect" "PositionEffect";
    SetRaw "PositionEffect2" "PositionEffect2";
    SetUtf "InquiryNo" "InquiryNo";
    SetRaw "HedgeFlag" "HedgeFlag";
    SetRaw "OrderPrice" "OrderPrice";
    SetRaw "OrderPrice2" "OrderPrice2";
    SetRaw "StopPrice" "StopPrice";
    SetRaw "OrderQty" "OrderQty";
    SetRaw "OrderMinQty" "OrderMinQty";
    SetRaw "RefInt" "RefInt";
    SetRaw "RefDouble" "RefDouble";
    SetUtf "RefString" "RefString";
    SetRaw "MinClipSize" "MinClipSize";
    SetRaw "MaxClipSize" "MaxClipSize";
    SetUtf "LicenseNo" "LicenseNo";
    SetRaw "ServerFlag" "ServerFlag";
    SetUtf "OrderNo" "OrderNo";
    SetUtf "ClientOrderNo" "ClientOrderNo";
    SetUtf "ClientID" "ClientID";
    SetRaw "TacticsType" "TacticsType";
    SetRaw "TriggerCondition" "TriggerCondition";
    SetRaw "TriggerPriceType" "TriggerPriceType";
    SetRaw "AddOneIsValid" "AddOneIsValid";
    SetUtf "ClientLocalIP" "ClientLocalIP";
    SetUtf "ClientMac" "ClientMac";
    SetUtf "ClientIP" "ClientIP";
    SetRaw "OrderStreamID" "OrderStreamID";
    SetUtf "UpperNo" "UpperNo";
    SetUtf "UpperChannelNo" "UpperChannelNo";
    SetUtf "OrderLocalNo" "OrderLocalNo";
    SetRaw "UpperStreamID" "UpperStreamID";
    SetUtf "OrderSystemNo" "OrderSystemNo";
    SetUtf "OrderExchangeSystemNo" "OrderExchangeSystemNo";
    SetUtf "OrderParentSystemNo" "OrderParentSystemNo";
    SetUtf "OrderInsertUserNo" "OrderInsertUserNo";
    SetUtf "OrderInsertTime" "OrderInsertTime";
    SetUtf "OrderCommandUserNo" "OrderCommandUserNo";
    SetUtf "OrderUpdateUserNo" "OrderUpdateUserNo";
    SetUtf "OrderUpdateTime" "OrderUpdateTime";
    SetRaw "OrderState" "OrderState";
    SetRaw "OrderMatchPrice" "OrderMatchPrice";
    SetRaw "OrderMatchPrice2" "OrderMatchPrice2";
    SetRaw "OrderMatchQty" "OrderMatchQty";
    SetRaw "OrderMatchQty2" "OrderMatchQty2";
    SetRaw "ErrorCode" "ErrorCode";
    SetUtf "ErrorText" "ErrorText";
    SetRaw "IsBackInput" "IsBackInput";
    SetRaw "IsDeleted" "IsDeleted";
    SetRaw "IsAddOne" "IsAddOne" ].

Definition processRspQryOrderProcess (task : Task) : list Action :=
  let data : dict := ∅ in
  let data :=
    match task_data task with
    | Some d => fill processRspQryOrderProcess_copy d data
    | None => data
    end in
  [Invoke (onRspQryOrderProcess (task_id task) (task_int task) (task_last task) data)].

(** vntaptd.cpp:1553, the assignments to [data] in order; [task_data] is a
    [TapAPIFillInfo]. *)
Definition processRspQryFill_copy : list Assign :=
  [ SetUtf "AccountNo" "AccountNo";
    SetUtf "ExchangeNo" "ExchangeNo";
    SetRaw "CommodityType" "CommodityType";
    SetUtf "CommodityNo" "CommodityNo";
    SetUtf "ContractNo" "ContractNo";
    SetUtf "StrikePrice" "StrikePrice";
    SetRaw "CallOrPutFlag" "CallOrPutFlag";
    SetRaw "MatchSource" "MatchSource";
    SetRaw "MatchSide" "MatchSide";
    SetRaw "PositionEffect" "PositionEffect";
    SetRaw "ServerFlag" "ServerFlag";
    SetUtf "OrderNo" "OrderNo";
    SetUtf "OrderSystemNo" "OrderSystemNo";
    SetUtf "MatchNo" "MatchNo";
    SetUtf "UpperMatchNo" "UpperMatchNo";
    SetUtf "ExchangeMatchNo" "ExchangeMatchNo";
    SetUtf "MatchDateTime" "MatchDateTime";
    SetUtf "UpperMatchDateTime" "UpperMatchDateTime";
    SetUtf "UpperNo" "UpperNo";
    SetRaw "MatchPrice" "MatchPrice";
    SetRaw "MatchQty" "MatchQty";
    SetRaw "IsDeleted" "IsDeleted";
    SetRaw "IsAddOne" "IsAddOne";
    SetUtf "FeeCurrencyGroup" "FeeCurrencyGroup";
    SetUtf "FeeCurrency" "FeeCurrency";
    SetRaw "FeeValue" "FeeValue";
    SetRaw "IsManualFee" "IsManualFee";
    SetRaw "ClosePrositionPrice" "ClosePrositionPrice" ].

Definition processRspQryFill (task : Task) : list Action :=
  let data : dict := ∅ in
  let data :=
    match task_data task with
    | Some d => fill processRspQryFill_copy d data
    | None => data
    end in
  [Invoke (onRspQryFill (task_id task) (task_int task) (task_last task) data)].

(** vntaptd.cpp:1593, the assignments to [data] in order; [task_data] is a
    [TapAPIFillInfo]. *)
Definition processRtnFill_copy : list Assign :=
  [ SetUtf "AccountNo" "AccountNo";
    SetUtf "ExchangeNo" "ExchangeNo";
    SetRaw "CommodityType" "CommodityType";
    SetUtf "CommodityNo" "CommodityNo";
    SetUtf "ContractNo" "ContractNo";
    SetUtf "StrikePrice" "StrikePrice";
    SetRaw "CallOrPutFlag" "CallOrPutFlag";
    SetRaw "MatchSource" "MatchSource";
    SetRaw "MatchSide" "MatchSide";
    SetRaw "PositionEffect" "PositionEffect";
    SetRaw "ServerFlag" "ServerFlag";
    SetUtf "OrderNo" "OrderNo";
    SetUtf "OrderSystemNo" "OrderSystemNo";
    SetUtf "MatchNo" "MatchNo";
    SetUtf "UpperMatchNo" "UpperMatchNo";
    SetUtf "ExchangeMatchNo" "ExchangeMatchNo";
    SetUtf "MatchDateTime" "MatchDateTime";
    SetUtf "UpperMatchDateTime" "UpperMatchDateTime";
    SetUtf "UpperNo" "UpperNo";
    SetRaw "MatchPrice" "MatchPrice";
    SetRaw "MatchQty" "MatchQty";
    SetRaw "IsDeleted" "IsDeleted";
    SetRaw "IsAddOne" "IsAddOne";
    SetUtf "FeeCurrencyGroup" "FeeCurrencyGroup";
    SetUtf "FeeCurrency" "FeeCurrency";
    SetRaw "FeeValue" "FeeValue";
    SetRaw "IsManualFee" "IsManualFee";
    SetRaw "ClosePrositionPrice" "ClosePrositionPrice" ].

Definition processRtnFill (task : Task) : list Action :=
  let data : dict := ∅ in
  let data :=
    match task_data task with
    | Some d => fill processRtnFill_copy d data
    | None => data
    end in
  [Invoke (onRtnFill data)].

(** vntaptd.cpp:1633, the assignments to [data] in order; [task_data] is a
    [TapAPIPositionInfo]. *)
Definition processRspQryPosition_copy : list Assign :=
  [ SetUtf "AccountNo" "AccountNo";
    SetUtf "ExchangeNo" "ExchangeNo";
    SetRaw "CommodityType" "CommodityType";
    SetUtf "CommodityNo" "CommodityNo";
    SetUtf "ContractNo" "ContractNo";
    SetUtf "StrikePrice" "StrikePrice";
    SetRaw "CallOrPutFlag" "CallOrPutFlag";
    SetRaw "MatchSide" "MatchSide";
    SetRaw "HedgeFlag" "HedgeFlag";
    SetUtf "PositionNo" "PositionNo";
    SetRaw "ServerFlag" "ServerFlag";
    SetUtf "OrderNo" "OrderNo";
    SetUtf "MatchNo" "MatchNo";
    SetUtf "UpperNo" "UpperNo";
    SetRaw "PositionPrice" "PositionPrice";
    SetRaw "PositionQty" "PositionQty";
    SetRaw "PositionStreamId" "PositionStreamId";
    SetUtf "CommodityCurrencyGroup" "CommodityCurrencyGroup";
    SetUtf "CommodityCurrency" "CommodityCurrency";
    SetRaw "CalculatePrice" "CalculatePrice";
    SetRaw "AccountInitialMargin" "AccountInitialMargin";
    SetRaw "AccountMaintenanceMargin" "AccountMaintenanceMargin";
    SetRaw "UpperInitialMargin" "UpperInitialMargin";
    SetRaw "UpperMaintenanceMargin" "UpperMaintenanceMargin";
    SetRaw "PositionProfit" "PositionProfit";
    SetRaw "LMEPositionProfit" "LMEPositionProfit";
    SetRaw "OptionMarketValue" "OptionMarketValue";
    SetRaw "IsHistory" "IsHistory" ].

Definition processRspQryPosition (task : Task) : list Action :=
  let data : dict := ∅ in
  let data :=
    match task_data task with
    | Some d => fill processRspQryPosition_copy d data
    | None => data
    end in
  [Invoke (onRspQryPosition (task_id task) (task_int task) (task_last task) data)].

(** vntaptd.cpp:1673, the assignments to [data] in order; [task_data] is a
    [TapAPIPositionInfo]. *)
Definition processRtnPosition_copy : list Assign :=
  [ SetUtf "AccountNo" "AccountNo";
    SetUtf "ExchangeNo" "ExchangeNo";
    SetRaw "CommodityType" "CommodityType";
    SetUtf "CommodityNo" "CommodityNo";
    SetUtf "ContractNo" "ContractNo";
    SetUtf "StrikePrice" "StrikePrice";
    SetRaw "CallOrPutFlag" "CallOrPutFlag";
    SetRaw "MatchSide" "MatchSide";
    SetRaw "HedgeFlag" "HedgeFlag";
    SetUtf "PositionNo" "PositionNo";
    SetRaw "ServerFlag" "ServerFlag";
    SetUtf "OrderNo" "OrderNo";
    SetUtf "MatchNo" "MatchNo";
    SetUtf "UpperNo" "UpperNo";
    SetRaw "PositionPrice" "PositionPrice";
    SetRaw "PositionQty" "PositionQty";
    SetRaw "PositionStreamId" "PositionStreamId";
    SetUtf "CommodityCurrencyGroup" "CommodityCurrencyGroup";
    SetUtf "CommodityCurrency" "CommodityCurrency";
    SetRaw "CalculatePrice" "CalculatePrice";
    SetRaw "AccountInitialMargin" "AccountInitialMargin";
    SetRaw "AccountMaintenanceMargin" "AccountMaintenanceMargin";
    SetRaw "UpperInitialMargin" "UpperInitialMargin";
    SetRaw "UpperMaintenanceMargin" "UpperMaintenanceMargin";
    SetRaw "PositionProfit" "PositionProfit";
    SetRaw "LMEPositionProfit" "LMEPositionProfit";
    SetRaw "OptionMarketValue" "OptionMarketValue";
    SetRaw "IsHistory" "IsHistory" ].

Definition processRtnPosition (task : Task) : list Action :=
  let data : dict := ∅ in
  let data :=
    match task_data task with
    | Some d => fill processRtnPosition_copy d data
    | None => data
    end in
  [Invoke (onRtnPosition data)].

(** vntaptd.cpp:1713, the assignments to [data] in order; [task_data] is a
    [TapAPIPositionSummary]. *)
Definition processRspQryPositionSummary_copy : list Assign :=
  [ SetUtf "AccountNo" "AccountNo";
    SetUtf "ExchangeNo" "ExchangeNo";
    SetRaw "CommodityType" "CommodityType";
    SetUtf "CommodityNo" "CommodityNo";
    SetUtf "ContractNo" "ContractNo";
    SetUtf "StrikePrice" "StrikePrice";
    SetRaw "CallOrPutFlag" "CallOrPutFlag";
    SetRaw "MatchSide" "MatchSide";
    SetRaw "PositionPrice" "PositionPrice";
    SetRaw "PositionQty" "PositionQty";
    SetRaw "HisPositionQty" "HisPositionQty" ].

Definition processRspQryPositionSummary (task : Task) : list Action :=
  let data : dict := ∅ in
  let data :=
    match task_data task with
    | Some d => fill processRspQryPositionSummary_copy d data
    | None => data
    end in
  [Invoke (onRspQryPositionSummary (task_id task) (task_int task) (task_last task) data)].

(** vntaptd.cpp:1736, the assignments to [data] in order; [task_data] is a
    [TapAPIPositionSummary]. *)
Definition processRtnPositionSummary_copy : list Assign :=
  [ SetUtf "AccountNo" "AccountNo";
    SetUtf "ExchangeNo" "ExchangeNo";
    SetRaw "CommodityType" "CommodityType";
    SetUtf "CommodityNo" "CommodityNo";
    SetUtf "ContractNo" "ContractNo";
    SetUtf "StrikePrice" "StrikePrice";
    SetRaw "CallOrPutFlag" "CallOrPutFlag";
    SetRaw "MatchSide" "MatchSide";
    SetRaw "PositionPrice" "PositionPrice";
    SetRaw "PositionQty" "PositionQty";
    SetRaw "HisPositionQty" "HisPositionQty" ].

Definition processRtnPositionSummary (task : Task) : list Action :=
  let data : dict := ∅ in
  let data :=
    match task_data task with
    | Some d => fill processRtnPositionSummary_copy d data
    | None => data
    end in
  [Invoke (onRtnPositionSummary data)].

(** vntaptd.cpp:1759, the assignments to [data] in order; [task_data] is a
    [TapAPIPositionProfitNotice]. *)
Definition processRtnPositionProfit_copy : list Assign :=
  [ SetRaw "IsLast" "IsLast";
    SetRaw "Data" "Data" ].

Definition processRtnPositionProfit (task : Task) : list Action :=
  let data : dict := ∅ in
  let data :=
    match task_data task with
    | Some d => fill processRtnPositionProfit_copy d data
    | None => data
    end in
  [Invoke (onRtnPositionProfit data)].

(** vntaptd.cpp:1773, the assignments to [data] in order; [task_data] is a
    [TapAPICurrencyInfo]. *)
Definition processRspQryCurrency_copy : list Assign :=
  [ SetUtf "CurrencyNo" "CurrencyNo";
    SetUtf "CurrencyGroupNo" "CurrencyGroupNo";
    SetRaw "TradeRate" "TradeRate";
    SetRaw "TradeRate2" "TradeRate2";
    SetRaw "FutureAlg" "FutureAlg";
    SetRaw "OptionAlg" "OptionAlg" ].

Definition processRspQryCurrency (task : Task) : list Action :=
  let data : dict := ∅ in
  let data :=
    match task_data task with
    | Some d => fill processRspQryCurrency_copy d data
    | None => data
    end in
  [Invoke (onRspQryCurrency (task_id task) (task_int task) (task_last task) data)].

(** vntaptd.cpp:1791, the assignments to [data] in order; [task_data] is a
    [TapAPITradeMessage]. *)
Definition processRspQryTradeMessage_copy : list Assign :=
  [ SetRaw "SerialID" "SerialID";
    SetUtf "AccountNo" "AccountNo";
    SetUtf "TMsgValidDateTime" "TMsgValidDateTime";
    SetUtf "TMsgTitle" "TMsgTitle";
    SetUtf "TMsgContent" "TMsgContent";
    SetRaw "TMsgType" "TMsgType";
    SetRaw "TMsgLevel" "TMsgLevel";
    SetRaw "IsSendBySMS" "IsSendBySMS";
    SetRaw "IsSendByEMail" "IsSendByEMail";
    SetUtf "Sender" "Sender";
    SetUtf "SendDateTime" "SendDateTime" ].

Definition processRspQryTradeMessage (task : Task) : list Action :=
  let data : dict := ∅ in
  let data :=
    match task_data task with
    | Some d => fill processRspQryTradeMessage_copy d data
    | None => data
    end in
  [Invoke (onRspQryTradeMessage (task_id task) (task_int task) (task_last task) data)].

(** vntaptd.cpp:1814, the assignments to [data] in order; [task_data] is a
    [TapAPITradeMessage]. *)
Definition processRtnTradeMessage_copy : list Assign :=
  [ SetRaw "SerialID" "SerialID";
    SetUtf "AccountNo" "AccountNo";
    SetUtf "TMsgValidDateTime" "TMsgValidDateTime";
    SetUtf "TMsgTitle" "TMsgTitle";
    SetUtf "TMsgContent" "TMsgContent";
    SetRaw "TMsgType" "TMsgType";
    SetRaw "TMsgLevel" "TMsgLevel";
    SetRaw "IsSendBySMS" "IsSendBySMS";
    SetRaw "IsSendByEMail" "IsSendByEMail";
    SetUtf "Sender" "Sender";
    SetUtf "SendDateTime" "SendDateTime" ].

Definition processRtnTradeMessage (task : Task) : list Action :=
  let data : dict := ∅ in
  let data :=
    match task_data task with
    | Some d => fill processRtnTradeMessage_copy d data
    | None => data
    end in
  [Invoke (onRtnTradeMessage data)].

(** vntaptd.cpp:1837, the assignments to [data] in order; [task_data] is a
    [TapAPIHisOrderQryRsp]. *)
Definition processRspQryHisOrder_copy : list Assign :=
  [ SetUtf "Date" "Date";
    SetUtf "AccountNo" "AccountNo";
    SetUtf "ExchangeNo" "ExchangeNo";
    SetRaw "CommodityType" "CommodityType";
    SetUtf "CommodityNo" "CommodityNo";
    SetUtf "ContractNo" "ContractNo";
    SetUtf "StrikePrice" "StrikePrice";
    SetRaw "CallOrPutFlag" "CallOrPutFlag";
    SetUtf "ContractNo2" "ContractNo2";
    SetUtf "StrikePrice2" "StrikePrice2";
    SetRaw "CallOrPutFlag2" "CallOrPutFlag2";
    SetRaw "OrderType" "OrderType";
    SetRaw "OrderSource" "OrderSource";
    SetRaw "TimeInForce" "TimeInForce";
    SetUtf "ExpireTime" "ExpireTime";
    SetRaw "IsRiskOrder" "IsRiskOrder";
    SetRaw "OrderSide" "OrderSide";
    SetRaw "PositionEffect" "PositionEffect";
    SetRaw "PositionEffect2" "PositionEffect2";
    SetUtf "InquiryNo" "InquiryNo";
    SetRaw "HedgeFlag" "HedgeFlag";
    SetRaw "OrderPrice" "OrderPrice";
    SetRaw "OrderPrice2" "OrderPrice2";
    SetRaw "StopPrice" "StopPrice";
    SetRaw "OrderQty" "OrderQty";
    SetRaw "OrderMinQty" "OrderMinQty";
    SetRaw "OrderCanceledQty" "OrderCanceledQty";
    SetRaw "RefInt" "RefInt";
    SetRaw "RefDouble" "RefDouble";
    SetUtf "RefString" "RefString";
    SetRaw "ServerFlag" "ServerFlag";
    SetUtf "OrderNo" "OrderNo";
    SetRaw "OrderStreamID" "OrderStreamID";
    SetUtf "UpperNo" "UpperNo";
    SetUtf "UpperChannelNo" "UpperChannelNo";
    SetUtf "OrderLocalNo" "OrderLocalNo";
    SetRaw "UpperStreamID" "UpperStreamID";
    SetUtf "OrderSystemNo" "OrderSystemNo";
    SetUtf "OrderExchangeSystemNo" "OrderExchangeSystemNo";
    SetUtf "OrderParentSystemNo" "OrderParentSystemNo";
    SetUtf "OrderInsertUserNo" "OrderInsertUserNo";
    SetUtf "OrderInsertTime" "OrderInsertTime";
    SetUtf "OrderCommandUserNo" "OrderCommandUserNo";
    SetUtf "OrderUpdateUserNo" "OrderUpdateUserNo";
    SetUtf "OrderUpdateTime" "OrderUpdateTime";
    SetRaw "OrderState" "OrderState";
    SetRaw "OrderMatchPrice" "OrderMatchPrice";
    SetRaw "OrderMatchPrice2" "OrderMatchPrice2";
    SetRaw "OrderMatchQty" "OrderMatchQty";
    SetRaw "OrderMatchQty2" "OrderMatchQty2";
    SetRaw "ErrorCode" "ErrorCode";
    SetUtf "ErrorText" "ErrorText";
    SetRaw "IsBackInput" "IsBackInput";
    SetRaw "IsDeleted" "IsDeleted";
    SetRaw "IsAddOne" "IsAddOne";
    SetRaw "AddOneIsValid" "AddOneIsValid";
    SetRaw "MinClipSize" "MinClipSize";
    SetRaw "MaxClipSize" "MaxClipSize";
    SetUtf "LicenseNo" "LicenseNo";
    SetRaw "TacticsType" "TacticsType";
    SetRaw "TriggerCondition" "TriggerCondition";
    SetRaw "TriggerPriceType" "TriggerPriceType" ].

Definition processRspQryHisOrder (task : Task) : list Action :=
  let data : dict := ∅ in
  let data :=
    match task_data task with
    | Some d => fill processRspQryHisOrder_copy d data
    | None => data
    end in
  [Invoke (onRspQryHisOrder (task_id task) (task_int task) (task_last task) data)].

(** vntaptd.cpp:1911, the assignments to [data] in order; [task_data] is a
    [TapAPIHisOrderProcessQryRsp]. *)
Definition processRspQryHisOrderProcess_copy : list Assign :=
  [ SetUtf "Date" "Date";
    SetUtf "AccountNo" "AccountNo";
    SetUtf "ExchangeNo" "ExchangeNo";
    SetRaw "CommodityType" "CommodityType";
    SetUtf "CommodityNo" "CommodityNo";
    SetUtf "ContractNo" "ContractNo";
    SetUtf "StrikePrice" "StrikePrice";
    SetRaw "CallOrPutFlag" "CallOrPutFlag";
    SetUtf "ContractNo2" "ContractNo2";
    SetUtf "StrikePrice2" "StrikePrice2";
    SetRaw "CallOrPutFlag2" "CallOrPutFlag2";
    SetRaw "OrderType" "OrderType";
    SetRaw "OrderSource" "OrderSource";
    SetRaw "TimeInForce" "TimeInForce";
    SetUtf "ExpireTime" "ExpireTime";
    SetRaw "IsRiskOrder" "IsRiskOrder";
    SetRaw "OrderSide" "OrderSide";
    SetRaw "PositionEffect" "PositionEffect";
    SetRaw "PositionEffect2" "PositionEffect2";
    SetUtf "InquiryNo" "InquiryNo";
    SetRaw "HedgeFlag" "HedgeFlag";
    SetRaw "OrderPrice" "OrderPrice";
    SetRaw "OrderPrice2" "OrderPrice2";
    SetRaw "StopPrice" "StopPrice";
    SetRaw "OrderQty" "OrderQty";
    SetRaw "OrderMinQty" "OrderMinQty";
    SetRaw "OrderCanceledQty" "OrderCanceledQty";
    SetRaw "RefInt" "RefInt";
    SetRaw "RefDouble" "RefDouble";
    SetUtf "RefString" "RefString";
    SetRaw "ServerFlag" "ServerFlag";
    SetUtf "OrderNo" "OrderNo";
    SetRaw "OrderStreamID" "OrderStreamID";
    SetUtf "UpperNo" "UpperNo";
    SetUtf "UpperChannelNo" "UpperChannelNo";
    SetUtf "OrderLocalNo" "OrderLocalNo";
    SetRaw "UpperStreamID" "UpperStreamID";
    SetUtf "OrderSystemNo" "OrderSystemNo";
    SetUtf "OrderExchangeSystemNo" "OrderExchangeSystemNo";
    SetUtf "OrderParentSystemNo" "OrderParentSystemNo";
    SetUtf "OrderInsertUserNo" "OrderInsertUserNo";
    SetUtf "OrderInsertTime" "OrderInsertTime";
    SetUtf "OrderCommandUserNo" "OrderCommandUserNo";
    SetUtf "OrderUpdateUserNo" "OrderUpdateUserNo";
    SetUtf "OrderUpdateTime" "OrderUpdateTime";
    SetRaw "OrderState" "OrderState";
    SetRaw "OrderMatchPrice" "OrderMatchPrice";
    SetRaw "OrderMatchPrice2" "OrderMatchPrice2";
    SetRaw "OrderMatchQty" "OrderMatchQty";
    SetRaw "OrderMatchQty2" "OrderMatchQty2";
    SetRaw "ErrorCode" "ErrorCode";
    SetUtf "ErrorText" "ErrorText";
    SetRaw "IsBackInput" "IsBackInput";
    SetRaw "IsDeleted" "IsDeleted";
    SetRaw "IsAddOne" "IsAddOne";
    SetRaw "AddOneIsValid" "AddOneIsValid";
    SetRaw "MinClipSize" "MinClipSize";
    SetRaw "MaxClipSize" "MaxClipSize";
    SetUtf "LicenseNo" "LicenseNo";
    SetRaw "TacticsType" "TacticsType";
    SetRaw "TriggerCondition" "TriggerCondition";
    SetRaw "TriggerPriceType" "TriggerPriceType" ].

Definition processRspQryHisOrderProcess (task : Task) : list Action :=
  let data : dict := ∅ in
  let data :=
    match task_data task with
    | Some d => fill processRspQryHisOrderProcess_copy d data
    | None => data
    end in
  [Invoke (onRspQryHisOrderProcess (task_id task) (task_int task) (task_last task) data)].

(** vntaptd.cpp:1985, the assignments to [data] in order; [task_data] is a
    [TapAPIHisMatchQryRsp]. *)
Definition processRspQryHisMatch_copy : list Assign :=
  [ SetUtf "SettleDate" "SettleDate";
    SetUtf "TradeDate" "TradeDate";
    SetUtf "AccountNo" "AccountNo";
    SetUtf "ExchangeNo" "ExchangeNo";
    SetRaw "CommodityType" "CommodityType";
    SetUtf "CommodityNo" "CommodityNo";
    SetUtf "ContractNo" "ContractNo";
    SetUtf "StrikePrice" "StrikePrice";
    SetRaw "CallOrPutFlag" "CallOrPutFlag";
    SetRaw "MatchSource" "MatchSource";
    SetRaw "MatchSide" "MatchSide";
    SetRaw "PositionEffect" "PositionEffect";
    SetRaw "HedgeFlag" "HedgeFlag";
    SetRaw "MatchPrice" "MatchPrice";
    SetRaw "MatchQty" "MatchQty";
    SetUtf "OrderNo" "OrderNo";
    SetUtf "MatchNo" "MatchNo";
    SetRaw "MatchStreamID" "MatchStreamID";
    SetUtf "UpperNo" "UpperNo";
    SetUtf "MatchCmbNo" "MatchCmbNo";
    SetUtf "ExchangeMatchNo" "ExchangeMatchNo";
    SetRaw "MatchUpperStreamID" "MatchUpperStreamID";
    SetUtf "CommodityCurrencyGroup" "CommodityCurrencyGroup";
    SetUtf "CommodityCurrency" "CommodityCurrency";
    SetRaw "Turnover" "Turnover";
    SetRaw "PremiumIncome" "PremiumIncome";
    SetRaw "PremiumPay" "PremiumPay";
    SetRaw "AccountFee" "AccountFee";
    SetUtf "AccountFeeCurrencyGroup" "AccountFeeCurrencyGroup";
    SetUtf "AccountFeeCurrency" "AccountFeeCurrency";
    SetRaw "IsManualFee" "IsManualFee";
    SetRaw "AccountOtherFee" "AccountOtherFee";
    SetRaw "UpperFee" "UpperFee";
    SetUtf "UpperFeeCurrencyGroup" "UpperFeeCurrencyGroup";
    SetUtf "UpperFeeCurrency" "UpperFeeCurrency";
    SetRaw "IsUpperManualFee" "IsUpperManualFee";
    SetRaw "UpperOtherFee" "UpperOtherFee";
    SetUtf "MatchDateTime" "MatchDateTime";
    SetUtf "UpperMatchDateTime" "UpperMatchDateTime";
    SetRaw "CloseProfit" "CloseProfit";
    SetRaw "ClosePrice" "ClosePrice";
    SetRaw "CloseQty" "CloseQty";
    SetUtf "SettleGroupNo" "SettleGroupNo";
    SetUtf "OperatorNo" "OperatorNo";
    SetUtf "OperateTime" "OperateTime" ].

Definition processRspQryHisMatch (task : Task) : list Action :=
  let data : dict := ∅ in
  let data :=
    match task_data task with
    | Some d => fill processRspQryHisMatch_copy d data
    | None => data
    end in
  [Invoke (onRspQryHisMatch (task_id task) (task_int task) (task_last task) data)].

(** vntaptd.cpp:2042, the assignments to [data] in order; [task_data] is a
    [TapAPIHisPositionQryRsp]. *)
Definition processRspQryHisPosition_copy : list Assign :=
  [ SetUtf "SettleDate" "SettleDate";
    SetUtf "OpenDate" "OpenDate";
    SetUtf "AccountNo" "AccountNo";
    SetUtf "ExchangeNo" "ExchangeNo";
    SetRaw "CommodityType" "CommodityType";
    SetUtf "CommodityNo" "CommodityNo";
    SetUtf "ContractNo" "ContractNo";
    SetUtf "StrikePrice" "StrikePrice";
    SetRaw "CallOrPutFlag" "CallOrPutFlag";
    SetRaw "MatchSide" "MatchSide";
    SetRaw "HedgeFlag" "HedgeFlag";
    SetRaw "PositionPrice" "PositionPrice";
    SetRaw "PositionQty" "PositionQty";
    SetUtf "OrderNo" "OrderNo";
    SetUtf "PositionNo" "PositionNo";
    SetUtf "UpperNo" "UpperNo";
    SetUtf "CurrencyGroup" "CurrencyGroup";
    SetUtf "Currency" "Currency";
    SetRaw "PreSettlePrice" "PreSettlePrice";
    SetRaw "SettlePrice" "SettlePrice";
    SetRaw "PositionDProfit" "PositionDProfit";
    SetRaw "LMEPositionProfit" "LMEPositionProfit";
    SetRaw "OptionMarketValue" "OptionMarketValue";
    SetRaw "AccountInitialMargin" "AccountInitialMargin";
    SetRaw "AccountMaintenanceMargin" "AccountMaintenanceMargin";
    SetRaw "UpperInitialMargin" "UpperInitialMargin";
    SetRaw "UpperMaintenanceMargin" "UpperMaintenanceMargin";
    SetUtf "SettleGroupNo" "SettleGroupNo" ].

Definition processRspQryHisPosition (task : Task) : list Action :=
  let data : dict := ∅ in
  let data :=
    match task_data task with
    | Some d => fill processRspQryHisPosition_copy d data
    | None => data
    end in
  [Invoke (onRspQryHisPosition (task_id task) (task_int task) (task_last task) data)].

(** vntaptd.cpp:2082, the assignments to [data] in order; [task_data] is a
    [TapAPIHisDeliveryQryRsp]. *)
Definition processRspQryHisDelivery_copy : list Assign :=
  [ SetUtf "DeliveryDate" "DeliveryDate";
    SetUtf "OpenDate" "OpenDate";
    SetUtf "AccountNo" "AccountNo";
    SetUtf "ExchangeNo" "ExchangeNo";
    SetRaw "CommodityType" "CommodityType";
    SetUtf "CommodityNo" "CommodityNo";
    SetUtf "ContractNo" "ContractNo";
    SetUtf "StrikePrice" "StrikePrice";
    SetRaw "CallOrPutFlag" "CallOrPutFlag";
    SetRaw "MatchSource" "MatchSource";
    SetRaw "OpenSide" "OpenSide";
    SetRaw "OpenPrice" "OpenPrice";
    SetRaw "DeliveryPrice" "DeliveryPrice";
    SetRaw "DeliveryQty" "DeliveryQty";
    SetRaw "FrozenQty" "FrozenQty";
    SetUtf "OpenNo" "OpenNo";
    SetUtf "UpperNo" "UpperNo";
    SetUtf "CommodityCurrencyGroupy" "CommodityCurrencyGroupy";
    SetUtf "CommodityCurrency" "CommodityCurrency";
    SetRaw "PreSettlePrice" "PreSettlePrice";
    SetRaw "DeliveryProfit" "DeliveryProfit";
    SetRaw "AccountFrozenInitialMargin" "AccountFrozenInitialMargin";
    SetRaw "AccountFrozenMaintenanceMargin" "AccountFrozenMaintenanceMargin";
    SetRaw "UpperFrozenInitialMargin" "UpperFrozenInitialMargin";
    SetRaw "UpperFrozenMaintenanceMargin" "UpperFrozenMaintenanceMargin";
    SetUtf "AccountFeeCurrencyGroup" "AccountFeeCurrencyGroup";
    SetUtf "AccountFeeCurrency" "AccountFeeCurrency";
    SetRaw "AccountDeliveryFee" "AccountDeliveryFee";
    SetUtf "UpperFeeCurrencyGroup" "UpperFeeCurrencyGroup";
    SetUtf "UpperFeeCurrency" "UpperFeeCurrency";
    SetRaw "UpperDeliveryFee" "UpperDeliveryFee";
    SetRaw "DeliveryMode" "DeliveryMode";
    SetUtf "OperatorNo" "OperatorNo";
    SetUtf "OperateTime" "OperateTime";
    SetUtf "SettleGourpNo" "SettleGourpNo" ].

Definition processRspQryHisDelivery (task : Task) : list Action :=
  let data : dict := ∅ in
  let data :=
    match task_data task with
    | Some d => fill processRspQryHisDelivery_copy d data
    | None => data
    end in
  [Invoke (onRspQryHisDelivery (task_id task) (task_int task) (task_last task) data)].

(** vntaptd.cpp:2129, the assignments to [data] in order; [task_data] is a
    [TapAPIAccountCashAdjustQryRsp]. *)
Definition processRspQryAccountCashAdjust_copy : list Assign :=
  [ SetUtf "Date" "Date";
    SetUtf "AccountNo" "AccountNo";
    SetRaw "CashAdjustType" "CashAdjustType";
    SetUtf "CurrencyGroupNo" "CurrencyGroupNo";
    SetUtf "CurrencyNo" "CurrencyNo";
    SetRaw "CashAdjustValue" "CashAdjustValue";
    SetUtf "CashAdjustRemark" "CashAdjustRemark";
    SetUtf "OperateTime" "OperateTime";
    SetUtf "OperatorNo" "OperatorNo";
    SetUtf "AccountBank" "AccountBank";
    SetUtf "BankAccount" "BankAccount";
    SetRaw "AccountLWFlag" "AccountLWFlag";
    SetUtf "CompanyBank" "CompanyBank";
    SetUtf "InternalBankAccount" "InternalBankAccount";
    SetRaw "CompanyLWFlag" "CompanyLWFlag" ].

Definition processRspQryAccountCashAdjust (task : Task) : list Action :=
  let data : dict := ∅ in
  let data :=
    match task_data task with
    | Some d => fill processRspQryAccountCashAdjust_copy d data
    | None => data
    end in
  [Invoke (onRspQryAccountCashAdjust (task_id task) (task_int task) (task_last task) data)].

(** vntaptd.cpp:2156, the assignments to [data] in order; [task_data] is a
    [TapAPIBillQryRsp]. *)
Definition processRspQryBill_copy : list Assign :=
  [ SetRaw "Reqdata" "Reqdata";
    SetRaw "BillLen" "BillLen";
    SetRaw "BillText" "BillText" ].

Definition processRspQryBill (task : Task) : list Action :=
  let data : dict := ∅ in
  let data :=
    match task_data task with
    | Some d => fill processRspQryBill_copy d data
    | None => data
    end in
  [Invoke (onRspQryBill (task_id task) (task_int task) (task_last task) data)].

(** vntaptd.cpp:2171, the assignments to [data] in order; [task_data] is a
    [TapAPIAccountFeeRentQryRsp]. *)
Definition processRspQryAccountFeeRent_copy : list Assign :=
  [ SetUtf "AccountNo" "AccountNo";
    SetUtf "ExchangeNo" "ExchangeNo";
    SetRaw "CommodityType" "CommodityType";
    SetUtf "CommodityNo" "CommodityNo";
    SetRaw "MatchSource" "MatchSource";
    SetRaw "CalculateMode" "CalculateMode";
    SetUtf "CurrencyGroupNo" "CurrencyGroupNo";
    SetUtf "CurrencyNo" "CurrencyNo";
    SetRaw "OpenCloseFee" "OpenCloseFee";
    SetRaw "CloseTodayFee" "CloseTodayFee" ].

Definition processRspQryAccountFeeRent (task : Task) : list Action :=
  let data : dict := ∅ in
  let data :=
    match task_data task with
    | Some d => fill processRspQryAccountFeeRent_copy d data
    | None => data
    end in
  [Invoke (onRspQryAccountFeeRent (task_id task) (task_int task) (task_last task) data)].

(** vntaptd.cpp:2193, the assignments to [data] in order; [task_data] is a
    [TapAPIAccountMarginRentQryRsp]. *)
Definition processRspQryAccountMarginRent_copy : list Assign :=
  [ SetUtf "AccountNo" "AccountNo";
    SetUtf "ExchangeNo" "ExchangeNo";
    SetRaw "CommodityType" "CommodityType";
    SetUtf "CommodityNo" "CommodityNo";
    SetUtf "ContractNo" "ContractNo";
    SetUtf "StrikePrice" "StrikePrice";
    SetRaw "CallOrPutFlag" "CallOrPutFlag";
    SetRaw "CalculateMode" "CalculateMode";
    SetUtf "CurrencyGroupNo" "CurrencyGroupNo";
    SetUtf "CurrencyNo" "CurrencyNo";
    SetRaw "InitialMargin" "InitialMargin";
    SetRaw "MaintenanceMargin" "MaintenanceMargin";
    SetRaw "SellInitialMargin" "SellInitialMargin";
    SetRaw "SellMaintenanceMargin" "SellMaintenanceMargin";
    SetRaw "LockMargin" "LockMargin" ].

Definition processRspQryAccountMarginRent (task : Task) : list Action :=
  let data : dict := ∅ in
  let data :=
    match task_data task with
    | Some d => fill processRspQryAccountMarginRent_copy d data
    | None => data
    end in
  [Invoke (onRspQryAccountMarginRent (task_id task) (task_int task) (task_last task) data)].

(** vntaptd.cpp:2220, the assignments to [data] in order; [task_data] is a
    [TapAPIOrderMarketInsertRsp]. *)
Definition processRspHKMarketOrderInsert_copy : list Assign :=
  [ SetUtf "AccountNo" "AccountNo";
    SetUtf "ExchangeNo" "ExchangeNo";
    SetRaw "CommodityType" "CommodityType";
    SetUtf "CommodityNo" "CommodityNo";
    SetUtf "ContractNo" "ContractNo";
    SetUtf "StrikePrice" "StrikePrice";
    SetRaw "CallOrPutFlag" "CallOrPutFlag";
    SetRaw "OrderType" "OrderType";
    SetRaw "TimeInForce" "TimeInForce";
    SetUtf "ExpireTime" "ExpireTime";
    SetRaw "OrderSource" "OrderSource";
    SetRaw "BuyPositionEffect" "BuyPositionEffect";
    SetRaw "SellPositionEffect" "SellPositionEffect";
    SetRaw "OrderBuyPrice" "OrderBuyPrice";
    SetRaw "OrderSellPrice" "OrderSellPrice";
    SetRaw "OrderBuyQty" "OrderBuyQty";
    SetRaw "OrderSellQty" "OrderSellQty";
    SetRaw "ServerFlag" "ServerFlag";
    SetUtf "OrderBuyNo" "OrderBuyNo";
    SetUtf "OrderSellNo" "OrderSellNo";
    SetRaw "AddOneIsValid" "AddOneIsValid";
    SetUtf "OrderMarketUserNo" "OrderMarketUserNo";
    SetUtf "OrderMarketTime" "OrderMarketTime";
    SetRaw "RefInt" "RefInt";
    SetRaw "RefDouble" "RefDouble";
    SetUtf "RefString" "RefString";
    SetUtf "ClientBuyOrderNo" "ClientBuyOrderNo";
    SetUtf "ClientSellOrderNo" "ClientSellOrderNo";
    SetRaw "ErrorCode" "ErrorCode";
    SetUtf "ErrorText" "ErrorText";
    SetUtf "ClientLocalIP" "ClientLocalIP";
    SetUtf "ClientMac" "ClientMac";
    SetUtf "ClientIP" "ClientIP";
    SetUtf "Remark" "Remark" ].

Definition processRspHKMarketOrderInsert (task : Task) : list Action :=
  let data : dict := ∅ in
  let data :=
    match task_data task with
    | Some d => fill processRspHKMarketOrderInsert_copy d data
    | None => data
    end in
  [Invoke (onRspHKMarketOrderInsert (task_id task) (task_int task) data)].

(** vntaptd.cpp:2266, the assignments to [data] in order; [task_data] is a
    [TapAPIOrderMarketDeleteRsp]. *)
Definition processRspHKMarketOrderDelete_copy : list Assign :=
  [ SetUtf "AccountNo" "AccountNo";
    SetUtf "ExchangeNo" "ExchangeNo";
    SetRaw "CommodityType" "CommodityType";
    SetUtf "CommodityNo" "CommodityNo";
    SetUtf "ContractNo" "ContractNo";
    SetUtf "StrikePrice" "StrikePrice";
    SetRaw "CallOrPutFlag" "CallOrPutFlag";
    SetRaw "OrderType" "OrderType";
    SetRaw "TimeInForce" "TimeInForce";
    SetUtf "ExpireTime" "ExpireTime";
    SetRaw "OrderSource" "OrderSource";
    SetRaw "BuyPositionEffect" "BuyPositionEffect";
    SetRaw "SellPositionEffect" "SellPositionEffect";
    SetRaw "OrderBuyPrice" "OrderBuyPrice";
    SetRaw "OrderSellPrice" "OrderSellPrice";
    SetRaw "OrderBuyQty" "OrderBuyQty";
    SetRaw "OrderSellQty" "OrderSellQty";
    SetRaw "ServerFlag" "ServerFlag";
    SetUtf "OrderBuyNo" "OrderBuyNo";
    SetUtf "OrderSellNo" "OrderSellNo";
    SetRaw "AddOneIsValid" "AddOneIsValid";
    SetUtf "OrderMarketUserNo" "OrderMarketUserNo";
    SetUtf "OrderMarketTime" "OrderMarketTime";
    SetRaw "RefInt" "RefInt";
    SetRaw "RefDouble" "RefDouble";
    SetUtf "RefString" "RefString";
    SetUtf "ClientBuyOrderNo" "ClientBuyOrderNo";
    SetUtf "ClientSellOrderNo" "ClientSellOrderNo";
    SetRaw "ErrorCode" "ErrorCode";
    SetUtf "ErrorText" "ErrorText";
    SetUtf "ClientLocalIP" "ClientLocalIP";
    SetUtf "ClientMac" "ClientMac";
    SetUtf "ClientIP" "ClientIP";
    SetUtf "Remark" "Remark" ].

Definition processRspHKMarketOrderDelete (task : Task) : list Action :=
  let data : dict := ∅ in
  let data :=
    match task_data task with
    | Some d => fill processRspHKMarketOrderDelete_copy d data
    | None => data
    end in
  [Invoke (onRspHKMarketOrderDelete (task_id task) (task_int task) data)].

(** vntaptd.cpp:2312, the assignments to [data] in order; [task_data] is a
    [TapAPIOrderQuoteMarketNotice]. *)
Definition processHKMarketQuoteNotice_copy : list Assign :=
  [ SetUtf "ExchangeNo" "ExchangeNo";
    SetRaw "CommodityType" "CommodityType";
    SetUtf "CommodityNo" "CommodityNo";
    SetUtf "ContractNo" "ContractNo";
    SetUtf "StrikePrice" "StrikePrice";
    SetRaw "CallOrPutFlag" "CallOrPutFlag";
    SetRaw "OrderSide" "OrderSide";
    SetRaw "OrderQty" "OrderQty" ].

Definition processHKMarketQuoteNotice (task : Task) : list Action :=
  let data : dict := ∅ in
  let data :=
    match task_data task with
    | Some d => fill processHKMarketQuoteNotice_copy d data
    | None => data
    end in
  [Invoke (onHKMarketQuoteNotice data)].

(** vntaptd.cpp:2332, the assignments to [data] in order; [task_data] is a
    [TapAPIOrderLocalRemoveRsp]. *)
Definition processRspOrderLocalRemove_copy : list Assign :=
  [ SetRaw "req" "req";
    SetUtf "ClientLocalIP" "ClientLocalIP";
    SetUtf "ClientMac" "ClientMac";
    SetUtf "ClientIP" "ClientIP" ].

Definition processRspOrderLocalRemove (task : Task) : list Action :=
  let data : dict := ∅ in
  let data :=
    match task_data task with
    | Some d => fill processRspOrderLocalRemove_copy d data
    | None => data
    end in
  [Invoke (onRspOrderLocalRemove (task_id task) (task_int task) data)].

(** vntaptd.cpp:2348, the assignments to [data] in order; [task_data] is a
    [TapAPIOrderLocalInputRsp]. *)
Definition processRspOrderLocalInput_copy : list Assign :=
  [ SetUtf "AccountNo" "AccountNo";
    SetUtf "ExchangeNo" "ExchangeNo";
    SetRaw "CommodityType" "CommodityType";
    SetUtf "CommodityNo" "CommodityNo";
    SetUtf "ContractNo" "ContractNo";
    SetUtf "StrikePrice" "StrikePrice";
    SetRaw "CallOrPutFlag" "CallOrPutFlag";
    SetUtf "ContractNo2" "ContractNo2";
    SetUtf "StrikePrice2" "StrikePrice2";
    SetRaw "CallOrPutFlag2" "CallOrPutFlag2";
    SetRaw "OrderType" "OrderType";
    SetRaw "OrderSource" "OrderSource";
    SetRaw "TimeInForce" "TimeInForce";
    SetUtf "ExpireTime" "ExpireTime";
    SetRaw "IsRiskOrder" "IsRiskOrder";
    SetRaw "OrderSide" "OrderSide";
    SetRaw "PositionEffect" "PositionEffect";
    SetRaw "PositionEffect2" "PositionEffect2";
    SetUtf "InquiryNo" "InquiryNo";
    SetRaw "HedgeFlag" "HedgeFlag";
    SetRaw "OrderPrice" "OrderPrice";
    SetRaw "OrderPrice2" "OrderPrice2";
    SetRaw "StopPrice" "StopPrice";
    SetRaw "OrderQty" "OrderQty";
    SetRaw "OrderMinQty" "OrderMinQty";
    SetRaw "RefInt" "RefInt";
    SetRaw "RefDouble" "RefDouble";
    SetUtf "RefString" "RefString";
    SetRaw "MinClipSize" "MinClipSize";
    SetRaw "MaxClipSize" "MaxClipSize";
    SetUtf "LicenseNo" "LicenseNo";
    SetRaw "ServerFlag" "ServerFlag";
    SetUtf "OrderNo" "OrderNo";
    SetUtf "ClientOrderNo" "ClientOrderNo";
    SetUtf "ClientID" "ClientID";
    SetRaw "TacticsType" "TacticsType";
    SetRaw "TriggerCondition" "TriggerCondition";
    SetRaw "TriggerPriceType" "TriggerPriceType";
    SetRaw "AddOneIsValid" "AddOneIsValid";
    SetUtf "ClientLocalIP" "ClientLocalIP";
    SetUtf "ClientMac" "ClientMac";
    SetUtf "ClientIP" "ClientIP";
    SetRaw "OrderStreamID" "OrderStreamID";
    SetUtf "UpperNo" "UpperNo";
    SetUtf "UpperChannelNo" "UpperChannelNo";
    SetUtf "OrderLocalNo" "OrderLocalNo";
    SetRaw "UpperStreamID" "UpperStreamID";
    SetUtf "OrderSystemNo" "OrderSystemNo";
    SetUtf "OrderExchangeSystemNo" "OrderExchangeSystemNo";
    SetUtf "OrderParentSystemNo" "OrderParentSystemNo";
    SetUtf "OrderInsertUserNo" "OrderInsertUserNo";
    SetUtf "OrderInsertTime" "OrderInsertTime";
    SetUtf "OrderCommandUserNo" "OrderCommandUserNo";
    SetUtf "OrderUpdateUserNo" "OrderUpdateUserNo";
    SetUtf "OrderUpdateTime" "OrderUpdateTime";
    SetRaw "OrderState" "OrderState";
    SetRaw "OrderMatchPrice" "OrderMatchPrice";
    SetRaw "OrderMatchPrice2" "OrderMatchPrice2";
    SetRaw "OrderMatchQty" "OrderMatchQty";
    SetRaw "OrderMatchQty2" "OrderMatchQty2";
    SetRaw "ErrorCode" "ErrorCode";
    SetUtf "ErrorText" "ErrorText";
    SetRaw "IsBackInput" "IsBackInput";
    SetRaw "IsDeleted" "IsDeleted";
    SetRaw "IsAddOne" "IsAddOne" ].

Definition processRspOrderLocalInput (task : Task) : list Action :=
  let data : dict := ∅ in
  let data :=
    match task_data task with
    | Some d => fill processRspOrderLocalInput_copy d data
    | None => data
    end in
  [Invoke (onRspOrderLocalInput (task_id task) (task_int task) data)].

(** vntaptd.cpp:2425, the assignments to [data] in order; [task_data] is a
    [TapAPIOrderLocalModifyRsp]. *)
Definition processRspOrderLocalModify_copy : list Assign :=
  [ SetUtf "AccountNo" "AccountNo";
    SetUtf "ExchangeNo" "ExchangeNo";
    SetRaw "CommodityType" "CommodityType";
    SetUtf "CommodityNo" "CommodityNo";
    SetUtf "ContractNo" "ContractNo";
    SetUtf "StrikePrice" "StrikePrice";
    SetRaw "CallOrPutFlag" "CallOrPutFlag";
    SetUtf "ContractNo2" "ContractNo2";
    SetUtf "StrikePrice2" "StrikePrice2";
    SetRaw "CallOrPutFlag2" "CallOrPutFlag2";
    SetRaw "OrderType" "OrderType";
    SetRaw "OrderSource" "OrderSource";
    SetRaw "TimeInForce" "TimeInForce";
    SetUtf "ExpireTime" "ExpireTime";
    SetRaw "IsRiskOrder" "IsRiskOrder";
    SetRaw "OrderSide" "OrderSide";
    SetRaw "PositionEffect" "PositionEffect";
    SetRaw "PositionEffect2" "PositionEffect2";
    SetUtf "InquiryNo" "InquiryNo";
    SetRaw "HedgeFlag" "HedgeFlag";
    SetRaw "OrderPrice" "OrderPrice";
    SetRaw "OrderPrice2" "OrderPrice2";
    SetRaw "StopPrice" "StopPrice";
    SetRaw "OrderQty" "OrderQty";
    SetRaw "OrderMinQty" "OrderMinQty";
    SetRaw "RefInt" "RefInt";
    SetRaw "RefDouble" "RefDouble";
    SetUtf "RefString" "RefString";
    SetRaw "MinClipSize" "MinClipSize";
    SetRaw "MaxClipSize" "MaxClipSize";
    SetUtf "LicenseNo" "LicenseNo";
    SetRaw "ServerFlag" "ServerFlag";
    SetUtf "OrderNo" "OrderNo";
    SetUtf "ClientOrderNo" "ClientOrderNo";
    SetUtf "ClientID" "ClientID";
    SetRaw "TacticsType" "TacticsType";
    SetRaw "TriggerCondition" "TriggerCondition";
    SetRaw "TriggerPriceType" "TriggerPriceType";
    SetRaw "AddOneIsValid" "AddOneIsValid";
    SetUtf "ClientLocalIP" "ClientLocalIP";
    SetUtf "ClientMac" "ClientMac";
    SetUtf "ClientIP" "ClientIP";
    SetRaw "OrderStreamID" "OrderStreamID";
    SetUtf "UpperNo" "UpperNo";
    SetUtf "UpperChannelNo" "UpperChannelNo";
    SetUtf "OrderLocalNo" "OrderLocalNo";
    SetRaw "UpperStreamID" "UpperStreamID";
    SetUtf "OrderSystemNo" "OrderSystemNo";
    SetUtf "OrderExchangeSystemNo" "OrderExchangeSystemNo";
    SetUtf "OrderParentSystemNo" "OrderParentSystemNo";
    SetUtf "OrderInsertUserNo" "OrderInsertUserNo";
    SetUtf "OrderInsertTime" "OrderInsertTime";
    SetUtf "OrderCommandUserNo" "OrderCommandUserNo";
    SetUtf "OrderUpdateUserNo" "OrderUpdateUserNo";
    SetUtf "OrderUpdateTime" "OrderUpdateTime";
    SetRaw "OrderState" "OrderState";
    SetRaw "OrderMatchPrice" "OrderMatchPrice";
    SetRaw "OrderMatchPrice2" "OrderMatchPrice2";
    SetRaw "OrderMatchQty" "OrderMatchQty";
    SetRaw "OrderMatchQty2" "OrderMatchQty2";
    SetRaw "ErrorCode" "ErrorCode";
    SetUtf "ErrorText" "ErrorText";
    SetRaw "IsBackInput" "IsBackInput";
    SetRaw "IsDeleted" "IsDeleted";
    SetRaw "IsAddOne" "IsAddOne" ].

Definition processRspOrderLocalModify (task : Task) : list Action :=
  let data : dict := ∅ in
  let data :=
    match task_data task with
    | Some d => fill processRspOrderLocalModify_copy d data
    | None => data
    end in
  [Invoke (onRspOrderLocalModify (task_id task) (task_int task) data)].

(** vntaptd.cpp:2502, the assignments to [data] in order; [task_data] is a
    [TapAPIOrderLocalTransferRsp]. *)
Definition processRspOrderLocalTransfer_copy : list Assign :=
  [ SetUtf "AccountNo" "AccountNo";
    SetUtf "ExchangeNo" "ExchangeNo";
    SetRaw "CommodityType" "CommodityType";
    SetUtf "CommodityNo" "CommodityNo";
    SetUtf "ContractNo" "ContractNo";
    SetUtf "StrikePrice" "StrikePrice";
    SetRaw "CallOrPutFlag" "CallOrPutFlag";
    SetUtf "ContractNo2" "ContractNo2";
    SetUtf "StrikePrice2" "StrikePrice2";
    SetRaw "CallOrPutFlag2" "CallOrPutFlag2";
    SetRaw "OrderType" "OrderType";
    SetRaw "OrderSource" "OrderSource";
    SetRaw "TimeInForce" "TimeInForce";
    SetUtf "ExpireTime" "ExpireTime";
    SetRaw "IsRiskOrder" "IsRiskOrder";
    SetRaw "OrderSide" "OrderSide";
    SetRaw "PositionEffect" "PositionEffect";
    SetRaw "PositionEffect2" "PositionEffect2";
    SetUtf "InquiryNo" "InquiryNo";
    SetRaw "HedgeFlag" "HedgeFlag";
    SetRaw "OrderPrice" "OrderPrice";
    SetRaw "OrderPrice2" "OrderPrice2";
    SetRaw "StopPrice" "StopPrice";
    SetRaw "OrderQty" "OrderQty";
    SetRaw "OrderMinQty" "OrderMinQty";
    SetRaw "RefInt" "RefInt";
    SetRaw "RefDouble" "RefDouble";
    SetUtf "RefString" "RefString";
    SetRaw "MinClipSize" "MinClipSize";
    SetRaw "MaxClipSize" "MaxClipSize";
    SetUtf "LicenseNo" "LicenseNo";
    SetRaw "ServerFlag" "ServerFlag";
    SetUtf "OrderNo" "OrderNo";
    SetUtf "ClientOrderNo" "ClientOrderNo";
    SetUtf "ClientID" "ClientID";
    SetRaw "TacticsType" "TacticsType";
    SetRaw "TriggerCondition" "TriggerCondition";
    SetRaw "TriggerPriceType" "TriggerPriceType";
    SetRaw "AddOneIsValid" "AddOneIsValid";
    SetUtf "ClientLocalIP" "ClientLocalIP";
    SetUtf "ClientMac" "ClientMac";
    SetUtf "ClientIP" "ClientIP";
    SetRaw "OrderStreamID" "OrderStreamID";
    SetUtf "UpperNo" "UpperNo";
    SetUtf "UpperChannelNo" "UpperChannelNo";
    SetUtf "OrderLocalNo" "OrderLocalNo";
    SetRaw "UpperStreamID" "UpperStreamID";
    SetUtf "OrderSystemNo" "OrderSystemNo";
    SetUtf "OrderExchangeSystemNo" "OrderExchangeSystemNo";
    SetUtf "OrderParentSystemNo" "OrderParentSystemNo";
    SetUtf "OrderInsertUserNo" "OrderInsertUserNo";
    SetUtf "OrderInsertTime" "OrderInsertTime";
    SetUtf "OrderCommandUserNo" "OrderCommandUserNo";
    SetUtf "OrderUpdateUserNo" "OrderUpdateUserNo";
    SetUtf "OrderUpdateTime" "OrderUpdateTime";
    SetRaw "OrderState" "OrderState";
    SetRaw "OrderMatchPrice" "OrderMatchPrice";
    SetRaw "OrderMatchPrice2" "OrderMatchPrice2";
    SetRaw "OrderMatchQty" "OrderMatchQty";
    SetRaw "OrderMatchQty2" "OrderMatchQty2";
    SetRaw "ErrorCode" "ErrorCode";
    SetUtf "ErrorText" "ErrorText";
    SetRaw "IsBackInput" "IsBackInput";
    SetRaw "IsDeleted" "IsDeleted";
    SetRaw "IsAddOne" "IsAddOne" ].

Definition processRspOrderLocalTransfer (task : Task) : list Action :=
  let data : dict := ∅ in
  let data :=
    match task_data task with
    | Some d => fill processRspOrderLocalTransfer_copy d data
    | None => data
    end in
  [Invoke (onRspOrderLocalTransfer (task_id task) (task_int task) data)].

(** vntaptd.cpp:2579, the assignments to [data] in order; [task_data] is a
    [TapAPIFillLocalInputRsp]. *)
Definition processRspFillLocalInput_copy : list Assign :=
  [ SetUtf "AccountNo" "AccountNo";
    SetUtf "ExchangeNo" "ExchangeNo";
    SetRaw "CommodityType" "CommodityType";
    SetUtf "CommodityNo" "CommodityNo";
    SetUtf "ContractNo" "ContractNo";
    SetUtf "StrikePrice" "StrikePrice";
    SetRaw "CallOrPutFlag" "CallOrPutFlag";
    SetRaw "MatchSide" "MatchSide";
    SetRaw "PositionEffect" "PositionEffect";
    SetRaw "HedgeFlag" "HedgeFlag";
    SetRaw "MatchPrice" "MatchPrice";
    SetRaw "MatchQty" "MatchQty";
    SetUtf "OrderSystemNo" "OrderSystemNo";
    SetUtf "UpperMatchNo" "UpperMatchNo";
    SetUtf "MatchDateTime" "MatchDateTime";
    SetUtf "UpperMatchDateTime" "UpperMatchDateTime";
    SetUtf "UpperNo" "UpperNo";
    SetRaw "IsAddOne" "IsAddOne";
    SetUtf "FeeCurrencyGroup" "FeeCurrencyGroup";
    SetUtf "FeeCurrency" "FeeCurrency";
    SetRaw "FeeValue" "FeeValue";
    SetRaw "IsManualFee" "IsManualFee";
    SetRaw "ClosePositionPrice" "ClosePositionPrice" ].

Definition processRspFillLocalInput (task : Task) : list Action :=
  let data : dict := ∅ in
  let data :=
    match task_data task with
    | Some d => fill processRspFillLocalInput_copy d data
    | None => data
    end in
  [Invoke (onRspFillLocalInput (task_id task) (task_int task) data)].

(** vntaptd.cpp:2614, the assignments to [data] in order; [task_data] is a
    [TapAPIFillLocalRemoveRsp]. *)
Definition processRspFillLocalRemove_copy : list Assign :=
  [ SetRaw "ServerFlag" "ServerFlag";
    SetUtf "MatchNo" "MatchNo" ].

Definition processRspFillLocalRemove (task : Task) : list Action :=
  let data : dict := ∅ in
  let data :=
    match task_data task with
    | Some d => fill processRspFillLocalRemove_copy d data
    | None => data
    end in
  [Invoke (onRspFillLocalRemove (task_id task) (task_int task) data)].
(** ** [TdApi::processTask] (vntaptd.cpp:721-1038) *)

(** The case labels of the [switch] with the function each one calls. *)
Definition cases : list (TaskName * (Task -> list Action)) :=
  [ (ONCONNECT, processConnect);
    (ONRSPLOGIN, processRspLogin);
    (ONRTNCONTACTINFO, processRtnContactInfo);
    (ONRSPREQUESTVERTIFICATECODE, processRspRequestVertificateCode);
    (ONEXPRIATIONDATE, processExpriationDate);
    (ONAPIREADY, processAPIReady);
    (ONDISCONNECT, processDisconnect);
    (ONRSPCHANGEPASSWORD, processRspChangePassword);
    (ONRSPAUTHPASSWORD, processRspAuthPassword);
    (ONRSPQRYTRADINGDATE, processRspQryTradingDate);
    (ONRSPSETRESERVEDINFO, processRspSetReservedInfo);
    (ONRSPQRYACCOUNT, processRspQryAccount);
    (ONRSPQRYFUND, processRspQryFund);
    (ONRTNFUND, processRtnFund);
    (ONRSPQRYEXCHANGE, processRspQryExchange);
    (ONRSPQRYCOMMODITY, processRspQryCommodity);
    (ONRSPQRYCONTRACT, processRspQryContract);
    (ONRTNCONTRACT, processRtnContract);
    (ONRSPORDERACTION, processRspOrderAction);
    (ONRTNORDER, processRtnOrder);
    (ONRSPQRYORDER, processRspQryOrder);
    (ONRSPQRYORDERPROCESS, processRspQryOrderProcess);
    (ONRSPQRYFILL, processRspQryFill);
    (ONRTNFILL, processRtnFill);
    (ONRSPQRYPOSITION, processRspQryPosition);
    (ONRTNPOSITION, processRtnPosition);
    (ONRSPQRYPOSITIONSUMMARY, processRspQryPositionSummary);
    (ONRTNPOSITIONSUMMARY, processRtnPositionSummary);
    (ONRTNPOSITIONPROFIT, processRtnPositionProfit);
    (ONRSPQRYCURRENCY, processRspQryCurrency);
    (ONRSPQRYTRADEMESSAGE, processRspQryTradeMessage);
    (ONRTNTRADEMESSAGE, processRtnTradeMessage);
    (ONRSPQRYHISORDER, processRspQryHisOrder);
    (ONRSPQRYHISORDERPROCESS, processRspQryHisOrderProcess);
    (ONRSPQRYHISMATCH, processRspQryHisMatch);
    (ONRSPQRYHISPOSITION, processRspQryHisPosition);
    (ONRSPQRYHISDELIVERY, processRspQryHisDelivery);
    (ONRSPQRYACCOUNTCASHADJUST, processRspQryAccountCashAdjust);
    (ONRSPQRYBILL, processRspQryBill);
    (ONRSPQRYACCOUNTFEERENT, processRspQryAccountFeeRent);
    (ONRSPQRYACCOUNTMARGINRENT, processRspQryAccountMarginRent);
    (ONRSPHKMARKETORDERINSERT, processRspHKMarketOrderInsert);
    (ONRSPHKMARKETORDERDELETE, processRspHKMarketOrderDelete);
    (ONHKMARKETQUOTENOTICE, processHKMarketQuoteNotice);
    (ONRSPORDERLOCALREMOVE, processRspOrderLocalRemove);
    (ONRSPORDERLOCALINPUT, processRspOrderLocalInput);
    (ONRSPORDERLOCALMODIFY, processRspOrderLocalModify);
    (ONRSPORDERLOCALTRANSFER, processRspOrderLocalTransfer);
    (ONRSPFILLLOCALINPUT, processRspFillLocalInput);
    (ONRSPFILLLOCALREMOVE, processRspFillLocalRemove) ].

(** [switch (task.task_name)]: the first case whose label equals the tag
    runs and [break]s; there is no [default]. *)
Fixpoint switch (cs : list (TaskName * (Task -> list Action))) (task : Task)
  : list Action :=
  match cs with
  | [] => []
  | (c, body) :: cs' =>
      if task_name task =? tag c then body task else switch cs' task
  end.

(** One turn of the loop on the task [task_queue.pop()] returned. *)
Definition processTask_turn (task : Task) : list Action :=
  Pop task :: switch cases task.

(** ** An SDK callback invocation *)

(** A call of a callback with its arguments: [unsigned int], [int] and
    [char] arguments are integers, a pointer to a vendor struct is [None]
    when null. *)
Inductive Callback :=
  | CbConnect
  | CbRspLogin (errorCode : Z) (loginRspInfo : option Struct)
  | CbRtnContactInfo (errorCode : Z) (isLast : Z) (ContactInfo : string)
  | CbRspRequestVertificateCode (sessionID : Z) (errorCode : Z) (rsp : option Struct)
  | CbExpriationDate (date : string) (days : Z)
  | CbAPIReady (errorCode : Z)
  | CbDisconnect (reasonCode : Z)
  | CbRspChangePassword (sessionID : Z) (errorCode : Z)
  | CbRspAuthPassword (sessionID : Z) (errorCode : Z)
  | CbRspQryTradingDate (sessionID : Z) (errorCode : Z) (info : option Struct)
  | CbRspSetReservedInfo (sessionID : Z) (errorCode : Z) (info : string)
  | CbRspQryAccount (sessionID : Z) (errorCode : Z) (isLast : Z) (info : option Struct)
  | CbRspQryFund (sessionID : Z) (errorCode : Z) (isLast : Z) (info : option Struct)
  | CbRtnFund (info : option Struct)
  | CbRspQryExchange (sessionID : Z) (errorCode : Z) (isLast : Z) (info : option Struct)
  | CbRspQryCommodity (sessionID : Z) (errorCode : Z) (isLast : Z) (info : option Struct)
  | CbRspQryContract (sessionID : Z) (errorCode : Z) (isLast : Z) (info : option Struct)
  | CbRtnContract (info : option Struct)
  | CbRspOrderAction (sessionID : Z) (errorCode : Z) (info : option Struct)
  | CbRtnOrder (info : option Struct)
  | CbRspQryOrder (sessionID : Z) (errorCode : Z) (isLast : Z) (info : option Struct)
  | CbRspQryOrderProcess (sessionID : Z) (errorCode : Z) (isLast : Z) (info : option Struct)
  | CbRspQryFill (sessionID : Z) (errorCode : Z) (isLast : Z) (info : option Struct)
  | CbRtnFill (info : option Struct)
  | CbRspQryPosition (sessionID : Z) (errorCode : Z) (isLast : Z) (info : option Struct)
  | CbRtnPosition (info : option Struct)
  | CbRspQryPositionSummary (sessionID : Z) (errorCode : Z) (isLast : Z) (info : option Struct)
  | CbRtnPositionSummary (info : option Struct)
  | CbRtnPositionProfit (info : option Struct)
  | CbRspQryCurrency (sessionID : Z) (errorCode : Z) (isLast : Z) (info : option Struct)
  | CbRspQryTradeMessage (sessionID : Z) (errorCode : Z) (isLast : Z) (info : option Struct)
  | CbRtnTradeMessage (info : option Struct)
  | CbRspQryHisOrder (sessionID : Z) (errorCode : Z) (isLast : Z) (info : option Struct)
  | CbRspQryHisOrderProcess (sessionID : Z) (errorCode : Z) (isLast : Z) (info : option Struct)
  | CbRspQryHisMatch (sessionID : Z) (errorCode : Z) (isLast : Z) (info : option Struct)
  | CbRspQryHisPosition (sessionID : Z) (errorCode : Z) (isLast : Z) (info : option Struct)
  | CbRspQryHisDelivery (sessionID : Z) (errorCode : Z) (isLast : Z) (info : option Struct)
  | CbRspQryAccountCashAdjust (sessionID : Z) (errorCode : Z) (isLast : Z) (info : option Struct)
  | CbRspQryBill (sessionID : Z) (errorCode : Z) (isLast : Z) (info : option Struct)
  | CbRspQryAccountFeeRent (sessionID : Z) (errorCode : Z) (isLast : Z) (info : option Struct)
  | CbRspQryAccountMarginRent (sessionID : Z) (errorCode : Z) (isLast : Z) (info : option Struct)
  | CbRspHKMarketOrderInsert (sessionID : Z) (errorCode : Z) (info : option Struct)
  | CbRspHKMarketOrderDelete (sessionID : Z) (errorCode : Z) (info : option Struct)
  | CbHKMarketQuoteNotice (info : option Struct)
  | CbRspOrderLocalRemove (sessionID : Z) (errorCode : Z) (info : option Struct)
  | CbRspOrderLocalInput (sessionID : Z) (errorCode : Z) (info : option Struct)
  | CbRspOrderLocalModify (sessionID : Z) (errorCode : Z) (info : option Struct)
  | CbRspOrderLocalTransfer (sessionID : Z) (errorCode : Z) (info : option Struct)
  | CbRspFillLocalInput (sessionID : Z) (errorCode : Z) (info : option Struct)
  | CbRspFillLocalRemove (sessionID : Z) (errorCode : Z) (info : option Struct)
.

(** What the call does. *)
Definition callback (cb : Callback) : list Action :=
  match cb with
  | CbConnect => OnConnect
  | CbRspLogin errorCode loginRspInfo => OnRspLogin errorCode loginRspInfo
  | CbRtnContactInfo errorCode isLast ContactInfo => OnRtnContactInfo errorCode isLast ContactInfo
  | CbRspRequestVertificateCode sessionID errorCode rsp => OnRspRequestVertificateCode sessionID errorCode rsp
  | CbExpriationDate date days => OnExpriationDate date days
  | CbAPIReady errorCode => OnAPIReady errorCode
  | CbDisconnect reasonCode => OnDisconnect reasonCode
  | CbRspChangePassword sessionID errorCode => OnRspChangePassword sessionID errorCode
  | CbRspAuthPassword sessionID errorCode => OnRspAuthPassword sessionID errorCode
  | CbRspQryTradingDate sessionID errorCode info => OnRspQryTradingDate sessionID errorCode info
  | CbRspSetReservedInfo sessionID errorCode info => OnRspSetReservedInfo sessionID errorCode info
  | CbRspQryAccount sessionID errorCode isLast info => OnRspQryAccount sessionID errorCode isLast info
  | CbRspQryFund sessionID errorCode isLast info => OnRspQryFund sessionID errorCode isLast info
  | CbRtnFund info => OnRtnFund info
  | CbRspQryExchange sessionID errorCode isLast info => OnRspQryExchange sessionID errorCode isLast info
  | CbRspQryCommodity sessionID errorCode isLast info => OnRspQryCommodity sessionID errorCode isLast info
  | CbRspQryContract sessionID errorCode isLast info => OnRspQryContract sessionID errorCode isLast info
  | CbRtnContract info => OnRtnContract info
  | CbRspOrderAction sessionID errorCode info => OnRspOrderAction sessionID errorCode info
  | CbRtnOrder info => OnRtnOrder info
  | CbRspQryOrder sessionID errorCode isLast info => OnRspQryOrder sessionID errorCode isLast info
  | CbRspQryOrderProcess sessionID errorCode isLast info => OnRspQryOrderProcess sessionID errorCode isLast info
  | CbRspQryFill sessionID errorCode isLast info => OnRspQryFill sessionID errorCode isLast info
  | CbRtnFill info => OnRtnFill info
  | CbRspQryPosition sessionID errorCode isLast info => OnRspQryPosition sessionID errorCode isLast info
  | CbRtnPosition info => OnRtnPosition info
  | CbRspQryPositionSummary sessionID errorCode isLast info => OnRspQryPositionSummary sessionID errorCode isLast info
  | CbRtnPositionSummary info => OnRtnPositionSummary info
  | CbRtnPositionProfit info => OnRtnPositionProfit info
  | CbRspQryCurrency sessionID errorCode isLast info => OnRspQryCurrency sessionID errorCode isLast info
  | CbRspQryTradeMessage sessionID errorCode isLast info => OnRspQryTradeMessage sessionID errorCode isLast info
  | CbRtnTradeMessage info => OnRtnTradeMessage info
  | CbRspQryHisOrder sessionID errorCode isLast info => OnRspQryHisOrder sessionID errorCode isLast info
  | CbRspQryHisOrderProcess sessionID errorCode isLast info => OnRspQryHisOrderProcess sessionID errorCode isLast info
  | CbRspQryHisMatch sessionID errorCode isLast info => OnRspQryHisMatch sessionID errorCode isLast info
  | CbRspQryHisPosition sessionID errorCode isLast info => OnRspQryHisPosition sessionID errorCode isLast info
  | CbRspQryHisDelivery sessionID errorCode isLast info => OnRspQryHisDelivery sessionID errorCode isLast info
  | CbRspQryAccountCashAdjust sessionID errorCode isLast info => OnRspQryAccountCashAdjust sessionID errorCode isLast info
  | CbRspQryBill sessionID errorCode isLast info => OnRspQryBill sessionID errorCode isLast info
  | CbRspQryAccountFeeRent sessionID errorCode isLast info => OnRspQryAccountFeeRent sessionID errorCode isLast info
  | CbRspQryAccountMarginRent sessionID errorCode isLast info => OnRspQryAccountMarginRent sessionID errorCode isLast info
  | CbRspHKMarketOrderInsert sessionID errorCode info => OnRspHKMarketOrderInsert sessionID errorCode info
  | CbRspHKMarketOrderDelete sessionID errorCode info => OnRspHKMarketOrderDelete sessionID errorCode info
  | CbHKMarketQuoteNotice info => OnHKMarketQuoteNotice info
  | CbRspOrderLocalRemove sessionID errorCode info => OnRspOrderLocalRemove sessionID errorCode info
  | CbRspOrderLocalInput sessionID errorCode info => OnRspOrderLocalInput sessionID errorCode info
  | CbRspOrderLocalModify sessionID errorCode info => OnRspOrderLocalModify sessionID errorCode info
  | CbRspOrderLocalTransfer sessionID errorCode info => OnRspOrderLocalTransfer sessionID errorCode info
  | CbRspFillLocalInput sessionID errorCode info => OnRspFillLocalInput sessionID errorCode info
  | CbRspFillLocalRemove sessionID errorCode info => OnRspFillLocalRemove sessionID errorCode info
  end.

Definition pushed (acts : list Action) : list Task :=
  omap (fun a => match a with Push t => Some t | _ => None end) acts.

Definition popped (acts : list Action) : list Task :=
  omap (fun a => match a with Pop t => Some t | _ => None end) acts.

Definition invoked (acts : list Action) : list HandlerCall :=
  omap (fun a => match a with Invoke h => Some h | _ => None end) acts.

(** The handler calls made when the tasks a callback pushed are replayed
    by the worker. *)
Definition replay (cb : Callback) : list HandlerCall :=
  invoked (flat_map processTask_turn (pushed (callback cb))).

(** ** Reading callbacks and handler calls *)

Definition cb_index (cb : Callback) : nat :=
  match cb with
  | CbConnect => 0
  | CbRspLogin _ _ => 1
  | CbRtnContactInfo _ _ _ => 2
  | CbRspRequestVertificateCode _ _ _ => 3
  | CbExpriationDate _ _ => 4
  | CbAPIReady _ => 5
  | CbDisconnect _ => 6
  | CbRspChangePassword _ _ => 7
  | CbRspAuthPassword _ _ => 8
  | CbRspQryTradingDate _ _ _ => 9
  | CbRspSetReservedInfo _ _ _ => 10
  | CbRspQryAccount _ _ _ _ => 11
  | CbRspQryFund _ _ _ _ => 12
  | CbRtnFund _ => 13
  | CbRspQryExchange _ _ _ _ => 14
  | CbRspQryCommodity _ _ _ _ => 15
  | CbRspQryContract _ _ _ _ => 16
  | CbRtnContract _ => 17
  | CbRspOrderAction _ _ _ => 18
  | CbRtnOrder _ => 19
  | CbRspQryOrder _ _ _ _ => 20
  | CbRspQryOrderProcess _ _ _ _ => 21
  | CbRspQryFill _ _ _ _ => 22
  | CbRtnFill _ => 23
  | CbRspQryPosition _ _ _ _ => 24
  | CbRtnPosition _ => 25
  | CbRspQryPositionSummary _ _ _ _ => 26
  | CbRtnPositionSummary _ => 27
  | CbRtnPositionProfit _ => 28
  | CbRspQryCurrency _ _ _ _ => 29
  | CbRspQryTradeMessage _ _ _ _ => 30
  | CbRtnTradeMessage _ => 31
  | CbRspQryHisOrder _ _ _ _ => 32
  | CbRspQryHisOrderProcess _ _ _ _ => 33
  | CbRspQryHisMatch _ _ _ _ => 34
  | CbRspQryHisPosition _ _ _ _ => 35
  | CbRspQryHisDelivery _ _ _ _ => 36
  | CbRspQryAccountCashAdjust _ _ _ _ => 37
  | CbRspQryBill _ _ _ _ => 38
  | CbRspQryAccountFeeRent _ _ _ _ => 39
  | CbRspQryAccountMarginRent _ _ _ _ => 40
  | CbRspHKMarketOrderInsert _ _ _ => 41
  | CbRspHKMarketOrderDelete _ _ _ => 42
  | CbHKMarketQuoteNotice _ => 43
  | CbRspOrderLocalRemove _ _ _ => 44
  | CbRspOrderLocalInput _ _ _ => 45
  | CbRspOrderLocalModify _ _ _ => 46
  | CbRspOrderLocalTransfer _ _ _ => 47
  | CbRspFillLocalInput _ _ _ => 48
  | CbRspFillLocalRemove _ _ _ => 49
  end.

Definition cb_tag (cb : Callback) : TaskName :=
  match cb with
  | CbConnect => ONCONNECT
  | CbRspLogin _ _ => ONRSPLOGIN
  | CbRtnContactInfo _ _ _ => ONRTNCONTACTINFO
  | CbRspRequestVertificateCode _ _ _ => ONRSPREQUESTVERTIFICATECODE
  | CbExpriationDate _ _ => ONEXPRIATIONDATE
  | CbAPIReady _ => ONAPIREADY
  | CbDisconnect _ => ONDISCONNECT
  | CbRspChangePassword _ _ => ONRSPCHANGEPASSWORD
  | CbRspAuthPassword _ _ => ONRSPAUTHPASSWORD
  | CbRspQryTradingDate _ _ _ => ONRSPQRYTRADINGDATE
  | CbRspSetReservedInfo _ _ _ => ONRSPSETRESERVEDINFO
  | CbRspQryAccount _ _ _ _ => ONRSPQRYACCOUNT
  | CbRspQryFund _ _ _ _ => ONRSPQRYFUND
  | CbRtnFund _ => ONRTNFUND
  | CbRspQryExchange _ _ _ _ => ONRSPQRYEXCHANGE
  | CbRspQryCommodity _ _ _ _ => ONRSPQRYCOMMODITY
  | CbRspQryContract _ _ _ _ => ONRSPQRYCONTRACT
  | CbRtnContract _ => ONRTNCONTRACT
  | CbRspOrderAction _ _ _ => ONRSPORDERACTION
  | CbRtnOrder _ => ONRTNORDER
  | CbRspQryOrder _ _ _ _ => ONRSPQRYORDER
  | CbRspQryOrderProcess _ _ _ _ => ONRSPQRYORDERPROCESS
  | CbRspQryFill _ _ _ _ => ONRSPQRYFILL
  | CbRtnFill _ => ONRTNFILL
  | CbRspQryPosition _ _ _ _ => ONRSPQRYPOSITION
  | CbRtnPosition _ => ONRTNPOSITION
  | CbRspQryPositionSummary _ _ _ _ => ONRSPQRYPOSITIONSUMMARY
  | CbRtnPositionSummary _ => ONRTNPOSITIONSUMMARY
  | CbRtnPositionProfit _ => ONRTNPOSITIONPROFIT
  | CbRspQryCurrency _ _ _ _ => ONRSPQRYCURRENCY
  | CbRspQryTradeMessage _ _ _ _ => ONRSPQRYTRADEMESSAGE
  | CbRtnTradeMessage _ => ONRTNTRADEMESSAGE
  | CbRspQryHisOrder _ _ _ _ => ONRSPQRYHISORDER
  | CbRspQryHisOrderProcess _ _ _ _ => ONRSPQRYHISORDERPROCESS
  | CbRspQryHisMatch _ _ _ _ => ONRSPQRYHISMATCH
  | CbRspQryHisPosition _ _ _ _ => ONRSPQRYHISPOSITION
  | CbRspQryHisDelivery _ _ _ _ => ONRSPQRYHISDELIVERY
  | CbRspQryAccountCashAdjust _ _ _ _ => ONRSPQRYACCOUNTCASHADJUST
  | CbRspQryBill _ _ _ _ => ONRSPQRYBILL
  | CbRspQryAccountFeeRent _ _ _ _ => ONRSPQRYACCOUNTFEERENT
  | CbRspQryAccountMarginRent _ _ _ _ => ONRSPQRYACCOUNTMARGINRENT
  | CbRspHKMarketOrderInsert _ _ _ => ONRSPHKMARKETORDERINSERT
  | CbRspHKMarketOrderDelete _ _ _ => ONRSPHKMARKETORDERDELETE
  | CbHKMarketQuoteNotice _ => ONHKMARKETQUOTENOTICE
  | CbRspOrderLocalRemove _ _ _ => ONRSPORDERLOCALREMOVE
  | CbRspOrderLocalInput _ _ _ => ONRSPORDERLOCALINPUT
  | CbRspOrderLocalModify _ _ _ => ONRSPORDERLOCALMODIFY
  | CbRspOrderLocalTransfer _ _ _ => ONRSPORDERLOCALTRANSFER
  | CbRspFillLocalInput _ _ _ => ONRSPFILLLOCALINPUT
  | CbRspFillLocalRemove _ _ _ => ONRSPFILLLOCALREMOVE
  end.

Definition cb_session (cb : Callback) : option Z :=
  match cb with
  | CbConnect => None
  | CbRspLogin _ _ => None
  | CbRtnContactInfo _ _ _ => None
  | CbRspRequestVertificateCode sessionID _ _ => Some sessionID
  | CbExpriationDate _ _ => None
  | CbAPIReady _ => None
  | CbDisconnect _ => None
  | CbRspChangePassword sessionID _ => Some sessionID
  | CbRspAuthPassword sessionID _ => Some sessionID
  | CbRspQryTradingDate sessionID _ _ => Some sessionID
  | CbRspSetReservedInfo sessionID _ _ => Some sessionID
  | CbRspQryAccount sessionID _ _ _ => Some sessionID
  | CbRspQryFund sessionID _ _ _ => Some sessionID
  | CbRtnFund _ => None
  | CbRspQryExchange sessionID _ _ _ => Some sessionID
  | CbRspQryCommodity sessionID _ _ _ => Some sessionID
  | CbRspQryContract sessionID _ _ _ => Some sessionID
  | CbRtnContract _ => None
  | CbRspOrderAction sessionID _ _ => Some sessionID
  | CbRtnOrder _ => None
  | CbRspQryOrder sessionID _ _ _ => Some sessionID
  | CbRspQryOrderProcess sessionID _ _ _ => Some sessionID
  | CbRspQryFill sessionID _ _ _ => Some sessionID
  | CbRtnFill _ => None
  | CbRspQryPosition sessionID _ _ _ => Some sessionID
  | CbRtnPosition _ => None
  | CbRspQryPositionSummary sessionID _ _ _ => Some sessionID
  | CbRtnPositionSummary _ => None
  | CbRtnPositionProfit _ => None
  | CbRspQryCurrency sessionID _ _ _ => Some sessionID
  | CbRspQryTradeMessage sessionID _ _ _ => Some sessionID
  | CbRtnTradeMessage _ => None
  | CbRspQryHisOrder sessionID _ _ _ => Some sessionID
  | CbRspQryHisOrderProcess sessionID _ _ _ => Some sessionID
  | CbRspQryHisMatch sessionID _ _ _ => Some sessionID
  | CbRspQryHisPosition sessionID _ _ _ => Some sessionID
  | CbRspQryHisDelivery sessionID _ _ _ => Some sessionID
  | CbRspQryAccountCashAdjust sessionID _ _ _ => Some sessionID
  | CbRspQryBill sessionID _ _ _ => Some sessionID
  | CbRspQryAccountFeeRent sessionID _ _ _ => Some sessionID
  | CbRspQryAccountMarginRent sessionID _ _ _ => Some sessionID
  | CbRspHKMarketOrderInsert sessionID _ _ => Some sessionID
  | CbRspHKMarketOrderDelete sessionID _ _ => Some sessionID
  | CbHKMarketQuoteNotice _ => None
  | CbRspOrderLocalRemove sessionID _ _ => Some sessionID
  | CbRspOrderLocalInput sessionID _ _ => Some sessionID
  | CbRspOrderLocalModify sessionID _ _ => Some sessionID
  | CbRspOrderLocalTransfer sessionID _ _ => Some sessionID
  | CbRspFillLocalInput sessionID _ _ => Some sessionID
  | CbRspFillLocalRemove sessionID _ _ => Some sessionID
  end.

Definition cb_error (cb : Callback) : option Z :=
  match cb with
  | CbConnect => None
  | CbRspLogin errorCode _ => Some errorCode
  | CbRtnContactInfo errorCode _ _ => Some errorCode
  | CbRspRequestVertificateCode _ errorCode _ => Some errorCode
  | CbExpriationDate _ _ => None
  | CbAPIReady errorCode => Some errorCode
  | CbDisconnect _ => None
  | CbRspChangePassword _ errorCode => Some errorCode
  | CbRspAuthPassword _ errorCode => Some errorCode
  | CbRspQryTradingDate _ errorCode _ => Some errorCode
  | CbRspSetReservedInfo _ errorCode _ => Some errorCode
  | CbRspQryAccount _ errorCode _ _ => Some errorCode
  | CbRspQryFund _ errorCode _ _ => Some errorCode
  | CbRtnFund _ => None
  | CbRspQryExchange _ errorCode _ _ => Some errorCode
  | CbRspQryCommodity _ errorCode _ _ => Some errorCode
  | CbRspQryContract _ errorCode _ _ => Some errorCode
  | CbRtnContract _ => None
  | CbRspOrderAction _ errorCode _ => Some errorCode
  | CbRtnOrder _ => None
  | CbRspQryOrder _ errorCode _ _ => Some errorCode
  | CbRspQryOrderProcess _ errorCode _ _ => Some errorCode
  | CbRspQryFill _ errorCode _ _ => Some errorCode
  | CbRtnFill _ => None
  | CbRspQryPosition _ errorCode _ _ => Some errorCode
  | CbRtnPosition _ => None
  | CbRspQryPositionSummary _ errorCode _ _ => Some errorCode
  | CbRtnPositionSummary _ => None
  | CbRtnPositionProfit _ => None
  | CbRspQryCurrency _ errorCode _ _ => Some errorCode
  | CbRspQryTradeMessage _ errorCode _ _ => Some errorCode
  | CbRtnTradeMessage _ => None
  | CbRspQryHisOrder _ errorCode _ _ => Some errorCode
  | CbRspQryHisOrderProcess _ errorCode _ _ => Some errorCode
  | CbRspQryHisMatch _ errorCode _ _ => Some errorCode
  | CbRspQryHisPosition _ errorCode _ _ => Some errorCode
  | CbRspQryHisDelivery _ errorCode _ _ => Some errorCode
  | CbRspQryAccountCashAdjust _ errorCode _ _ => Some errorCode
  | CbRspQryBill _ errorCode _ _ => Some errorCode
  | CbRspQryAccountFeeRent _ errorCode _ _ => Some errorCode
  | CbRspQryAccountMarginRent _ errorCode _ _ => Some errorCode
  | CbRspHKMarketOrderInsert _ errorCode _ => Some errorCode
  | CbRspHKMarketOrderDelete _ errorCode _ => Some errorCode
  | CbHKMarketQuoteNotice _ => None
  | CbRspOrderLocalRemove _ errorCode _ => Some errorCode
  | CbRspOrderLocalInput _ errorCode _ => Some errorCode
  | CbRspOrderLocalModify _ errorCode _ => Some errorCode
  | CbRspOrderLocalTransfer _ errorCode _ => Some errorCode
  | CbRspFillLocalInput _ errorCode _ => Some errorCode
  | CbRspFillLocalRemove _ errorCode _ => Some errorCode
  end.

Definition cb_last (cb : Callback) : option Z :=
  match cb with
  | CbConnect => None
  | CbRspLogin _ _ => None
  | CbRtnContactInfo _ isLast _ => Some isLast
  | CbRspRequestVertificateCode _ _ _ => None
  | CbExpriationDate _ _ => None
  | CbAPIReady _ => None
  | CbDisconnect _ => None
  | CbRspChangePassword _ _ => None
  | CbRspAuthPassword _ _ => None
  | CbRspQryTradingDate _ _ _ => None
  | CbRspSetReservedInfo _ _ _ => None
  | CbRspQryAccount _ _ isLast _ => Some isLast
  | CbRspQryFund _ _ isLast _ => Some isLast
  | CbRtnFund _ => None
  | CbRspQryExchange _ _ isLast _ => Some isLast
  | CbRspQryCommodity _ _ isLast _ => Some isLast
  | CbRspQryContract _ _ isLast _ => Some isLast
  | CbRtnContract _ => None
  | CbRspOrderAction _ _ _ => None
  | CbRtnOrder _ => None
  | CbRspQryOrder _ _ isLast _ => Some isLast
  | CbRspQryOrderProcess _ _ isLast _ => Some isLast
  | CbRspQryFill _ _ isLast _ => Some isLast
  | CbRtnFill _ => None
  | CbRspQryPosition _ _ isLast _ => Some isLast
  | CbRtnPosition _ => None
  | CbRspQryPositionSummary _ _ isLast _ => Some isLast
  | CbRtnPositionSummary _ => None
  | CbRtnPositionProfit _ => None
  | CbRspQryCurrency _ _ isLast _ => Some isLast
  | CbRspQryTradeMessage _ _ isLast _ => Some isLast
  | CbRtnTradeMessage _ => None
  | CbRspQryHisOrder _ _ isLast _ => Some isLast
  | CbRspQryHisOrderProcess _ _ isLast _ => Some isLast
  | CbRspQryHisMatch _ _ isLast _ => Some isLast
  | CbRspQryHisPosition _ _ isLast _ => Some isLast
  | CbRspQryHisDelivery _ _ isLast _ => Some isLast
  | CbRspQryAccountCashAdjust _ _ isLast _ => Some isLast
  | CbRspQryBill _ _ isLast _ => Some isLast
  | CbRspQryAccountFeeRent _ _ isLast _ => Some isLast
  | CbRspQryAccountMarginRent _ _ isLast _ => Some isLast
  | CbRspHKMarketOrderInsert _ _ _ => None
  | CbRspHKMarketOrderDelete _ _ _ => None
  | CbHKMarketQuoteNotice _ => None
  | CbRspOrderLocalRemove _ _ _ => None
  | CbRspOrderLocalInput _ _ _ => None
  | CbRspOrderLocalModify _ _ _ => None
  | CbRspOrderLocalTransfer _ _ _ => None
  | CbRspFillLocalInput _ _ _ => None
  | CbRspFillLocalRemove _ _ _ => None
  end.

Definition cb_payload (cb : Callback) : option (option Struct) :=
  match cb with
  | CbConnect => None
  | CbRspLogin _ loginRspInfo => Some loginRspInfo
  | CbRtnContactInfo _ _ _ => None
  | CbRspRequestVertificateCode _ _ rsp => Some rsp
  | CbExpriationDate _ _ => None
  | CbAPIReady _ => None
  | CbDisconnect _ => None
  | CbRspChangePassword _ _ => None
  | CbRspAuthPassword _ _ => None
  | CbRspQryTradingDate _ _ info => Some info
  | CbRspSetReservedInfo _ _ _ => None
  | CbRspQryAccount _ _ _ info => Some info
  | CbRspQryFund _ _ _ info => Some info
  | CbRtnFund info => Some info
  | CbRspQryExchange _ _ _ info => Some info
  | CbRspQryCommodity _ _ _ info => Some info
  | CbRspQryContract _ _ _ info => Some info
  | CbRtnContract info => Some info
  | CbRspOrderAction _ _ info => Some info
  | CbRtnOrder info => Some info
  | CbRspQryOrder _ _ _ info => Some info
  | CbRspQryOrderProcess _ _ _ info => Some info
  | CbRspQryFill _ _ _ info => Some info
  | CbRtnFill info => Some info
  | CbRspQryPosition _ _ _ info => Some info
  | CbRtnPosition info => Some info
  | CbRspQryPositionSummary _ _ _ info => Some info
  | CbRtnPositionSummary info => Some info
  | CbRtnPositionProfit info => Some info
  | CbRspQryCurrency _ _ _ info => Some info
  | CbRspQryTradeMessage _ _ _ info => Some info
  | CbRtnTradeMessage info => Some info
  | CbRspQryHisOrder _ _ _ info => Some info
  | CbRspQryHisOrderProcess _ _ _ info => Some info
  | CbRspQryHisMatch _ _ _ info => Some info
  | CbRspQryHisPosition _ _ _ info => Some info
  | CbRspQryHisDelivery _ _ _ info => Some info
  | CbRspQryAccountCashAdjust _ _ _ info => Some info
  | CbRspQryBill _ _ _ info => Some info
  | CbRspQryAccountFeeRent _ _ _ info => Some info
  | CbRspQryAccountMarginRent _ _ _ info => Some info
  | CbRspHKMarketOrderInsert _ _ info => Some info
  | CbRspHKMarketOrderDelete _ _ info => Some info
  | CbHKMarketQuoteNotice info => Some info
  | CbRspOrderLocalRemove _ _ info => Some info
  | CbRspOrderLocalInput _ _ info => Some info
  | CbRspOrderLocalModify _ _ info => Some info
  | CbRspOrderLocalTransfer _ _ info => Some info
  | CbRspFillLocalInput _ _ info => Some info
  | CbRspFillLocalRemove _ _ info => Some info
  end.

Definition h_name (h : HandlerCall) : TaskName :=
  match h with
  | onConnect => ONCONNECT
  | onRspLogin _ _ => ONRSPLOGIN
  | onRtnContactInfo _ _ _ => ONRTNCONTACTINFO
  | onRspRequestVertificateCode _ _ _ => ONRSPREQUESTVERTIFICATECODE
  | onExpriationDate _ _ => ONEXPRIATIONDATE
  | onAPIReady _ => ONAPIREADY
  | onDisconnect _ => ONDISCONNECT
  | onRspChangePassword _ _ => ONRSPCHANGEPASSWORD
  | onRspAuthPassword _ _ => ONRSPAUTHPASSWORD
  | onRspQryTradingDate _ _ _ => ONRSPQRYTRADINGDATE
  | onRspSetReservedInfo _ _ _ => ONRSPSETRESERVEDINFO
  | onRspQryAccount _ _ _ _ => ONRSPQRYACCOUNT
  | onRspQryFund _ _ _ _ => ONRSPQRYFUND
  | onRtnFund _ => ONRTNFUND
  | onRspQryExchange _ _ _ _ => ONRSPQRYEXCHANGE
  | onRspQryCommodity _ _ _ _ => ONRSPQRYCOMMODITY
  | onRspQryContract _ _ _ _ => ONRSPQRYCONTRACT
  | onRtnContract _ => ONRTNCONTRACT
  | onRspOrderAction _ _ _ => ONRSPORDERACTION
  | onRtnOrder _ => ONRTNORDER
  | onRspQryOrder _ _ _ _ => ONRSPQRYORDER
  | onRspQryOrderProcess _ _ _ _ => ONRSPQRYORDERPROCESS
  | onRspQryFill _ _ _ _ => ONRSPQRYFILL
  | onRtnFill _ => ONRTNFILL
  | onRspQryPosition _ _ _ _ => ONRSPQRYPOSITION
  | onRtnPosition _ => ONRTNPOSITION
  | onRspQryPositionSummary _ _ _ _ => ONRSPQRYPOSITIONSUMMARY
  | onRtnPositionSummary _ => ONRTNPOSITIONSUMMARY
  | onRtnPositionProfit _ => ONRTNPOSITIONPROFIT
  | onRspQryCurrency _ _ _ _ => ONRSPQRYCURRENCY
  | onRspQryTradeMessage _ _ _ _ => ONRSPQRYTRADEMESSAGE
  | onRtnTradeMessage _ => ONRTNTRADEMESSAGE
  | onRspQryHisOrder _ _ _ _ => ONRSPQRYHISORDER
  | onRspQryHisOrderProcess _ _ _ _ => ONRSPQRYHISORDERPROCESS
  | onRspQryHisMatch _ _ _ _ => ONRSPQRYHISMATCH
  | onRspQryHisPosition _ _ _ _ => ONRSPQRYHISPOSITION
  | onRspQryHisDelivery _ _ _ _ => ONRSPQRYHISDELIVERY
  | onRspQryAccountCashAdjust _ _ _ _ => ONRSPQRYACCOUNTCASHADJUST
  | onRspQryBill _ _ _ _ => ONRSPQRYBILL
  | onRspQryAccountFeeRent _ _ _ _ => ONRSPQRYACCOUNTFEERENT
  | onRspQryAccountMarginRent _ _ _ _ => ONRSPQRYACCOUNTMARGINRENT
  | onRspHKMarketOrderInsert _ _ _ => ONRSPHKMARKETORDERINSERT
  | onRspHKMarketOrderDelete _ _ _ => ONRSPHKMARKETORDERDELETE
  | onHKMarketQuoteNotice _ => ONHKMARKETQUOTENOTICE
  | onRspOrderLocalRemove _ _ _ => ONRSPORDERLOCALREMOVE
  | onRspOrderLocalInput _ _ _ => ONRSPORDERLOCALINPUT
  | onRspOrderLocalModify _ _ _ => ONRSPORDERLOCALMODIFY
  | onRspOrderLocalTransfer _ _ _ => ONRSPORDERLOCALTRANSFER
  | onRspFillLocalInput _ _ _ => ONRSPFILLLOCALINPUT
  | onRspFillLocalRemove _ _ _ => ONRSPFILLLOCALREMOVE
  end.

Definition h_session (h : HandlerCall) : option Z :=
  match h with
  | onConnect => None
  | onRspLogin _ _ => None
  | onRtnContactInfo _ _ _ => None
  | onRspRequestVertificateCode session _ _ => Some session
  | onExpriationDate _ _ => None
  | onAPIReady _ => None
  | onDisconnect _ => None
  | onRspChangePassword session _ => Some session
  | onRspAuthPassword session _ => Some session
  | onRspQryTradingDate session _ _ => Some session
  | onRspSetReservedInfo session _ _ => Some session
  | onRspQryAccount session _ _ _ => Some session
  | onRspQryFund session _ _ _ => Some session
  | onRtnFund _ => None
  | onRspQryExchange session _ _ _ => Some session
  | onRspQryCommodity session _ _ _ => Some session
  | onRspQryContract session _ _ _ => Some session
  | onRtnContract _ => None
  | onRspOrderAction session _ _ => Some session
  | onRtnOrder _ => None
  | onRspQryOrder session _ _ _ => Some session
  | onRspQryOrderProcess session _ _ _ => Some session
  | onRspQryFill session _ _ _ => Some session
  | onRtnFill _ => None
  | onRspQryPosition session _ _ _ => Some session
  | onRtnPosition _ => None
  | onRspQryPositionSummary session _ _ _ => Some session
  | onRtnPositionSummary _ => None
  | onRtnPositionProfit _ => None
  | onRspQryCurrency session _ _ _ => Some session
  | onRspQryTradeMessage session _ _ _ => Some session
  | onRtnTradeMessage _ => None
  | onRspQryHisOrder session _ _ _ => Some session
  | onRspQryHisOrderProcess session _ _ _ => Some session
  | onRspQryHisMatch session _ _ _ => Some session
  | onRspQryHisPosition session _ _ _ => Some session
  | onRspQryHisDelivery session _ _ _ => Some session
  | onRspQryAccountCashAdjust session _ _ _ => Some session
  | onRspQryBill session _ _ _ => Some session
  | onRspQryAccountFeeRent session _ _ _ => Some session
  | onRspQryAccountMarginRent session _ _ _ => Some session
  | onRspHKMarketOrderInsert session _ _ => Some session
  | onRspHKMarketOrderDelete session _ _ => Some session
  | onHKMarketQuoteNotice _ => None
  | onRspOrderLocalRemove session _ _ => Some session
  | onRspOrderLocalInput session _ _ => Some session
  | onRspOrderLocalModify session _ _ => Some session
  | onRspOrderLocalTransfer session _ _ => Some session
  | onRspFillLocalInput session _ _ => Some session
  | onRspFillLocalRemove session _ _ => Some session
  end.

Definition h_error (h : HandlerCall) : option Z :=
  match h with
  | onConnect => None
  | onRspLogin error _ => Some error
  | onRtnContactInfo error _ _ => Some error
  | onRspRequestVertificateCode _ error _ => Some error
  | onExpriationDate _ _ => None
  | onAPIReady error => Some error
  | onDisconnect _ => None
  | onRspChangePassword _ error => Some error
  | onRspAuthPassword _ error => Some error
  | onRspQryTradingDate _ error _ => Some error
  | onRspSetReservedInfo _ error _ => Some error
  | onRspQryAccount _ error _ _ => Some error
  | onRspQryFund _ error _ _ => Some error
  | onRtnFund _ => None
  | onRspQryExchange _ error _ _ => Some error
  | onRspQryCommodity _ error _ _ => Some error
  | onRspQryContract _ error _ _ => Some error
  | onRtnContract _ => None
  | onRspOrderAction _ error _ => Some error
  | onRtnOrder _ => None
  | onRspQryOrder _ error _ _ => Some error
  | onRspQryOrderProcess _ error _ _ => Some error
  | onRspQryFill _ error _ _ => Some error
  | onRtnFill _ => None
  | onRspQryPosition _ error _ _ => Some error
  | onRtnPosition _ => None
  | onRspQryPositionSummary _ error _ _ => Some error
  | onRtnPositionSummary _ => None
  | onRtnPositionProfit _ => None
  | onRspQryCurrency _ error _ _ => Some error
  | onRspQryTradeMessage _ error _ _ => Some error
  | onRtnTradeMessage _ => None
  | onRspQryHisOrder _ error _ _ => Some error
  | onRspQryHisOrderProcess _ error _ _ => Some error
  | onRspQryHisMatch _ error _ _ => Some error
  | onRspQryHisPosition _ error _ _ => Some error
  | onRspQryHisDelivery _ error _ _ => Some error
  | onRspQryAccountCashAdjust _ error _ _ => Some error
  | onRspQryBill _ error _ _ => Some error
  | onRspQryAccountFeeRent _ error _ _ => Some error
  | onRspQryAccountMarginRent _ error _ _ => Some error
  | onRspHKMarketOrderInsert _ error _ => Some error
  | onRspHKMarketOrderDelete _ error _ => Some error
  | onHKMarketQuoteNotice _ => None
  | onRspOrderLocalRemove _ error _ => Some error
  | onRspOrderLocalInput _ error _ => Some error
  | onRspOrderLocalModify _ error _ => Some error
  | onRspOrderLocalTransfer _ error _ => Some error
  | onRspFillLocalInput _ error _ => Some error
  | onRspFillLocalRemove _ error _ => Some error
  end.

Definition h_last (h : HandlerCall) : option bool :=
  match h with
  | onConnect => None
  | onRspLogin _ _ => None
  | onRtnContactInfo _ last _ => Some last
  | onRspRequestVertificateCode _ _ _ => None
  | onExpriationDate _ _ => None
  | onAPIReady _ => None
  | onDisconnect _ => None
  | onRspChangePassword _ _ => None
  | onRspAuthPassword _ _ => None
  | onRspQryTradingDate _ _ _ => None
  | onRspSetReservedInfo _ _ _ => None
  | onRspQryAccount _ _ last _ => Some last
  | onRspQryFund _ _ last _ => Some last
  | onRtnFund _ => None
  | onRspQryExchange _ _ last _ => Some last
  | onRspQryCommodity _ _ last _ => Some last
  | onRspQryContract _ _ last _ => Some last
  | onRtnContract _ => None
  | onRspOrderAction _ _ _ => None
  | onRtnOrder _ => None
  | onRspQryOrder _ _ last _ => Some last
  | onRspQryOrderProcess _ _ last _ => Some last
  | onRspQryFill _ _ last _ => Some last
  | onRtnFill _ => None
  | onRspQryPosition _ _ last _ => Some last
  | onRtnPosition _ => None
  | onRspQryPositionSummary _ _ last _ => Some last
  | onRtnPositionSummary _ => None
  | onRtnPositionProfit _ => None
  | onRspQryCurrency _ _ last _ => Some last
  | onRspQryTradeMessage _ _ last _ => Some last
  | onRtnTradeMessage _ => None
  | onRspQryHisOrder _ _ last _ => Some last
  | onRspQryHisOrderProcess _ _ last _ => Some last
  | onRspQryHisMatch _ _ last _ => Some last
  | onRspQryHisPosition _ _ last _ => Some last
  | onRspQryHisDelivery _ _ last _ => Some last
  | onRspQryAccountCashAdjust _ _ last _ => Some last
  | onRspQryBill _ _ last _ => Some last
  | onRspQryAccountFeeRent _ _ last _ => Some last
  | onRspQryAccountMarginRent _ _ last _ => Some last
  | onRspHKMarketOrderInsert _ _ _ => None
  | onRspHKMarketOrderDelete _ _ _ => None
  | onHKMarketQuoteNotice _ => None
  | onRspOrderLocalRemove _ _ _ => None
  | onRspOrderLocalInput _ _ _ => None
  | onRspOrderLocalModify _ _ _ => None
  | onRspOrderLocalTransfer _ _ _ => None
  | onRspFillLocalInput _ _ _ => None
  | onRspFillLocalRemove _ _ _ => None
  end.

Definition h_data (h : HandlerCall) : option dict :=
  match h with
  | onConnect => None
  | onRspLogin _ data => Some data
  | onRtnContactInfo _ _ _ => None
  | onRspRequestVertificateCode _ _ data => Some data
  | onExpriationDate _ _ => None
  | onAPIReady _ => None
  | onDisconnect _ => None
  | onRspChangePassword _ _ => None
  | onRspAuthPassword _ _ => None
  | onRspQryTradingDate _ _ data => Some data
  | onRspSetReservedInfo _ _ _ => None
  | onRspQryAccount _ _ _ data => Some data
  | onRspQryFund _ _ _ data => Some data
  | onRtnFund data => Some data
  | onRspQryExchange _ _ _ data => Some data
  | onRspQryCommodity _ _ _ data => Some data
  | onRspQryContract _ _ _ data => Some data
  | onRtnContract data => Some data
  | onRspOrderAction _ _ data => Some data
  | onRtnOrder data => Some data
  | onRspQryOrder _ _ _ data => Some data
  | onRspQryOrderProcess _ _ _ data => Some data
  | onRspQryFill _ _ _ data => Some data
  | onRtnFill data => Some data
  | onRspQryPosition _ _ _ data => Some data
  | onRtnPosition data => Some data
  | onRspQryPositionSummary _ _ _ data => Some data
  | onRtnPositionSummary data => Some data
  | onRtnPositionProfit data => Some data
  | onRspQryCurrency _ _ _ data => Some data
  | onRspQryTradeMessage _ _ _ data => Some data
  | onRtnTradeMessage data => Some data
  | onRspQryHisOrder _ _ _ data => Some data
  | onRspQryHisOrderProcess _ _ _ data => Some data
  | onRspQryHisMatch _ _ _ data => Some data
  | onRspQryHisPosition _ _ _ data => Some data
  | onRspQryHisDelivery _ _ _ data => Some data
  | onRspQryAccountCashAdjust _ _ _ data => Some data
  | onRspQryBill _ _ _ data => Some data
  | onRspQryAccountFeeRent _ _ _ data => Some data
  | onRspQryAccountMarginRent _ _ _ data => Some data
  | onRspHKMarketOrderInsert _ _ data => Some data
  | onRspHKMarketOrderDelete _ _ data => Some data
  | onHKMarketQuoteNotice data => Some data
  | onRspOrderLocalRemove _ _ data => Some data
  | onRspOrderLocalInput _ _ data => Some data
  | onRspOrderLocalModify _ _ data => Some data
  | onRspOrderLocalTransfer _ _ data => Some data
  | onRspFillLocalInput _ _ data => Some data
  | onRspFillLocalRemove _ _ data => Some data
  end.

Definition copied (t : TaskName) : list Assign :=
  match t with
  | ONCONNECT => []
  | ONRSPLOGIN => processRspLogin_copy
  | ONRTNCONTACTINFO => []
  | ONRSPREQUESTVERTIFICATECODE => processRspRequestVertificateCode_copy
  | ONEXPRIATIONDATE => []
  | ONAPIREADY => []
  | ONDISCONNECT => []
  | ONRSPCHANGEPASSWORD => []
  | ONRSPAUTHPASSWORD => []
  | ONRSPQRYTRADINGDATE => processRspQryTradingDate_copy
  | ONRSPSETRESERVEDINFO => []
  | ONRSPQRYACCOUNT => processRspQryAccount_copy
  | ONRSPQRYFUND => processRspQryFund_copy
  | ONRTNFUND => processRtnFund_copy
  | ONRSPQRYEXCHANGE => processRspQryExchange_copy
  | ONRSPQRYCOMMODITY => processRspQryCommodity_copy
  | ONRSPQRYCONTRACT => processRspQryContract_copy
  | ONRTNCONTRACT => processRtnContract_copy
  | ONRSPORDERACTION => processRspOrderAction_copy
  | ONRTNORDER => processRtnOrder_copy
  | ONRSPQRYORDER => processRspQryOrder_copy
  | ONRSPQRYORDERPROCESS => processRspQryOrderProcess_copy
  | ONRSPQRYFILL => processRspQryFill_copy
  | ONRTNFILL => processRtnFill_copy
  | ONRSPQRYPOSITION => processRspQryPosition_copy
  | ONRTNPOSITION => processRtnPosition_copy
  | ONRSPQRYPOSITIONSUMMARY => processRspQryPositionSummary_copy
  | ONRTNPOSITIONSUMMARY => processRtnPositionSummary_copy
  | ONRTNPOSITIONPROFIT => processRtnPositionProfit_copy
  | ONRSPQRYCURRENCY => processRspQryCurrency_copy
  | ONRSPQRYTRADEMESSAGE => processRspQryTradeMessage_copy
  | ONRTNTRADEMESSAGE => processRtnTradeMessage_copy
  | ONRSPQRYHISORDER => processRspQryHisOrder_copy
  | ONRSPQRYHISORDERPROCESS => processRspQryHisOrderProcess_copy
  | ONRSPQRYHISMATCH => processRspQryHisMatch_copy
  | ONRSPQRYHISPOSITION => processRspQryHisPosition_copy
  | ONRSPQRYHISDELIVERY => processRspQryHisDelivery_copy
  | ONRSPQRYACCOUNTCASHADJUST => processRspQryAccountCashAdjust_copy
  | ONRSPQRYBILL => processRspQryBill_copy
  | ONRSPQRYACCOUNTFEERENT => processRspQryAccountFeeRent_copy
  | ONRSPQRYACCOUNTMARGINRENT => processRspQryAccountMarginRent_copy
  | ONRSPHKMARKETORDERINSERT => processRspHKMarketOrderInsert_copy
  | ONRSPHKMARKETORDERDELETE => processRspHKMarketOrderDelete_copy
  | ONHKMARKETQUOTENOTICE => processHKMarketQuoteNotice_copy
  | ONRSPORDERLOCALREMOVE => processRspOrderLocalRemove_copy
  | ONRSPORDERLOCALINPUT => processRspOrderLocalInput_copy
  | ONRSPORDERLOCALMODIFY => processRspOrderLocalModify_copy
  | ONRSPORDERLOCALTRANSFER => processRspOrderLocalTransfer_copy
  | ONRSPFILLLOCALINPUT => processRspFillLocalInput_copy
  | ONRSPFILLLOCALREMOVE => processRspFillLocalRemove_copy
  end.

(** ** The worker thread and the task queue (vntaptd.cpp:2645-2669) *)

Inductive Thread : Set :=
  | Host            (** the scripting host, which calls [init] and [exit] *)
  | Sdk (n : nat)   (** a thread of the vendor SDK *)
  | Worker (k : nat). (** the thread the [k]-th successful [init] created *)

(** Modelled from the spec: "single producer-per-callback, single consumer
    thread, blocking queue".  The class of [task_queue] is declared in a
    header that is absent: [push] appends at the back, [pop] takes the
    front and blocks while the queue is empty.  [task_thread] holds the
    joinable worker, [spawned] counts the threads [init] has created and
    [trace] records who did what, oldest first. *)
Record TdApi := mkTdApi {
  active : bool;
  task_queue : list Task;
  task_thread : option nat;
  spawned : nat;
  trace : list (Thread * Action)
}.

(** A freshly constructed object. *)
Definition TdApi0 : TdApi := mkTdApi false [] None 0 [].

(** The atomic steps of the object.
    - [step_callback]: some thread runs a callback; every push of its body
      goes to the back of the queue.
    - [step_init]: [init()] sets [active] and creates the worker; assigning
      to a joinable [std::thread] terminates the program, so the step needs
      [task_thread] empty.
    - [step_turn]: the worker finds [active] set, pops the front task and
      runs the [switch] on it.
    - [step_exit]: [exit()] clears [active], wakes the worker with
      [terminate()] and joins it.  Whether a terminated queue refuses later
      pops is decided in the absent header; the steps allow them. *)
Inductive step : TdApi -> TdApi -> Prop :=
  | step_callback (s : TdApi) (thr : Thread) (cb : Callback) :
      step s (mkTdApi (active s)
                (task_queue s ++ pushed (callback cb))
                (task_thread s) (spawned s)
                (trace s ++ (pair thr <$> callback cb)))
  | step_init (s : TdApi) :
      task_thread s = None ->
      step s (mkTdApi true (task_queue s)
                (Some (spawned s)) (S (spawned s))
                (trace s))
  | step_turn (s : TdApi) (k : nat) (task : Task) (rest : list Task) :
      task_thread s = Some k ->
      active s = true ->
      task_queue s = task :: rest ->
      step s (mkTdApi (active s) rest (task_thread s) (spawned s)
                (trace s ++ (pair (Worker k) <$> processTask_turn task)))
  | step_exit (s : TdApi) (k : nat) :
      task_thread s = Some k ->
      step s (mkTdApi false (task_queue s) None (spawned s) (trace s)).

(** The states an object can be in. *)
Definition reachable (s : TdApi) : Prop := rtc step TdApi0 s.

(** What happened, without who did it. *)
Definition actions (s : TdApi) : list Action := snd <$> trace s.

(** The handler calls of one replayed task. *)
Definition handled (task : Task) : list HandlerCall :=
  invoked (processTask_turn task).

(** ** Two of the queries (vntaptd.cpp:2698-2713) *)

(** A field of a struct cleared by [memset(..., 0, ...)]. *)
Variable czero : CVal.
(** [getString(req, key, field)] of the absent header: the new content of
    the [char] array [field]. *)
Variable getString : dict -> string -> CVal -> CVal.

Definition zeroed : Struct := fun _ => czero.

Definition set_field (f : string) (v : CVal) (s : Struct) : Struct :=
  fun g => if decide (g = f) then v else s g.

(** A request handed to the vendor SDK. *)
Inductive SdkRequest :=
  | QryAccount (session : Z) (req : Struct)
  | QryFund (session : Z) (req : Struct).

(** The SDK's answer to a request, in the state it is in. *)
Variable api : SdkRequest -> Z.

(** The request sent and the value returned. *)
Definition qryAccount (session : Z) (req : dict) : SdkRequest * Z :=
  let myreq := zeroed in
  let call := QryAccount session myreq in
  let i := api call in
  (call, i).

Definition qryFund (session : Z) (req : dict) : SdkRequest * Z :=
  let myreq := zeroed in
  let myreq :=
    set_field "AccountNo" (getString req "AccountNo" (myreq "AccountNo")) myreq in
  let call := QryFund session myreq in
  let i := api call in
  (call, i).

(** ** Auxiliary definitions *)

(** The case of [cs] labelled [t], found by the position of the label. *)
Definition case_of (t : TaskName) (cs : list (TaskName * (Task -> list Action)))
  : option (Task -> list Action) :=
  snd <$> find (fun c => Nat.eqb (tag_index (fst c)) (tag_index t)) cs.

(** The queue holds the tasks pushed and not yet popped, oldest first, and
    the handler calls made so far are those of the popped tasks, in the
    order of the pops. *)
Definition queue_inv (s : TdApi) : Prop :=
  popped (actions s) ++ task_queue s = pushed (actions s)
  /\ invoked (actions s) = flat_map handled (popped (actions s)).

(** The workers that popped a task or called a handler, oldest action
    first. *)
Definition consumers (tr : list (Thread * Action)) : list nat :=
  omap (fun e => match snd e, fst e with
                 | Push _, _ => None
                 | _, Worker k => Some k
                 | _, _ => None
                 end) tr.

(** The joinable worker is the last one [init] created; whatever is not a
    push was done by a worker that [init] created; and the workers took
    turns, a later one never before an earlier one. *)
Definition worker_inv (s : TdApi) : Prop :=
  (forall k, task_thread s = Some k -> S k = spawned s)
  /\ (forall thr a, (thr, a) ∈ trace s -> (forall task, a <> Push task) ->
        exists k, thr = Worker k /\ (k < spawned s)%nat)
  /\ StronglySorted le (consumers (trace s)).


(** ** The other queries (vntaptd.cpp:2692-2935) *)

(** The helpers that read an entry of [req] into a field of the request;
    [getUnsigned int] is written with a blank in the source. *)
Inductive Getter : Set :=
  | GetString
  | GetChar
  | GetDict
  | GetUnsignedInt.

(** One statement of a query's body: [mkRead g k f] is
    [g(req, "k", myreq.f);] (with [&myreq.f] for all but [getString]). *)
Inductive Read : Set :=
  | mkRead (getter : Getter) (key field : string).

Definition read_getter (r : Read) : Getter :=
  match r with mkRead g _ _ => g end.

Definition read_key (r : Read) : string :=
  match r with mkRead _ k _ => k end.

Definition read_field (r : Read) : string :=
  match r with mkRead _ _ f => f end.

(** The query functions of the vendor SDK. *)
Inductive SdkQuery : Set :=
  | SdkQryTradingDate
  | SdkQryAccount
  | SdkQryFund
  | SdkQryExchange
  | SdkQryCommodity
  | SdkQryContract
  | SdkQryOrder
  | SdkQryOrderProcess
  | SdkQryFill
  | SdkQryPosition
  | SdkQryPositionSummary
  | SdkQryCurrency
  | SdkQryAccountCashAdjust
  | SdkQryTradeMessage
  | SdkQryBill
  | SdkQryHisOrder
  | SdkQryHisOrderProcess
  | SdkQryHisMatch
  | SdkQryHisPosition
  | SdkQryHisDelivery
  | SdkQryAccountFeeRent
  | SdkQryAccountMarginRent
.

(** A call of one of them: the function, the session and the request
    struct, [None] for the functions that take the session only. *)
Inductive SdkCall :=
  | mkSdkCall (fn : SdkQuery) (session : Z) (myreq : option Struct).

(** The helpers of the absent header besides [getString], as the new
    content of the field. *)
Variable getChar : dict -> string -> CVal -> CVal.
Variable getDict : dict -> string -> CVal -> CVal.
Variable getUnsignedInt : dict -> string -> CVal -> CVal.

(** The SDK's answer to a call, in the state it is in. *)
Variable sdk : SdkCall -> Z.

Definition get (g : Getter) : dict -> string -> CVal -> CVal :=
  match g with
  | GetString => getString
  | GetChar => getChar
  | GetDict => getDict
  | GetUnsignedInt => getUnsignedInt
  end.

Definition read (req : dict) (myreq : Struct) (r : Read) : Struct :=
  set_field (read_field r)
    (get (read_getter r) req (read_key r) (myreq (read_field r))) myreq.

(** [memset(&myreq, 0, sizeof(myreq))], then the reads in order. *)
Definition build (reads : list Read) (req : dict) : Struct :=
  foldl (read req) zeroed reads.

(** vntaptd.cpp:2692 *)
Definition qryTradingDate (session : Z) : SdkCall * Z :=
  let call := mkSdkCall SdkQryTradingDate session None in
  let i := sdk call in
  (call, i).

(** vntaptd.cpp:2715 *)
Definition qryExchange (session : Z) : SdkCall * Z :=
  let call := mkSdkCall SdkQryExchange session None in
  let i := sdk call in
  (call, i).

(** vntaptd.cpp:2721 *)
Definition qryCommodity (session : Z) : SdkCall * Z :=
  let call := mkSdkCall SdkQryCommodity session None in
  let i := sdk call in
  (call, i).

(** vntaptd.cpp:2727, the reads of [req] in order; [myreq] is a
    [TapAPICommodity]. *)
Definition qryContract_reads : list Read :=
  [ mkRead GetString "ExchangeNo" "ExchangeNo";
    mkRead GetChar "CommodityType" "CommodityType";
    mkRead GetString "CommodityNo" "CommodityNo" ].

Definition qryContract (session : Z) (req : dict) : SdkCall * Z :=
  let myreq := build qryContract_reads req in
  let call := mkSdkCall SdkQryContract session (Some myreq) in
  let i := sdk call in
  (call, i).

(** vntaptd.cpp:2738, the reads of [req] in order; [myreq] is a
    [TapAPIOrderQryReq]. *)
Definition qryOrder_reads : list Read :=
  [ mkRead GetString "AccountNo" "AccountNo";
    mkRead GetString "ExchangeNo" "ExchangeNo";
    mkRead GetChar "CommodityType" "CommodityType";
    mkRead GetString "CommodityNo" "CommodityNo";
    mkRead GetChar "OrderType" "OrderType";
    mkRead GetChar "OrderSource" "OrderSource";
    mkRead GetChar "TimeInForce" "TimeInForce";
    mkRead GetString "ExpireTime" "ExpireTime";
    mkRead GetChar "IsRiskOrder" "IsRiskOrder";
    mkRead GetChar "ServerFlag" "ServerFlag";
    mkRead GetString "OrderNo" "OrderNo";
    mkRead GetChar "IsBackInput" "IsBackInput";
    mkRead GetChar "IsDeleted" "IsDeleted";
    mkRead GetChar "IsAddOne" "IsAddOne" ].

Definition qryOrder (session : Z) (req : dict) : SdkCall * Z :=
  let myreq := build qryOrder_reads req in
  let call := mkSdkCall SdkQryOrder session (Some myreq) in
  let i := sdk call in
  (call, i).

(** vntaptd.cpp:2760, the reads of [req] in order; [myreq] is a
    [TapAPIOrderProcessQryReq]. *)
Definition qryOrderProcess_reads : list Read :=
  [ mkRead GetChar "ServerFlag" "ServerFlag";
    mkRead GetString "OrderNo" "OrderNo" ].

Definition qryOrderProcess (session : Z) (req : dict) : SdkCall * Z :=
  let myreq := build qryOrderProcess_reads req in
  let call := mkSdkCall SdkQryOrderProcess session (Some myreq) in
  let i := sdk call in
  (call, i).

(** vntaptd.cpp:2770, the reads of [req] in order; [myreq] is a
    [TapAPIFillQryReq]. *)
Definition qryFill_reads : list Read :=
  [ mkRead GetString "AccountNo" "AccountNo";
    mkRead GetString "ExchangeNo" "ExchangeNo";
    mkRead GetChar "CommodityType" "CommodityType";
    mkRead GetString "CommodityNo" "CommodityNo";
    mkRead GetString "ContractNo" "ContractNo";
    mkRead GetString "StrikePrice" "StrikePrice";
    mkRead GetChar "CallOrPutFlag" "CallOrPutFlag";
    mkRead GetChar "MatchSource" "MatchSource";
    mkRead GetChar "MatchSide" "MatchSide";
    mkRead GetChar "PositionEffect" "PositionEffect";
    mkRead GetChar "ServerFlag" "ServerFlag";
    mkRead GetString "OrderNo" "OrderNo";
    mkRead GetString "UpperNo" "UpperNo";
    mkRead GetChar "IsDeleted" "IsDeleted";
    mkRead GetChar "IsAddOne" "IsAddOne" ].

Definition qryFill (session : Z) (req : dict) : SdkCall * Z :=
  let myreq := build qryFill_reads req in
  let call := mkSdkCall SdkQryFill session (Some myreq) in
  let i := sdk call in
  (call, i).

(** vntaptd.cpp:2793, the reads of [req] in order; [myreq] is a
    [TapAPIPositionQryReq]. *)
Definition qryPosition_reads : list Read :=
  [ mkRead GetString "AccountNo" "AccountNo" ].

Definition qryPosition (session : Z) (req : dict) : SdkCall * Z :=
  let myreq := build qryPosition_reads req in
  let call := mkSdkCall SdkQryPosition session (Some myreq) in
  let i := sdk call in
  (call, i).

(** vntaptd.cpp:2802, the reads of [req] in order; [myreq] is a
    [TapAPIPositionQryReq]. *)
Definition qryPositionSummary_reads : list Read :=
  [ mkRead GetString "AccountNo" "AccountNo" ].

Definition qryPositionSummary (session : Z) (req : dict) : SdkCall * Z :=
  let myreq := build qryPositionSummary_reads req in
  let call := mkSdkCall SdkQryPositionSummary session (Some myreq) in
  let i := sdk call in
  (call, i).

(** vntaptd.cpp:2811 *)
Definition qryCurrency (session : Z) : SdkCall * Z :=
  let call := mkSdkCall SdkQryCurrency session None in
  let i := sdk call in
  (call, i).

(** vntaptd.cpp:2817, the reads of [req] in order; [myreq] is a
    [TapAPIAccountCashAdjustQryReq]. *)
Definition qryAccountCashAdjust_reads : list Read :=
  [ mkRead GetUnsignedInt "SerialID" "SerialID";
    mkRead GetString "AccountNo" "AccountNo";
    mkRead GetString "AccountAttributeNo" "AccountAttributeNo";
    mkRead GetString "BeginDate" "BeginDate";
    mkRead GetString "EndDate" "EndDate" ].

Definition qryAccountCashAdjust (session : Z) (req : dict) : SdkCall * Z :=
  let myreq := build qryAccountCashAdjust_reads req in
  let call := mkSdkCall SdkQryAccountCashAdjust session (Some myreq) in
  let i := sdk call in
  (call, i).

(** vntaptd.cpp:2830, the reads of [req] in order; [myreq] is a
    [TapAPITradeMessageReq]. *)
Definition qryTradeMessage_reads : list Read :=
  [ mkRead GetString "AccountNo" "AccountNo";
    mkRead GetString "AccountAttributeNo" "AccountAttributeNo";
    mkRead GetString "BenginSendDateTime" "BenginSendDateTime";
    mkRead GetString "EndSendDateTime" "EndSendDateTime" ].

Definition qryTradeMessage (session : Z) (req : dict) : SdkCall * Z :=
  let myreq := build qryTradeMessage_reads req in
  let call := mkSdkCall SdkQryTradeMessage session (Some myreq) in
  let i := sdk call in
  (call, i).

(** vntaptd.cpp:2842, the reads of [req] in order; [myreq] is a
    [TapAPIBillQryReq]. *)
Definition qryBill_reads : list Read :=
  [ mkRead GetString "UserNo" "UserNo";
    mkRead GetChar "BillType" "BillType";
    mkRead GetString "BillDate" "BillDate";
    mkRead GetChar "BillFileType" "BillFileType" ].

Definition qryBill (session : Z) (req : dict) : SdkCall * Z :=
  let myreq := build qryBill_reads req in
  let call := mkSdkCall SdkQryBill session (Some myreq) in
  let i := sdk call in
  (call, i).

(** vntaptd.cpp:2854, the reads of [req] in order; [myreq] is a
    [TapAPIHisOrderQryReq]. *)
Definition qryHisOrder_reads : list Read :=
  [ mkRead GetString "AccountNo" "AccountNo";
    mkRead GetString "AccountAttributeNo" "AccountAttributeNo";
    mkRead GetString "BeginDate" "BeginDate";
    mkRead GetString "EndDate" "EndDate" ].

Definition qryHisOrder (session : Z) (req : dict) : SdkCall * Z :=
  let myreq := build qryHisOrder_reads req in
  let call := mkSdkCall SdkQryHisOrder session (Some myreq) in
  let i := sdk call in
  (call, i).

(** vntaptd.cpp:2866, the reads of [req] in order; [myreq] is a
    [TapAPIHisOrderProcessQryReq]. *)
Definition qryHisOrderProcess_reads : list Read :=
  [ mkRead GetString "Date" "Date";
    mkRead GetString "OrderNo" "OrderNo" ].

Definition qryHisOrderProcess (session : Z) (req : dict) : SdkCall * Z :=
  let myreq := build qryHisOrderProcess_reads req in
  let call := mkSdkCall SdkQryHisOrderProcess session (Some myreq) in
  let i := sdk call in
  (call, i).

(** vntaptd.cpp:2876, the reads of [req] in order; [myreq] is a
    [TapAPIHisMatchQryReq]. *)
Definition qryHisMatch_reads : list Read :=
  [ mkRead GetString "AccountNo" "AccountNo";
    mkRead GetString "AccountAttributeNo" "AccountAttributeNo";
    mkRead GetString "BeginDate" "BeginDate";
    mkRead GetString "EndDate" "EndDate";
    mkRead GetChar "CountType" "CountType" ].

Definition qryHisMatch (session : Z) (req : dict) : SdkCall * Z :=
  let myreq := build qryHisMatch_reads req in
  let call := mkSdkCall SdkQryHisMatch session (Some myreq) in
  let i := sdk call in
  (call, i).

(** vntaptd.cpp:2889, the reads of [req] in order; [myreq] is a
    [TapAPIHisPositionQryReq]. *)
Definition qryHisPosition_reads : list Read :=
  [ mkRead GetString "AccountNo" "AccountNo";
    mkRead GetDict "AccountAttributeNo" "AccountAttributeNo";
    mkRead GetString "Date" "Date";
    mkRead GetDict "CountType" "CountType";
    mkRead GetChar "SettleFlag" "SettleFlag" ].

Definition qryHisPosition (session : Z) (req : dict) : SdkCall * Z :=
  let myreq := build qryHisPosition_reads req in
  let call := mkSdkCall SdkQryHisPosition session (Some myreq) in
  let i := sdk call in
  (call, i).

(** vntaptd.cpp:2902, the reads of [req] in order; [myreq] is a
    [TapAPIHisDeliveryQryReq]. *)
Definition qryHisDelivery_reads : list Read :=
  [ mkRead GetString "AccountNo" "AccountNo";
    mkRead GetString "AccountAttributeNo" "AccountAttributeNo";
    mkRead GetString "BeginDate" "BeginDate";
    mkRead GetString "EndDate" "EndDate";
    mkRead GetChar "CountType" "CountType" ].

Definition qryHisDelivery (session : Z) (req : dict) : SdkCall * Z :=
  let myreq := build qryHisDelivery_reads req in
  let call := mkSdkCall SdkQryHisDelivery session (Some myreq) in
  let i := sdk call in
  (call, i).

(** vntaptd.cpp:2915, the reads of [req] in order; [myreq] is a
    [TapAPIAccountFeeRentQryReq]. *)
Definition qryAccountFeeRent_reads : list Read :=
  [ mkRead GetString "AccountNo" "AccountNo" ].

Definition qryAccountFeeRent (session : Z) (req : dict) : SdkCall * Z :=
  let myreq := build qryAccountFeeRent_reads req in
  let call := mkSdkCall SdkQryAccountFeeRent session (Some myreq) in
  let i := sdk call in
  (call, i).

(** vntaptd.cpp:2924, the reads of [req] in order; [myreq] is a
    [TapAPIAccountMarginRentQryReq]. *)
Definition qryAccountMarginRent_reads : list Read :=
  [ mkRead GetString "AccountNo" "AccountNo";
    mkRead GetString "ExchangeNo" "ExchangeNo";
    mkRead GetChar "CommodityType" "CommodityType";
    mkRead GetString "CommodityNo" "CommodityNo";
    mkRead GetString "ContractNo" "ContractNo" ].

Definition qryAccountMarginRent (session : Z) (req : dict) : SdkCall * Z :=
  let myreq := build qryAccountMarginRent_reads req in
  let call := mkSdkCall SdkQryAccountMarginRent session (Some myreq) in
  let i := sdk call in
  (call, i).
(** [qryAccount] and [qryFund] above, as calls. *)
Definition of_request (r : SdkRequest) : SdkCall :=
  match r with
  | QryAccount session myreq => mkSdkCall SdkQryAccount session (Some myreq)
  | QryFund session myreq => mkSdkCall SdkQryFund session (Some myreq)
  end.

(** The reads of the function that calls each SDK query; [None] when it
    takes no [req]. *)
Definition reads_of (q : SdkQuery) : option (list Read) :=
  match q with
  | SdkQryTradingDate => None
  | SdkQryAccount => Some []
  | SdkQryFund => Some [mkRead GetString "AccountNo" "AccountNo"]
  | SdkQryExchange => None
  | SdkQryCommodity => None
  | SdkQryContract => Some qryContract_reads
  | SdkQryOrder => Some qryOrder_reads
  | SdkQryOrderProcess => Some qryOrderProcess_reads
  | SdkQryFill => Some qryFill_reads
  | SdkQryPosition => Some qryPosition_reads
  | SdkQryPositionSummary => Some qryPositionSummary_reads
  | SdkQryCurrency => None
  | SdkQryAccountCashAdjust => Some qryAccountCashAdjust_reads
  | SdkQryTradeMessage => Some qryTradeMessage_reads
  | SdkQryBill => Some qryBill_reads
  | SdkQryHisOrder => Some qryHisOrder_reads
  | SdkQryHisOrderProcess => Some qryHisOrderProcess_reads
  | SdkQryHisMatch => Some qryHisMatch_reads
  | SdkQryHisPosition => Some qryHisPosition_reads
  | SdkQryHisDelivery => Some qryHisDelivery_reads
  | SdkQryAccountFeeRent => Some qryAccountFeeRent_reads
  | SdkQryAccountMarginRent => Some qryAccountMarginRent_reads
  end.

(** The call the function of each name sends to the SDK. *)
Definition sent (q : SdkQuery) (session : Z) (req : dict) : SdkCall :=
  match q with
  | SdkQryTradingDate => fst (qryTradingDate session)
  | SdkQryAccount => of_request (fst (qryAccount session req))
  | SdkQryFund => of_request (fst (qryFund session req))
  | SdkQryExchange => fst (qryExchange session)
  | SdkQryCommodity => fst (qryCommodity session)
  | SdkQryContract => fst (qryContract session req)
  | SdkQryOrder => fst (qryOrder session req)
  | SdkQryOrderProcess => fst (qryOrderProcess session req)
  | SdkQryFill => fst (qryFill session req)
  | SdkQryPosition => fst (qryPosition session req)
  | SdkQryPositionSummary => fst (qryPositionSummary session req)
  | SdkQryCurrency => fst (qryCurrency session)
  | SdkQryAccountCashAdjust => fst (qryAccountCashAdjust session req)
  | SdkQryTradeMessage => fst (qryTradeMessage session req)
  | SdkQryBill => fst (qryBill session req)
  | SdkQryHisOrder => fst (qryHisOrder session req)
  | SdkQryHisOrderProcess => fst (qryHisOrderProcess session req)
  | SdkQryHisMatch => fst (qryHisMatch session req)
  | SdkQryHisPosition => fst (qryHisPosition session req)
  | SdkQryHisDelivery => fst (qryHisDelivery session req)
  | SdkQryAccountFeeRent => fst (qryAccountFeeRent session req)
  | SdkQryAccountMarginRent => fst (qryAccountMarginRent session req)
  end.

(** ** More readings of callbacks and handler calls *)

(** The same call with the payload pointer replaced, where there is one. *)
Definition with_payload (p : option Struct) (cb : Callback) : Callback :=
  match cb with
  | CbConnect => cb
  | CbRspLogin errorCode _ => CbRspLogin errorCode p
  | CbRtnContactInfo _ _ _ => cb
  | CbRspRequestVertificateCode sessionID errorCode _ => CbRspRequestVertificateCode sessionID errorCode p
  | CbExpriationDate _ _ => cb
  | CbAPIReady _ => cb
  | CbDisconnect _ => cb
  | CbRspChangePassword _ _ => cb
  | CbRspAuthPassword _ _ => cb
  | CbRspQryTradingDate sessionID errorCode _ => CbRspQryTradingDate sessionID errorCode p
  | CbRspSetReservedInfo _ _ _ => cb
  | CbRspQryAccount sessionID errorCode isLast _ => CbRspQryAccount sessionID errorCode isLast p
  | CbRspQryFund sessionID errorCode isLast _ => CbRspQryFund sessionID errorCode isLast p
  | CbRtnFund _ => CbRtnFund p
  | CbRspQryExchange sessionID errorCode isLast _ => CbRspQryExchange sessionID errorCode isLast p
  | CbRspQryCommodity sessionID errorCode isLast _ => CbRspQryCommodity sessionID errorCode isLast p
  | CbRspQryContract sessionID errorCode isLast _ => CbRspQryContract sessionID errorCode isLast p
  | CbRtnContract _ => CbRtnContract p
  | CbRspOrderAction sessionID errorCode _ => CbRspOrderAction sessionID errorCode p
  | CbRtnOrder _ => CbRtnOrder p
  | CbRspQryOrder sessionID errorCode isLast _ => CbRspQryOrder sessionID errorCode isLast p
  | CbRspQryOrderProcess sessionID errorCode isLast _ => CbRspQryOrderProcess sessionID errorCode isLast p
  | CbRspQryFill sessionID errorCode isLast _ => CbRspQryFill sessionID errorCode isLast p
  | CbRtnFill _ => CbRtnFill p
  | CbRspQryPosition sessionID errorCode isLast _ => CbRspQryPosition sessionID errorCode isLast p
  | CbRtnPosition _ => CbRtnPosition p
  | CbRspQryPositionSummary sessionID errorCode isLast _ => CbRspQryPositionSummary sessionID errorCode isLast p
  | CbRtnPositionSummary _ => CbRtnPositionSummary p
  | CbRtnPositionProfit _ => CbRtnPositionProfit p
  | CbRspQryCurrency sessionID errorCode isLast _ => CbRspQryCurrency sessionID errorCode isLast p
  | CbRspQryTradeMessage sessionID errorCode isLast _ => CbRspQryTradeMessage sessionID errorCode isLast p
  | CbRtnTradeMessage _ => CbRtnTradeMessage p
  | CbRspQryHisOrder sessionID errorCode isLast _ => CbRspQryHisOrder sessionID errorCode isLast p
  | CbRspQryHisOrderProcess sessionID errorCode isLast _ => CbRspQryHisOrderProcess sessionID errorCode isLast p
  | CbRspQryHisMatch sessionID errorCode isLast _ => CbRspQryHisMatch sessionID errorCode isLast p
  | CbRspQryHisPosition sessionID errorCode isLast _ => CbRspQryHisPosition sessionID errorCode isLast p
  | CbRspQryHisDelivery sessionID errorCode isLast _ => CbRspQryHisDelivery sessionID errorCode isLast p
  | CbRspQryAccountCashAdjust sessionID errorCode isLast _ => CbRspQryAccountCashAdjust sessionID errorCode isLast p
  | CbRspQryBill sessionID errorCode isLast _ => CbRspQryBill sessionID errorCode isLast p
  | CbRspQryAccountFeeRent sessionID errorCode isLast _ => CbRspQryAccountFeeRent sessionID errorCode isLast p
  | CbRspQryAccountMarginRent sessionID errorCode isLast _ => CbRspQryAccountMarginRent sessionID errorCode isLast p
  | CbRspHKMarketOrderInsert sessionID errorCode _ => CbRspHKMarketOrderInsert sessionID errorCode p
  | CbRspHKMarketOrderDelete sessionID errorCode _ => CbRspHKMarketOrderDelete sessionID errorCode p
  | CbHKMarketQuoteNotice _ => CbHKMarketQuoteNotice p
  | CbRspOrderLocalRemove sessionID errorCode _ => CbRspOrderLocalRemove sessionID errorCode p
  | CbRspOrderLocalInput sessionID errorCode _ => CbRspOrderLocalInput sessionID errorCode p
  | CbRspOrderLocalModify sessionID errorCode _ => CbRspOrderLocalModify sessionID errorCode p
  | CbRspOrderLocalTransfer sessionID errorCode _ => CbRspOrderLocalTransfer sessionID errorCode p
  | CbRspFillLocalInput sessionID errorCode _ => CbRspFillLocalInput sessionID errorCode p
  | CbRspFillLocalRemove sessionID errorCode _ => CbRspFillLocalRemove sessionID errorCode p
  end.

(** The [string] argument. *)
Definition cb_text (cb : Callback) : option string :=
  match cb with
  | CbConnect => None
  | CbRspLogin _ _ => None
  | CbRtnContactInfo _ _ ContactInfo => Some ContactInfo
  | CbRspRequestVertificateCode _ _ _ => None
  | CbExpriationDate date _ => Some date
  | CbAPIReady _ => None
  | CbDisconnect _ => None
  | CbRspChangePassword _ _ => None
  | CbRspAuthPassword _ _ => None
  | CbRspQryTradingDate _ _ _ => None
  | CbRspSetReservedInfo _ _ info => Some info
  | CbRspQryAccount _ _ _ _ => None
  | CbRspQryFund _ _ _ _ => None
  | CbRtnFund _ => None
  | CbRspQryExchange _ _ _ _ => None
  | CbRspQryCommodity _ _ _ _ => None
  | CbRspQryContract _ _ _ _ => None
  | CbRtnContract _ => None
  | CbRspOrderAction _ _ _ => None
  | CbRtnOrder _ => None
  | CbRspQryOrder _ _ _ _ => None
  | CbRspQryOrderProcess _ _ _ _ => None
  | CbRspQryFill _ _ _ _ => None
  | CbRtnFill _ => None
  | CbRspQryPosition _ _ _ _ => None
  | CbRtnPosition _ => None
  | CbRspQryPositionSummary _ _ _ _ => None
  | CbRtnPositionSummary _ => None
  | CbRtnPositionProfit _ => None
  | CbRspQryCurrency _ _ _ _ => None
  | CbRspQryTradeMessage _ _ _ _ => None
  | CbRtnTradeMessage _ => None
  | CbRspQryHisOrder _ _ _ _ => None
  | CbRspQryHisOrderProcess _ _ _ _ => None
  | CbRspQryHisMatch _ _ _ _ => None
  | CbRspQryHisPosition _ _ _ _ => None
  | CbRspQryHisDelivery _ _ _ _ => None
  | CbRspQryAccountCashAdjust _ _ _ _ => None
  | CbRspQryBill _ _ _ _ => None
  | CbRspQryAccountFeeRent _ _ _ _ => None
  | CbRspQryAccountMarginRent _ _ _ _ => None
  | CbRspHKMarketOrderInsert _ _ _ => None
  | CbRspHKMarketOrderDelete _ _ _ => None
  | CbHKMarketQuoteNotice _ => None
  | CbRspOrderLocalRemove _ _ _ => None
  | CbRspOrderLocalInput _ _ _ => None
  | CbRspOrderLocalModify _ _ _ => None
  | CbRspOrderLocalTransfer _ _ _ => None
  | CbRspFillLocalInput _ _ _ => None
  | CbRspFillLocalRemove _ _ _ => None
  end.

(** The [int] argument that is no error code ([days], [reasonCode]). *)
Definition cb_number (cb : Callback) : option Z :=
  match cb with
  | CbConnect => None
  | CbRspLogin _ _ => None
  | CbRtnContactInfo _ _ _ => None
  | CbRspRequestVertificateCode _ _ _ => None
  | CbExpriationDate _ days => Some days
  | CbAPIReady _ => None
  | CbDisconnect reasonCode => Some reasonCode
  | CbRspChangePassword _ _ => None
  | CbRspAuthPassword _ _ => None
  | CbRspQryTradingDate _ _ _ => None
  | CbRspSetReservedInfo _ _ _ => None
  | CbRspQryAccount _ _ _ _ => None
  | CbRspQryFund _ _ _ _ => None
  | CbRtnFund _ => None
  | CbRspQryExchange _ _ _ _ => None
  | CbRspQryCommodity _ _ _ _ => None
  | CbRspQryContract _ _ _ _ => None
  | CbRtnContract _ => None
  | CbRspOrderAction _ _ _ => None
  | CbRtnOrder _ => None
  | CbRspQryOrder _ _ _ _ => None
  | CbRspQryOrderProcess _ _ _ _ => None
  | CbRspQryFill _ _ _ _ => None
  | CbRtnFill _ => None
  | CbRspQryPosition _ _ _ _ => None
  | CbRtnPosition _ => None
  | CbRspQryPositionSummary _ _ _ _ => None
  | CbRtnPositionSummary _ => None
  | CbRtnPositionProfit _ => None
  | CbRspQryCurrency _ _ _ _ => None
  | CbRspQryTradeMessage _ _ _ _ => None
  | CbRtnTradeMessage _ => None
  | CbRspQryHisOrder _ _ _ _ => None
  | CbRspQryHisOrderProcess _ _ _ _ => None
  | CbRspQryHisMatch _ _ _ _ => None
  | CbRspQryHisPosition _ _ _ _ => None
  | CbRspQryHisDelivery _ _ _ _ => None
  | CbRspQryAccountCashAdjust _ _ _ _ => None
  | CbRspQryBill _ _ _ _ => None
  | CbRspQryAccountFeeRent _ _ _ _ => None
  | CbRspQryAccountMarginRent _ _ _ _ => None
  | CbRspHKMarketOrderInsert _ _ _ => None
  | CbRspHKMarketOrderDelete _ _ _ => None
  | CbHKMarketQuoteNotice _ => None
  | CbRspOrderLocalRemove _ _ _ => None
  | CbRspOrderLocalInput _ _ _ => None
  | CbRspOrderLocalModify _ _ _ => None
  | CbRspOrderLocalTransfer _ _ _ => None
  | CbRspFillLocalInput _ _ _ => None
  | CbRspFillLocalRemove _ _ _ => None
  end.

(** The struct type of which the callback allocates a copy ([new T()]). *)
Definition allocated (cb : Callback) : option string :=
  match cb with
  | CbConnect => None
  | CbRspLogin _ _ => Some "TapAPITradeLoginRspInfo"
  | CbRtnContactInfo _ _ _ => None
  | CbRspRequestVertificateCode _ _ _ => Some "TapAPIRequestVertificateCodeRsp"
  | CbExpriationDate _ _ => None
  | CbAPIReady _ => None
  | CbDisconnect _ => None
  | CbRspChangePassword _ _ => None
  | CbRspAuthPassword _ _ => None
  | CbRspQryTradingDate _ _ _ => Some "TapAPITradingCalendarQryRsp"
  | CbRspSetReservedInfo _ _ _ => None
  | CbRspQryAccount _ _ _ _ => Some "TapAPIAccountInfo"
  | CbRspQryFund _ _ _ _ => Some "TapAPIFundData"
  | CbRtnFund _ => Some "TapAPIFundData"
  | CbRspQryExchange _ _ _ _ => Some "TapAPIExchangeInfo"
  | CbRspQryCommodity _ _ _ _ => Some "TapAPICommodityInfo"
  | CbRspQryContract _ _ _ _ => Some "TapAPITradeContractInfo"
  | CbRtnContract _ => Some "TapAPITradeContractInfo"
  | CbRspOrderAction _ _ _ => Some "TapAPIOrderActionRsp"
  | CbRtnOrder _ => Some "TapAPIOrderInfoNotice"
  | CbRspQryOrder _ _ _ _ => Some "TapAPIOrderInfo"
  | CbRspQryOrderProcess _ _ _ _ => Some "TapAPIOrderInfo"
  | CbRspQryFill _ _ _ _ => Some "TapAPIFillInfo"
  | CbRtnFill _ => Some "TapAPIFillInfo"
  | CbRspQryPosition _ _ _ _ => Some "TapAPIPositionInfo"
  | CbRtnPosition _ => Some "TapAPIPositionInfo"
  | CbRspQryPositionSummary _ _ _ _ => Some "TapAPIPositionSummary"
  | CbRtnPositionSummary _ => Some "TapAPIPositionSummary"
  | CbRtnPositionProfit _ => Some "TapAPIPositionProfitNotice"
  | CbRspQryCurrency _ _ _ _ => Some "TapAPICurrencyInfo"
  | CbRspQryTradeMessage _ _ _ _ => Some "TapAPITradeMessage"
  | CbRtnTradeMessage _ => Some "TapAPITradeMessage"
  | CbRspQryHisOrder _ _ _ _ => Some "TapAPIHisOrderQryRsp"
  | CbRspQryHisOrderProcess _ _ _ _ => Some "TapAPIHisOrderProcessQryRsp"
  | CbRspQryHisMatch _ _ _ _ => Some "TapAPIHisMatchQryRsp"
  | CbRspQryHisPosition _ _ _ _ => Some "TapAPIHisPositionQryRsp"
  | CbRspQryHisDelivery _ _ _ _ => Some "TapAPIHisDeliveryQryRsp"
  | CbRspQryAccountCashAdjust _ _ _ _ => Some "TapAPIAccountCashAdjustQryRsp"
  | CbRspQryBill _ _ _ _ => Some "TapAPIBillQryRsp"
  | CbRspQryAccountFeeRent _ _ _ _ => Some "TapAPIAccountFeeRentQryRsp"
  | CbRspQryAccountMarginRent _ _ _ _ => Some "TapAPIAccountMarginRentQryRsp"
  | CbRspHKMarketOrderInsert _ _ _ => Some "TapAPIOrderMarketInsertRsp"
  | CbRspHKMarketOrderDelete _ _ _ => Some "TapAPIOrderMarketDeleteRsp"
  | CbHKMarketQuoteNotice _ => Some "TapAPIOrderQuoteMarketNotice"
  | CbRspOrderLocalRemove _ _ _ => Some "TapAPIOrderLocalRemoveRsp"
  | CbRspOrderLocalInput _ _ _ => Some "TapAPIOrderLocalInputRsp"
  | CbRspOrderLocalModify _ _ _ => Some "TapAPIOrderLocalModifyRsp"
  | CbRspOrderLocalTransfer _ _ _ => Some "TapAPIOrderLocalTransferRsp"
  | CbRspFillLocalInput _ _ _ => Some "TapAPIFillLocalInputRsp"
  | CbRspFillLocalRemove _ _ _ => Some "TapAPIFillLocalRemoveRsp"
  end.

(** The [string] argument of a handler call. *)
Definition h_text (h : HandlerCall) : option string :=
  match h with
  | onConnect => None
  | onRspLogin _ _ => None
  | onRtnContactInfo _ _ ContactInfo => Some ContactInfo
  | onRspRequestVertificateCode _ _ _ => None
  | onExpriationDate date _ => Some date
  | onAPIReady _ => None
  | onDisconnect _ => None
  | onRspChangePassword _ _ => None
  | onRspAuthPassword _ _ => None
  | onRspQryTradingDate _ _ _ => None
  | onRspSetReservedInfo _ _ info => Some info
  | onRspQryAccount _ _ _ _ => None
  | onRspQryFund _ _ _ _ => None
  | onRtnFund _ => None
  | onRspQryExchange _ _ _ _ => None
  | onRspQryCommodity _ _ _ _ => None
  | onRspQryContract _ _ _ _ => None
  | onRtnContract _ => None
  | onRspOrderAction _ _ _ => None
  | onRtnOrder _ => None
  | onRspQryOrder _ _ _ _ => None
  | onRspQryOrderProcess _ _ _ _ => None
  | onRspQryFill _ _ _ _ => None
  | onRtnFill _ => None
  | onRspQryPosition _ _ _ _ => None
  | onRtnPosition _ => None
  | onRspQryPositionSummary _ _ _ _ => None
  | onRtnPositionSummary _ => None
  | onRtnPositionProfit _ => None
  | onRspQryCurrency _ _ _ _ => None
  | onRspQryTradeMessage _ _ _ _ => None
  | onRtnTradeMessage _ => None
  | onRspQryHisOrder _ _ _ _ => None
  | onRspQryHisOrderProcess _ _ _ _ => None
  | onRspQryHisMatch _ _ _ _ => None
  | onRspQryHisPosition _ _ _ _ => None
  | onRspQryHisDelivery _ _ _ _ => None
  | onRspQryAccountCashAdjust _ _ _ _ => None
  | onRspQryBill _ _ _ _ => None
  | onRspQryAccountFeeRent _ _ _ _ => None
  | onRspQryAccountMarginRent _ _ _ _ => None
  | onRspHKMarketOrderInsert _ _ _ => None
  | onRspHKMarketOrderDelete _ _ _ => None
  | onHKMarketQuoteNotice _ => None
  | onRspOrderLocalRemove _ _ _ => None
  | onRspOrderLocalInput _ _ _ => None
  | onRspOrderLocalModify _ _ _ => None
  | onRspOrderLocalTransfer _ _ _ => None
  | onRspFillLocalInput _ _ _ => None
  | onRspFillLocalRemove _ _ _ => None
  end.

(** The [int] argument of a handler call that is neither session nor error. *)
Definition h_number (h : HandlerCall) : option Z :=
  match h with
  | onConnect => None
  | onRspLogin _ _ => None
  | onRtnContactInfo _ _ _ => None
  | onRspRequestVertificateCode _ _ _ => None
  | onExpriationDate _ days => Some days
  | onAPIReady _ => None
  | onDisconnect reasonCode => Some reasonCode
  | onRspChangePassword _ _ => None
  | onRspAuthPassword _ _ => None
  | onRspQryTradingDate _ _ _ => None
  | onRspSetReservedInfo _ _ _ => None
  | onRspQryAccount _ _ _ _ => None
  | onRspQryFund _ _ _ _ => None
  | onRtnFund _ => None
  | onRspQryExchange _ _ _ _ => None
  | onRspQryCommodity _ _ _ _ => None
  | onRspQryContract _ _ _ _ => None
  | onRtnContract _ => None
  | onRspOrderAction _ _ _ => None
  | onRtnOrder _ => None
  | onRspQryOrder _ _ _ _ => None
  | onRspQryOrderProcess _ _ _ _ => None
  | onRspQryFill _ _ _ _ => None
  | onRtnFill _ => None
  | onRspQryPosition _ _ _ _ => None
  | onRtnPosition _ => None
  | onRspQryPositionSummary _ _ _ _ => None
  | onRtnPositionSummary _ => None
  | onRtnPositionProfit _ => None
  | onRspQryCurrency _ _ _ _ => None
  | onRspQryTradeMessage _ _ _ _ => None
  | onRtnTradeMessage _ => None
  | onRspQryHisOrder _ _ _ _ => None
  | onRspQryHisOrderProcess _ _ _ _ => None
  | onRspQryHisMatch _ _ _ _ => None
  | onRspQryHisPosition _ _ _ _ => None
  | onRspQryHisDelivery _ _ _ _ => None
  | onRspQryAccountCashAdjust _ _ _ _ => None
  | onRspQryBill _ _ _ _ => None
  | onRspQryAccountFeeRent _ _ _ _ => None
  | onRspQryAccountMarginRent _ _ _ _ => None
  | onRspHKMarketOrderInsert _ _ _ => None
  | onRspHKMarketOrderDelete _ _ _ => None
  | onHKMarketQuoteNotice _ => None
  | onRspOrderLocalRemove _ _ _ => None
  | onRspOrderLocalInput _ _ _ => None
  | onRspOrderLocalModify _ _ _ => None
  | onRspOrderLocalTransfer _ _ _ => None
  | onRspFillLocalInput _ _ _ => None
  | onRspFillLocalRemove _ _ _ => None
  end.

(** The struct type the process function of a case casts [task_data] to. *)
Definition cast_to (t : TaskName) : option string :=
  match t with
  | ONCONNECT => None
  | ONRSPLOGIN => Some "TapAPITradeLoginRspInfo"
  | ONRTNCONTACTINFO => None
  | ONRSPREQUESTVERTIFICATECODE => Some "TapAPIRequestVertificateCodeRsp"
  | ONEXPRIATIONDATE => None
  | ONAPIREADY => None
  | ONDISCONNECT => None
  | ONRSPCHANGEPASSWORD => None
  | ONRSPAUTHPASSWORD => None
  | ONRSPQRYTRADINGDATE => Some "TapAPITradingCalendarQryRsp"
  | ONRSPSETRESERVEDINFO => None
  | ONRSPQRYACCOUNT => Some "TapAPIAccountInfo"
  | ONRSPQRYFUND => Some "TapAPIFundData"
  | ONRTNFUND => Some "TapAPIFundData"
  | ONRSPQRYEXCHANGE => Some "TapAPIExchangeInfo"
  | ONRSPQRYCOMMODITY => Some "TapAPICommodityInfo"
  | ONRSPQRYCONTRACT => Some "TapAPITradeContractInfo"
  | ONRTNCONTRACT => Some "TapAPITradeContractInfo"
  | ONRSPORDERACTION => Some "TapAPIOrderActionRsp"
  | ONRTNORDER => Some "TapAPIOrderInfoNotice"
  | ONRSPQRYORDER => Some "TapAPIOrderInfo"
  | ONRSPQRYORDERPROCESS => Some "TapAPIOrderInfo"
  | ONRSPQRYFILL => Some "TapAPIFillInfo"
  | ONRTNFILL => Some "TapAPIFillInfo"
  | ONRSPQRYPOSITION => Some "TapAPIPositionInfo"
  | ONRTNPOSITION => Some "TapAPIPositionInfo"
  | ONRSPQRYPOSITIONSUMMARY => Some "TapAPIPositionSummary"
  | ONRTNPOSITIONSUMMARY => Some "TapAPIPositionSummary"
  | ONRTNPOSITIONPROFIT => Some "TapAPIPositionProfitNotice"
  | ONRSPQRYCURRENCY => Some "TapAPICurrencyInfo"
  | ONRSPQRYTRADEMESSAGE => Some "TapAPITradeMessage"
  | ONRTNTRADEMESSAGE => Some "TapAPITradeMessage"
  | ONRSPQRYHISORDER => Some "TapAPIHisOrderQryRsp"
  | ONRSPQRYHISORDERPROCESS => Some "TapAPIHisOrderProcessQryRsp"
  | ONRSPQRYHISMATCH => Some "TapAPIHisMatchQryRsp"
  | ONRSPQRYHISPOSITION => Some "TapAPIHisPositionQryRsp"
  | ONRSPQRYHISDELIVERY => Some "TapAPIHisDeliveryQryRsp"
  | ONRSPQRYACCOUNTCASHADJUST => Some "TapAPIAccountCashAdjustQryRsp"
  | ONRSPQRYBILL => Some "TapAPIBillQryRsp"
  | ONRSPQRYACCOUNTFEERENT => Some "TapAPIAccountFeeRentQryRsp"
  | ONRSPQRYACCOUNTMARGINRENT => Some "TapAPIAccountMarginRentQryRsp"
  | ONRSPHKMARKETORDERINSERT => Some "TapAPIOrderMarketInsertRsp"
  | ONRSPHKMARKETORDERDELETE => Some "TapAPIOrderMarketDeleteRsp"
  | ONHKMARKETQUOTENOTICE => Some "TapAPIOrderQuoteMarketNotice"
  | ONRSPORDERLOCALREMOVE => Some "TapAPIOrderLocalRemoveRsp"
  | ONRSPORDERLOCALINPUT => Some "TapAPIOrderLocalInputRsp"
  | ONRSPORDERLOCALMODIFY => Some "TapAPIOrderLocalModifyRsp"
  | ONRSPORDERLOCALTRANSFER => Some "TapAPIOrderLocalTransferRsp"
  | ONRSPFILLLOCALINPUT => Some "TapAPIFillLocalInputRsp"
  | ONRSPFILLLOCALREMOVE => Some "TapAPIFillLocalRemoveRsp"
  end.

(** Assignments can be compared. *)
#[global] Instance Assign_eq_dec : EqDecision Assign.
Proof. solve_decision. Defined.

(** The tasks a list of callbacks pushes, in order. *)
Definition tasks_of (cbs : list Callback) : list Task :=
  flat_map (fun cb => pushed (callback cb)) cbs.

(** ** The overrides of [PyTdApi] (vntaptd.cpp:2943-3551) *)

(** What can leave [PYBIND11_OVERLOAD]: pybind11's [error_already_set],
    which carries the message of a Python exception, or something else. *)
Inductive Exn : Set :=
  | error_already_set (what : string)
  | other_exception.

(** [PYBIND11_OVERLOAD(void, TdApi, onXxx, args...)]: the Python override
    when there is one, the method of [TdApi] otherwise; it returns or
    throws, which may depend on the handler calls made before. *)
Variable python : list HandlerCall -> HandlerCall -> option Exn.

(** Every override has the same body: the call in a [try], and a [catch]
    of [error_already_set] that prints [e.what()].  The lines printed and
    what escapes, after the calls [before]. *)
Definition PyTdApi_override (before : list HandlerCall) (h : HandlerCall)
  : list string * option Exn :=
  match python before h with
  | None => ([], None)
  | Some (error_already_set what) => ([what], None)
  | Some e => ([], Some e)
  end.

(** The state of a worker: the handlers entered, the lines printed, and
    the exception that left [processTask], if any. *)
Record Work := mkWork {
  entered : list HandlerCall;
  printed : list string;
  escaped : option Exn
}.

(** The actions of a process function with the handlers of [PyTdApi]: an
    exception that leaves a handler leaves the process function. *)
Fixpoint perform (acts : list Action) (w : Work) : Work :=
  match acts with
  | [] => w
  | Invoke h :: acts' =>
      let '(lines, e) := PyTdApi_override (entered w) h in
      let w' := mkWork (entered w ++ [h]) (printed w ++ lines) e in
      match e with
      | None => perform acts' w'
      | Some _ => w'
      end
  | _ :: acts' => perform acts' w
  end.

(** The loop of [processTask] on the tasks [pop] returns, one after the
    other: its [catch] is for [TerminatedError] only, so any exception of
    a handler that the override lets through ends the loop. *)
Fixpoint work (tasks : list Task) (w : Work) : Work :=
  match tasks with
  | [] => w
  | task :: rest =>
      let w' := perform (processTask_turn task) w in
      match escaped w' with
      | None => work rest w'
      | Some _ => w'
      end
  end.

(** The lines the overrides print for the handler calls [hs] made after
    the calls [before]. *)
Fixpoint complaints (before hs : list HandlerCall) : list string :=
  match hs with
  | [] => []
  | h :: hs' =>
      match python before h with
      | Some (error_already_set what) => [what]
      | _ => []
      end ++ complaints (before ++ [h]) hs'
  end.



(** ** The vendor structs (vntaptd.cpp:1040-2626) *)

(** The members of a vendor struct: [char] arrays, which go through
    [toUtf], and the others, which pybind11 converts as they are. *)
Record Members := mkMembers {
  texts : list string;
  others : list string
}.

(** The vendor structs by type name, each with the members that the file
    names when it reads a struct of the type.  The structs are declared in
    the header of the SDK, which is not among the sources: a member that
    no function names does not show here. *)
Definition vendor_structs : list (string * Members) :=
  [ (* read at vntaptd.cpp:1045 *)
    ("TapAPITradeLoginRspInfo",
     mkMembers
       [ "UserNo"; "UserName"; "ReservedInfo"; "LastLoginIP"; "LastLoginTime";
         "LastLogoutTime"; "TradeDate"; "LastSettleTime"; "StartTime";
         "InitTime" ]
       [ "UserType"; "LastLoginProt" ]);
    (* read at vntaptd.cpp:1075 *)
    ("TapAPIRequestVertificateCodeRsp",
     mkMembers
       [ "SecondSerialID" ]
       [ "Effective" ]);
    (* read at vntaptd.cpp:1119 *)
    ("TapAPITradingCalendarQryRsp",
     mkMembers
       [ "CurrTradeDate"; "LastSettlementDate"; "PromptDate"; "LastPromptDate" ]
       []);
    (* read at vntaptd.cpp:1141 *)
    ("TapAPIAccountInfo",
     mkMembers
       [ "AccountNo"; "CommodityGroupNo"; "AccountShortName";
         "AccountEnShortName" ]
       [ "AccountType"; "AccountState"; "AccountTradeRight" ]);
    (* read at vntaptd.cpp:1160, 1213 *)
    ("TapAPIFundData",
     mkMembers
       [ "AccountNo"; "CurrencyGroupNo"; "CurrencyNo" ]
       [ "TradeRate"; "FutureAlg"; "OptionAlg"; "PreBalance";
         "PreUnExpProfit"; "PreLMEPositionProfit"; "PreEquity";
         "PreAvailable1"; "PreMarketEquity"; "CashInValue"; "CashOutValue";
         "CashAdjustValue"; "CashPledged"; "FrozenFee"; "FrozenDeposit";
         "AccountFee"; "SwapInValue"; "SwapOutValue"; "PremiumIncome";
         "PremiumPay"; "CloseProfit"; "FrozenFund"; "UnExpProfit";
         "ExpProfit"; "PositionProfit"; "LmePositionProfit";
         "OptionMarketValue"; "AccountIntialMargin";
         "AccountMaintenanceMargin"; "UpperInitalMargin";
         "UpperMaintenanceMargin"; "Discount"; "Balance"; "Equity";
         "Available"; "CanDraw"; "MarketEquity"; "AuthMoney" ]);
    (* read at vntaptd.cpp:1266 *)
    ("TapAPIExchangeInfo",
     mkMembers
       [ "ExchangeNo"; "ExchangeName" ]
       []);
    (* read at vntaptd.cpp:1280 *)
    ("TapAPICommodityInfo",
     mkMembers
       [ "ExchangeNo"; "CommodityNo"; "CommodityName"; "CommodityEngName";
         "RelateExchangeNo"; "RelateCommodityNo"; "RelateExchangeNo2";
         "RelateCommodityNo2"; "CurrencyGroupNo"; "TradeCurrency";
         "AddOneTime" ]
       [ "CommodityType"; "RelateCommodityType"; "RelateCommodityType2";
         "ContractSize"; "OpenCloseMode"; "StrikePriceTimes";
         "CommodityTickSize"; "CommodityDenominator"; "CmbDirect";
         "DeliveryMode"; "DeliveryDays"; "CommodityTimeZone"; "IsAddOne" ]);
    (* read at vntaptd.cpp:1316, 1343 *)
    ("TapAPITradeContractInfo",
     mkMembers
       [ "ExchangeNo"; "CommodityNo"; "ContractNo1"; "StrikePrice1";
         "ContractNo2"; "StrikePrice2"; "QuoteUnderlyingContract";
         "ContractName"; "ContractExpDate"; "LastTradeDate"; "FirstNoticeDate" ]
       [ "CommodityType"; "CallOrPutFlag1"; "CallOrPutFlag2"; "ContractType" ]);
    (* read at vntaptd.cpp:1370 *)
    ("TapAPIOrderActionRsp",
     mkMembers
       []
       [ "ActionType"; "OrderInfo" ]);
    (* read at vntaptd.cpp:1384 *)
    ("TapAPIOrderInfoNotice",
     mkMembers
       []
       [ "SessionID"; "ErrorCode"; "OrderInfo" ]);
    (* read at vntaptd.cpp:1399, 1476 *)
    ("TapAPIOrderInfo",
     mkMembers
       [ "AccountNo"; "ExchangeNo"; "CommodityNo"; "ContractNo";
         "StrikePrice"; "ContractNo2"; "StrikePrice2"; "ExpireTime";
         "InquiryNo"; "RefString"; "LicenseNo"; "OrderNo"; "ClientOrderNo";
         "ClientID"; "ClientLocalIP"; "ClientMac"; "ClientIP"; "UpperNo";
         "UpperChannelNo"; "OrderLocalNo"; "OrderSystemNo";
         "OrderExchangeSystemNo"; "OrderParentSystemNo"; "OrderInsertUserNo";
         "OrderInsertTime"; "OrderCommandUserNo"; "OrderUpdateUserNo";
         "OrderUpdateTime"; "ErrorText" ]
       [ "CommodityType"; "CallOrPutFlag"; "CallOrPutFlag2"; "OrderType";
         "OrderSource"; "TimeInForce"; "IsRiskOrder"; "OrderSide";
         "PositionEffect"; "PositionEffect2"; "HedgeFlag"; "OrderPrice";
         "OrderPrice2"; "StopPrice"; "OrderQty"; "OrderMinQty"; "RefInt";
         "RefDouble"; "MinClipSize"; "MaxClipSize"; "ServerFlag";
         "TacticsType"; "TriggerCondition"; "TriggerPriceType";
         "AddOneIsValid"; "OrderStreamID"; "UpperStreamID"; "OrderState";
         "OrderMatchPrice"; "OrderMatchPrice2"; "OrderMatchQty";
         "OrderMatchQty2"; "ErrorCode"; "IsBackInput"; "IsDeleted"; "IsAddOne" ]);
    (* read at vntaptd.cpp:1553, 1593 *)
    ("TapAPIFillInfo",
     mkMembers
       [ "AccountNo"; "ExchangeNo"; "CommodityNo"; "ContractNo";
         "StrikePrice"; "OrderNo"; "OrderSystemNo"; "MatchNo"; "UpperMatchNo";
         "ExchangeMatchNo"; "MatchDateTime"; "UpperMatchDateTime"; "UpperNo";
         "FeeCurrencyGroup"; "FeeCurrency" ]
       [ "CommodityType"; "CallOrPutFlag"; "MatchSource"; "MatchSide";
         "PositionEffect"; "ServerFlag"; "MatchPrice"; "MatchQty";
         "IsDeleted"; "IsAddOne"; "FeeValue"; "IsManualFee";
         "ClosePrositionPrice" ]);
    (* read at vntaptd.cpp:1633, 1673 *)
    ("TapAPIPositionInfo",
     mkMembers
       [ "AccountNo"; "ExchangeNo"; "CommodityNo"; "ContractNo";
         "StrikePrice"; "PositionNo"; "OrderNo"; "MatchNo"; "UpperNo";
         "CommodityCurrencyGroup"; "CommodityCurrency" ]
       [ "CommodityType"; "CallOrPutFlag"; "MatchSide"; "HedgeFlag";
         "ServerFlag"; "PositionPrice"; "PositionQty"; "PositionStreamId";
         "CalculatePrice"; "AccountInitialMargin"; "AccountMaintenanceMargin";
         "UpperInitialMargin"; "UpperMaintenanceMargin"; "PositionProfit";
         "LMEPositionProfit"; "OptionMarketValue"; "IsHistory" ]);
    (* read at vntaptd.cpp:1713, 1736 *)
    ("TapAPIPositionSummary",
     mkMembers
       [ "AccountNo"; "ExchangeNo"; "CommodityNo"; "ContractNo"; "StrikePrice" ]
       [ "CommodityType"; "CallOrPutFlag"; "MatchSide"; "PositionPrice";
         "PositionQty"; "HisPositionQty" ]);
    (* read at vntaptd.cpp:1759 *)
    ("TapAPIPositionProfitNotice",
     mkMembers
       []
       [ "IsLast"; "Data" ]);
    (* read at vntaptd.cpp:1773 *)
    ("TapAPICurrencyInfo",
     mkMembers
       [ "CurrencyNo"; "CurrencyGroupNo" ]
       [ "TradeRate"; "TradeRate2"; "FutureAlg"; "OptionAlg" ]);
    (* read at vntaptd.cpp:1791, 1814 *)
    ("TapAPITradeMessage",
     mkMembers
       [ "AccountNo"; "TMsgValidDateTime"; "TMsgTitle"; "TMsgContent";
         "Sender"; "SendDateTime" ]
       [ "SerialID"; "TMsgType"; "TMsgLevel"; "IsSendBySMS"; "IsSendByEMail" ]);
    (* read at vntaptd.cpp:1837 *)
    ("TapAPIHisOrderQryRsp",
     mkMembers
       [ "Date"; "AccountNo"; "ExchangeNo"; "CommodityNo"; "ContractNo";
         "StrikePrice"; "ContractNo2"; "StrikePrice2"; "ExpireTime";
         "InquiryNo"; "RefString"; "OrderNo"; "UpperNo"; "UpperChannelNo";
         "OrderLocalNo"; "OrderSystemNo"; "OrderExchangeSystemNo";
         "OrderParentSystemNo"; "OrderInsertUserNo"; "OrderInsertTime";
         "OrderCommandUserNo"; "OrderUpdateUserNo"; "OrderUpdateTime";
         "ErrorText"; "LicenseNo" ]
       [ "CommodityType"; "CallOrPutFlag"; "CallOrPutFlag2"; "OrderType";
         "OrderSource"; "TimeInForce"; "IsRiskOrder"; "OrderSide";
         "PositionEffect"; "PositionEffect2"; "HedgeFlag"; "OrderPrice";
         "OrderPrice2"; "StopPrice"; "OrderQty"; "OrderMinQty";
         "OrderCanceledQty"; "RefInt"; "RefDouble"; "ServerFlag";
         "OrderStreamID"; "UpperStreamID"; "OrderState"; "OrderMatchPrice";
         "OrderMatchPrice2"; "OrderMatchQty"; "OrderMatchQty2"; "ErrorCode";
         "IsBackInput"; "IsDeleted"; "IsAddOne"; "AddOneIsValid";
         "MinClipSize"; "MaxClipSize"; "TacticsType"; "TriggerCondition";
         "TriggerPriceType" ]);
    (* read at vntaptd.cpp:1911 *)
    ("TapAPIHisOrderProcessQryRsp",
     mkMembers
       [ "Date"; "AccountNo"; "ExchangeNo"; "CommodityNo"; "ContractNo";
         "StrikePrice"; "ContractNo2"; "StrikePrice2"; "ExpireTime";
         "InquiryNo"; "RefString"; "OrderNo"; "UpperNo"; "UpperChannelNo";
         "OrderLocalNo"; "OrderSystemNo"; "OrderExchangeSystemNo";
         "OrderParentSystemNo"; "OrderInsertUserNo"; "OrderInsertTime";
         "OrderCommandUserNo"; "OrderUpdateUserNo"; "OrderUpdateTime";
         "ErrorText"; "LicenseNo" ]
       [ "CommodityType"; "CallOrPutFlag"; "CallOrPutFlag2"; "OrderType";
         "OrderSource"; "TimeInForce"; "IsRiskOrder"; "OrderSide";
         "PositionEffect"; "PositionEffect2"; "HedgeFlag"; "OrderPrice";
         "OrderPrice2"; "StopPrice"; "OrderQty"; "OrderMinQty";
         "OrderCanceledQty"; "RefInt"; "RefDouble"; "ServerFlag";
         "OrderStreamID"; "UpperStreamID"; "OrderState"; "OrderMatchPrice";
         "OrderMatchPrice2"; "OrderMatchQty"; "OrderMatchQty2"; "ErrorCode";
         "IsBackInput"; "IsDeleted"; "IsAddOne"; "AddOneIsValid";
         "MinClipSize"; "MaxClipSize"; "TacticsType"; "TriggerCondition";
         "TriggerPriceType" ]);
    (* read at vntaptd.cpp:1985 *)
    ("TapAPIHisMatchQryRsp",
     mkMembers
       [ "SettleDate"; "TradeDate"; "AccountNo"; "ExchangeNo"; "CommodityNo";
         "ContractNo"; "StrikePrice"; "OrderNo"; "MatchNo"; "UpperNo";
         "MatchCmbNo"; "ExchangeMatchNo"; "CommodityCurrencyGroup";
         "CommodityCurrency"; "AccountFeeCurrencyGroup"; "AccountFeeCurrency";
         "UpperFeeCurrencyGroup"; "UpperFeeCurrency"; "MatchDateTime";
         "UpperMatchDateTime"; "SettleGroupNo"; "OperatorNo"; "OperateTime" ]
       [ "CommodityType"; "CallOrPutFlag"; "MatchSource"; "MatchSide";
         "PositionEffect"; "HedgeFlag"; "MatchPrice"; "MatchQty";
         "MatchStreamID"; "MatchUpperStreamID"; "Turnover"; "PremiumIncome";
         "PremiumPay"; "AccountFee"; "IsManualFee"; "AccountOtherFee";
         "UpperFee"; "IsUpperManualFee"; "UpperOtherFee"; "CloseProfit";
         "ClosePrice"; "CloseQty" ]);
    (* read at vntaptd.cpp:2042 *)
    ("TapAPIHisPositionQryRsp",
     mkMembers
       [ "SettleDate"; "OpenDate"; "AccountNo"; "ExchangeNo"; "CommodityNo";
         "ContractNo"; "StrikePrice"; "OrderNo"; "PositionNo"; "UpperNo";
         "CurrencyGroup"; "Currency"; "SettleGroupNo" ]
       [ "CommodityType"; "CallOrPutFlag"; "MatchSide"; "HedgeFlag";
         "PositionPrice"; "PositionQty"; "PreSettlePrice"; "SettlePrice";
         "PositionDProfit"; "LMEPositionProfit"; "OptionMarketValue";
         "AccountInitialMargin"; "AccountMaintenanceMargin";
         "UpperInitialMargin"; "UpperMaintenanceMargin" ]);
    (* read at vntaptd.cpp:2082 *)
    ("TapAPIHisDeliveryQryRsp",
     mkMembers
       [ "DeliveryDate"; "OpenDate"; "AccountNo"; "ExchangeNo"; "CommodityNo";
         "ContractNo"; "StrikePrice"; "OpenNo"; "UpperNo";
         "CommodityCurrencyGroupy"; "CommodityCurrency";
         "AccountFeeCurrencyGroup"; "AccountFeeCurrency";
         "UpperFeeCurrencyGroup"; "UpperFeeCurrency"; "OperatorNo";
         "OperateTime"; "SettleGourpNo" ]
       [ "CommodityType"; "CallOrPutFlag"; "MatchSource"; "OpenSide";
         "OpenPrice"; "DeliveryPrice"; "DeliveryQty"; "FrozenQty";
         "PreSettlePrice"; "DeliveryProfit"; "AccountFrozenInitialMargin";
         "AccountFrozenMaintenanceMargin"; "UpperFrozenInitialMargin";
         "UpperFrozenMaintenanceMargin"; "AccountDeliveryFee";
         "UpperDeliveryFee"; "DeliveryMode" ]);
    (* read at vntaptd.cpp:2129 *)
    ("TapAPIAccountCashAdjustQryRsp",
     mkMembers
       [ "Date"; "AccountNo"; "CurrencyGroupNo"; "CurrencyNo";
         "CashAdjustRemark"; "OperateTime"; "OperatorNo"; "AccountBank";
         "BankAccount"; "CompanyBank"; "InternalBankAccount" ]
       [ "CashAdjustType"; "CashAdjustValue"; "AccountLWFlag"; "CompanyLWFlag" ]);
    (* read at vntaptd.cpp:2156 *)
    ("TapAPIBillQryRsp",
     mkMembers
       []
       [ "Reqdata"; "BillLen"; "BillText" ]);
    (* read at vntaptd.cpp:2171 *)
    ("TapAPIAccountFeeRentQryRsp",
     mkMembers
       [ "AccountNo"; "ExchangeNo"; "CommodityNo"; "CurrencyGroupNo";
         "CurrencyNo" ]
       [ "CommodityType"; "MatchSource"; "CalculateMode"; "OpenCloseFee";
         "CloseTodayFee" ]);
    (* read at vntaptd.cpp:2193 *)
    ("TapAPIAccountMarginRentQryRsp",
     mkMembers
       [ "AccountNo"; "ExchangeNo"; "CommodityNo"; "ContractNo";
         "StrikePrice"; "CurrencyGroupNo"; "CurrencyNo" ]
       [ "CommodityType"; "CallOrPutFlag"; "CalculateMode"; "InitialMargin";
         "MaintenanceMargin"; "SellInitialMargin"; "SellMaintenanceMargin";
         "LockMargin" ]);
    (* read at vntaptd.cpp:2220 *)
    ("TapAPIOrderMarketInsertRsp",
     mkMembers
       [ "AccountNo"; "ExchangeNo"; "CommodityNo"; "ContractNo";
         "StrikePrice"; "ExpireTime"; "OrderBuyNo"; "OrderSellNo";
         "OrderMarketUserNo"; "OrderMarketTime"; "RefString";
         "ClientBuyOrderNo"; "ClientSellOrderNo"; "ErrorText";
         "ClientLocalIP"; "ClientMac"; "ClientIP"; "Remark" ]
       [ "CommodityType"; "CallOrPutFlag"; "OrderType"; "TimeInForce";
         "OrderSource"; "BuyPositionEffect"; "SellPositionEffect";
         "OrderBuyPrice"; "OrderSellPrice"; "OrderBuyQty"; "OrderSellQty";
         "ServerFlag"; "AddOneIsValid"; "RefInt"; "RefDouble"; "ErrorCode" ]);
    (* read at vntaptd.cpp:2266 *)
    ("TapAPIOrderMarketDeleteRsp",
     mkMembers
       [ "AccountNo"; "ExchangeNo"; "CommodityNo"; "ContractNo";
         "StrikePrice"; "ExpireTime"; "OrderBuyNo"; "OrderSellNo";
         "OrderMarketUserNo"; "OrderMarketTime"; "RefString";
         "ClientBuyOrderNo"; "ClientSellOrderNo"; "ErrorText";
         "ClientLocalIP"; "ClientMac"; "ClientIP"; "Remark" ]
       [ "CommodityType"; "CallOrPutFlag"; "OrderType"; "TimeInForce";
         "OrderSource"; "BuyPositionEffect"; "SellPositionEffect";
         "OrderBuyPrice"; "OrderSellPrice"; "OrderBuyQty"; "OrderSellQty";
         "ServerFlag"; "AddOneIsValid"; "RefInt"; "RefDouble"; "ErrorCode" ]);
    (* read at vntaptd.cpp:2312 *)
    ("TapAPIOrderQuoteMarketNotice",
     mkMembers
       [ "ExchangeNo"; "CommodityNo"; "ContractNo"; "StrikePrice" ]
       [ "CommodityType"; "CallOrPutFlag"; "OrderSide"; "OrderQty" ]);
    (* read at vntaptd.cpp:2332 *)
    ("TapAPIOrderLocalRemoveRsp",
     mkMembers
       [ "ClientLocalIP"; "ClientMac"; "ClientIP" ]
       [ "req" ]);
    (* read at vntaptd.cpp:2348 *)
    ("TapAPIOrderLocalInputRsp",
     mkMembers
       [ "AccountNo"; "ExchangeNo"; "CommodityNo"; "ContractNo";
         "StrikePrice"; "ContractNo2"; "StrikePrice2"; "ExpireTime";
         "InquiryNo"; "RefString"; "LicenseNo"; "OrderNo"; "ClientOrderNo";
         "ClientID"; "ClientLocalIP"; "ClientMac"; "ClientIP"; "UpperNo";
         "UpperChannelNo"; "OrderLocalNo"; "OrderSystemNo";
         "OrderExchangeSystemNo"; "OrderParentSystemNo"; "OrderInsertUserNo";
         "OrderInsertTime"; "OrderCommandUserNo"; "OrderUpdateUserNo";
         "OrderUpdateTime"; "ErrorText" ]
       [ "CommodityType"; "CallOrPutFlag"; "CallOrPutFlag2"; "OrderType";
         "OrderSource"; "TimeInForce"; "IsRiskOrder"; "OrderSide";
         "PositionEffect"; "PositionEffect2"; "HedgeFlag"; "OrderPrice";
         "OrderPrice2"; "StopPrice"; "OrderQty"; "OrderMinQty"; "RefInt";
         "RefDouble"; "MinClipSize"; "MaxClipSize"; "ServerFlag";
         "TacticsType"; "TriggerCondition"; "TriggerPriceType";
         "AddOneIsValid"; "OrderStreamID"; "UpperStreamID"; "OrderState";
         "OrderMatchPrice"; "OrderMatchPrice2"; "OrderMatchQty";
         "OrderMatchQty2"; "ErrorCode"; "IsBackInput"; "IsDeleted"; "IsAddOne" ]);
    (* read at vntaptd.cpp:2425 *)
    ("TapAPIOrderLocalModifyRsp",
     mkMembers
       [ "AccountNo"; "ExchangeNo"; "CommodityNo"; "ContractNo";
         "StrikePrice"; "ContractNo2"; "StrikePrice2"; "ExpireTime";
         "InquiryNo"; "RefString"; "LicenseNo"; "OrderNo"; "ClientOrderNo";
         "ClientID"; "ClientLocalIP"; "ClientMac"; "ClientIP"; "UpperNo";
         "UpperChannelNo"; "OrderLocalNo"; "OrderSystemNo";
         "OrderExchangeSystemNo"; "OrderParentSystemNo"; "OrderInsertUserNo";
         "OrderInsertTime"; "OrderCommandUserNo"; "OrderUpdateUserNo";
         "OrderUpdateTime"; "ErrorText" ]
       [ "CommodityType"; "CallOrPutFlag"; "CallOrPutFlag2"; "OrderType";
         "OrderSource"; "TimeInForce"; "IsRiskOrder"; "OrderSide";
         "PositionEffect"; "PositionEffect2"; "HedgeFlag"; "OrderPrice";
         "OrderPrice2"; "StopPrice"; "OrderQty"; "OrderMinQty"; "RefInt";
         "RefDouble"; "MinClipSize"; "MaxClipSize"; "ServerFlag";
         "TacticsType"; "TriggerCondition"; "TriggerPriceType";
         "AddOneIsValid"; "OrderStreamID"; "UpperStreamID"; "OrderState";
         "OrderMatchPrice"; "OrderMatchPrice2"; "OrderMatchQty";
         "OrderMatchQty2"; "ErrorCode"; "IsBackInput"; "IsDeleted"; "IsAddOne" ]);
    (* read at vntaptd.cpp:2502 *)
    ("TapAPIOrderLocalTransferRsp",
     mkMembers
       [ "AccountNo"; "ExchangeNo"; "CommodityNo"; "ContractNo";
         "StrikePrice"; "ContractNo2"; "StrikePrice2"; "ExpireTime";
         "InquiryNo"; "RefString"; "LicenseNo"; "OrderNo"; "ClientOrderNo";
         "ClientID"; "ClientLocalIP"; "ClientMac"; "ClientIP"; "UpperNo";
         "UpperChannelNo"; "OrderLocalNo"; "OrderSystemNo";
         "OrderExchangeSystemNo"; "OrderParentSystemNo"; "OrderInsertUserNo";
         "OrderInsertTime"; "OrderCommandUserNo"; "OrderUpdateUserNo";
         "OrderUpdateTime"; "ErrorText" ]
       [ "CommodityType"; "CallOrPutFlag"; "CallOrPutFlag2"; "OrderType";
         "OrderSource"; "TimeInForce"; "IsRiskOrder"; "OrderSide";
         "PositionEffect"; "PositionEffect2"; "HedgeFlag"; "OrderPrice";
         "OrderPrice2"; "StopPrice"; "OrderQty"; "OrderMinQty"; "RefInt";
         "RefDouble"; "MinClipSize"; "MaxClipSize"; "ServerFlag";
         "TacticsType"; "TriggerCondition"; "TriggerPriceType";
         "AddOneIsValid"; "OrderStreamID"; "UpperStreamID"; "OrderState";
         "OrderMatchPrice"; "OrderMatchPrice2"; "OrderMatchQty";
         "OrderMatchQty2"; "ErrorCode"; "IsBackInput"; "IsDeleted"; "IsAddOne" ]);
    (* read at vntaptd.cpp:2579 *)
    ("TapAPIFillLocalInputRsp",
     mkMembers
       [ "AccountNo"; "ExchangeNo"; "CommodityNo"; "ContractNo";
         "StrikePrice"; "OrderSystemNo"; "UpperMatchNo"; "MatchDateTime";
         "UpperMatchDateTime"; "UpperNo"; "FeeCurrencyGroup"; "FeeCurrency" ]
       [ "CommodityType"; "CallOrPutFlag"; "MatchSide"; "PositionEffect";
         "HedgeFlag"; "MatchPrice"; "MatchQty"; "IsAddOne"; "FeeValue";
         "IsManualFee"; "ClosePositionPrice" ]);
    (* read at vntaptd.cpp:2614 *)
    ("TapAPIFillLocalRemoveRsp",
     mkMembers
       [ "MatchNo" ]
       [ "ServerFlag" ]) ].

(** The members of the struct type [T]. *)
Definition members (T : string) : option Members :=
  snd <$> find (fun e => String.eqb (fst e) T) vendor_structs.
(** ** The [void*] of a task (vntaptd.cpp:19-712, 1040-2626) *)

(** What [new T()] creates in a callback: a struct and the type it was
    allocated as.  [task_data] is a [void*]; when it is not null, it points
    to such a cell. *)
Record Cell := mkCell {
  cell_type : string;
  cell_struct : Struct
}.

(** The allocation in a callback with a payload parameter: under
    [if (info)] it has [T *task_data = new T()], [*task_data = *info] and
    [task.task_data = task_data]. *)

(** vntaptd.cpp:26 *)
Definition OnRspLogin_new (loginRspInfo : option Struct) : option Cell :=
  mkCell "TapAPITradeLoginRspInfo" <$> loginRspInfo.

(** vntaptd.cpp:51 *)
Definition OnRspRequestVertificateCode_new (rsp : option Struct) : option Cell :=
  mkCell "TapAPIRequestVertificateCodeRsp" <$> rsp.

(** vntaptd.cpp:109 *)
Definition OnRspQryTradingDate_new (info : option Struct) : option Cell :=
  mkCell "TapAPITradingCalendarQryRsp" <$> info.

(** vntaptd.cpp:135 *)
Definition OnRspQryAccount_new (info : option Struct) : option Cell :=
  mkCell "TapAPIAccountInfo" <$> info.

(** vntaptd.cpp:151 *)
Definition OnRspQryFund_new (info : option Struct) : option Cell :=
  mkCell "TapAPIFundData" <$> info.

(** vntaptd.cpp:164 *)
Definition OnRtnFund_new (info : option Struct) : option Cell :=
  mkCell "TapAPIFundData" <$> info.

(** vntaptd.cpp:180 *)
Definition OnRspQryExchange_new (info : option Struct) : option Cell :=
  mkCell "TapAPIExchangeInfo" <$> info.

(** vntaptd.cpp:196 *)
Definition OnRspQryCommodity_new (info : option Struct) : option Cell :=
  mkCell "TapAPICommodityInfo" <$> info.

(** vntaptd.cpp:212 *)
Definition OnRspQryContract_new (info : option Struct) : option Cell :=
  mkCell "TapAPITradeContractInfo" <$> info.

(** vntaptd.cpp:225 *)
Definition OnRtnContract_new (info : option Struct) : option Cell :=
  mkCell "TapAPITradeContractInfo" <$> info.

(** vntaptd.cpp:240 *)
Definition OnRspOrderAction_new (info : option Struct) : option Cell :=
  mkCell "TapAPIOrderActionRsp" <$> info.

(** vntaptd.cpp:253 *)
Definition OnRtnOrder_new (info : option Struct) : option Cell :=
  mkCell "TapAPIOrderInfoNotice" <$> info.

(** vntaptd.cpp:269 *)
Definition OnRspQryOrder_new (info : option Struct) : option Cell :=
  mkCell "TapAPIOrderInfo" <$> info.

(** vntaptd.cpp:285 *)
Definition OnRspQryOrderProcess_new (info : option Struct) : option Cell :=
  mkCell "TapAPIOrderInfo" <$> info.

(** vntaptd.cpp:301 *)
Definition OnRspQryFill_new (info : option Struct) : option Cell :=
  mkCell "TapAPIFillInfo" <$> info.

(** vntaptd.cpp:314 *)
Definition OnRtnFill_new (info : option Struct) : option Cell :=
  mkCell "TapAPIFillInfo" <$> info.

(** vntaptd.cpp:330 *)
Definition OnRspQryPosition_new (info : option Struct) : option Cell :=
  mkCell "TapAPIPositionInfo" <$> info.

(** vntaptd.cpp:343 *)
Definition OnRtnPosition_new (info : option Struct) : option Cell :=
  mkCell "TapAPIPositionInfo" <$> info.

(** vntaptd.cpp:359 *)
Definition OnRspQryPositionSummary_new (info : option Struct) : option Cell :=
  mkCell "TapAPIPositionSummary" <$> info.

(** vntaptd.cpp:372 *)
Definition OnRtnPositionSummary_new (info : option Struct) : option Cell :=
  mkCell "TapAPIPositionSummary" <$> info.

(** vntaptd.cpp:385 *)
Definition OnRtnPositionProfit_new (info : option Struct) : option Cell :=
  mkCell "TapAPIPositionProfitNotice" <$> info.

(** vntaptd.cpp:401 *)
Definition OnRspQryCurrency_new (info : option Struct) : option Cell :=
  mkCell "TapAPICurrencyInfo" <$> info.

(** vntaptd.cpp:417 *)
Definition OnRspQryTradeMessage_new (info : option Struct) : option Cell :=
  mkCell "TapAPITradeMessage" <$> info.

(** vntaptd.cpp:430 *)
Definition OnRtnTradeMessage_new (info : option Struct) : option Cell :=
  mkCell "TapAPITradeMessage" <$> info.

(** vntaptd.cpp:446 *)
Definition OnRspQryHisOrder_new (info : option Struct) : option Cell :=
  mkCell "TapAPIHisOrderQryRsp" <$> info.

(** vntaptd.cpp:462 *)
Definition OnRspQryHisOrderProcess_new (info : option Struct) : option Cell :=
  mkCell "TapAPIHisOrderProcessQryRsp" <$> info.

(** vntaptd.cpp:478 *)
Definition OnRspQryHisMatch_new (info : option Struct) : option Cell :=
  mkCell "TapAPIHisMatchQryRsp" <$> info.

(** vntaptd.cpp:494 *)
Definition OnRspQryHisPosition_new (info : option Struct) : option Cell :=
  mkCell "TapAPIHisPositionQryRsp" <$> info.

(** vntaptd.cpp:510 *)
Definition OnRspQryHisDelivery_new (info : option Struct) : option Cell :=
  mkCell "TapAPIHisDeliveryQryRsp" <$> info.

(** vntaptd.cpp:526 *)
Definition OnRspQryAccountCashAdjust_new (info : option Struct) : option Cell :=
  mkCell "TapAPIAccountCashAdjustQryRsp" <$> info.

(** vntaptd.cpp:542 *)
Definition OnRspQryBill_new (info : option Struct) : option Cell :=
  mkCell "TapAPIBillQryRsp" <$> info.

(** vntaptd.cpp:558 *)
Definition OnRspQryAccountFeeRent_new (info : option Struct) : option Cell :=
  mkCell "TapAPIAccountFeeRentQryRsp" <$> info.

(** vntaptd.cpp:574 *)
Definition OnRspQryAccountMarginRent_new (info : option Struct) : option Cell :=
  mkCell "TapAPIAccountMarginRentQryRsp" <$> info.

(** vntaptd.cpp:589 *)
Definition OnRspHKMarketOrderInsert_new (info : option Struct) : option Cell :=
  mkCell "TapAPIOrderMarketInsertRsp" <$> info.

(** vntaptd.cpp:604 *)
Definition OnRspHKMarketOrderDelete_new (info : option Struct) : option Cell :=
  mkCell "TapAPIOrderMarketDeleteRsp" <$> info.

(** vntaptd.cpp:617 *)
Definition OnHKMarketQuoteNotice_new (info : option Struct) : option Cell :=
  mkCell "TapAPIOrderQuoteMarketNotice" <$> info.

(** vntaptd.cpp:632 *)
Definition OnRspOrderLocalRemove_new (info : option Struct) : option Cell :=
  mkCell "TapAPIOrderLocalRemoveRsp" <$> info.

(** vntaptd.cpp:647 *)
Definition OnRspOrderLocalInput_new (info : option Struct) : option Cell :=
  mkCell "TapAPIOrderLocalInputRsp" <$> info.

(** vntaptd.cpp:662 *)
Definition OnRspOrderLocalModify_new (info : option Struct) : option Cell :=
  mkCell "TapAPIOrderLocalModifyRsp" <$> info.

(** vntaptd.cpp:677 *)
Definition OnRspOrderLocalTransfer_new (info : option Struct) : option Cell :=
  mkCell "TapAPIOrderLocalTransferRsp" <$> info.

(** vntaptd.cpp:692 *)
Definition OnRspFillLocalInput_new (info : option Struct) : option Cell :=
  mkCell "TapAPIFillLocalInputRsp" <$> info.

(** vntaptd.cpp:707 *)
Definition OnRspFillLocalRemove_new (info : option Struct) : option Cell :=
  mkCell "TapAPIFillLocalRemoveRsp" <$> info.

(** The cell a callback allocates for its payload; none for a null pointer
    and none in a callback without payload parameter. *)
Definition new_cell (cb : Callback) : option Cell :=
  match cb with
  | CbConnect => None
  | CbRspLogin _ loginRspInfo => OnRspLogin_new loginRspInfo
  | CbRtnContactInfo _ _ _ => None
  | CbRspRequestVertificateCode _ _ rsp => OnRspRequestVertificateCode_new rsp
  | CbExpriationDate _ _ => None
  | CbAPIReady _ => None
  | CbDisconnect _ => None
  | CbRspChangePassword _ _ => None
  | CbRspAuthPassword _ _ => None
  | CbRspQryTradingDate _ _ info => OnRspQryTradingDate_new info
  | CbRspSetReservedInfo _ _ _ => None
  | CbRspQryAccount _ _ _ info => OnRspQryAccount_new info
  | CbRspQryFund _ _ _ info => OnRspQryFund_new info
  | CbRtnFund info => OnRtnFund_new info
  | CbRspQryExchange _ _ _ info => OnRspQryExchange_new info
  | CbRspQryCommodity _ _ _ info => OnRspQryCommodity_new info
  | CbRspQryContract _ _ _ info => OnRspQryContract_new info
  | CbRtnContract info => OnRtnContract_new info
  | CbRspOrderAction _ _ info => OnRspOrderAction_new info
  | CbRtnOrder info => OnRtnOrder_new info
  | CbRspQryOrder _ _ _ info => OnRspQryOrder_new info
  | CbRspQryOrderProcess _ _ _ info => OnRspQryOrderProcess_new info
  | CbRspQryFill _ _ _ info => OnRspQryFill_new info
  | CbRtnFill info => OnRtnFill_new info
  | CbRspQryPosition _ _ _ info => OnRspQryPosition_new info
  | CbRtnPosition info => OnRtnPosition_new info
  | CbRspQryPositionSummary _ _ _ info => OnRspQryPositionSummary_new info
  | CbRtnPositionSummary info => OnRtnPositionSummary_new info
  | CbRtnPositionProfit info => OnRtnPositionProfit_new info
  | CbRspQryCurrency _ _ _ info => OnRspQryCurrency_new info
  | CbRspQryTradeMessage _ _ _ info => OnRspQryTradeMessage_new info
  | CbRtnTradeMessage info => OnRtnTradeMessage_new info
  | CbRspQryHisOrder _ _ _ info => OnRspQryHisOrder_new info
  | CbRspQryHisOrderProcess _ _ _ info => OnRspQryHisOrderProcess_new info
  | CbRspQryHisMatch _ _ _ info => OnRspQryHisMatch_new info
  | CbRspQryHisPosition _ _ _ info => OnRspQryHisPosition_new info
  | CbRspQryHisDelivery _ _ _ info => OnRspQryHisDelivery_new info
  | CbRspQryAccountCashAdjust _ _ _ info => OnRspQryAccountCashAdjust_new info
  | CbRspQryBill _ _ _ info => OnRspQryBill_new info
  | CbRspQryAccountFeeRent _ _ _ info => OnRspQryAccountFeeRent_new info
  | CbRspQryAccountMarginRent _ _ _ info => OnRspQryAccountMarginRent_new info
  | CbRspHKMarketOrderInsert _ _ info => OnRspHKMarketOrderInsert_new info
  | CbRspHKMarketOrderDelete _ _ info => OnRspHKMarketOrderDelete_new info
  | CbHKMarketQuoteNotice info => OnHKMarketQuoteNotice_new info
  | CbRspOrderLocalRemove _ _ info => OnRspOrderLocalRemove_new info
  | CbRspOrderLocalInput _ _ info => OnRspOrderLocalInput_new info
  | CbRspOrderLocalModify _ _ info => OnRspOrderLocalModify_new info
  | CbRspOrderLocalTransfer _ _ info => OnRspOrderLocalTransfer_new info
  | CbRspFillLocalInput _ _ info => OnRspFillLocalInput_new info
  | CbRspFillLocalRemove _ _ info => OnRspFillLocalRemove_new info
  end.

(** A process function that casts: under [if (task->task_data)] it has
    [T *task_data = (T* )task->task_data], reads the struct through the
    result and deletes it.  Run on a task whose [task_data] points to [p],
    this is defined when the cell was allocated as a [T]; reading a cell of
    another type through a [T*] is not. *)
Definition with_cast (T : string) (process : Task -> list Action)
    (task : Task) (p : option Cell) : option (list Action) :=
  match p with
  | None => Some (process (set_task_data None task))
  | Some c =>
      if decide (cell_type c = T)
      then Some (process (set_task_data (Some (cell_struct c)) task))
      else None
  end.

(** A process function that never touches [task_data]. *)
Definition without_cast (process : Task -> list Action)
    (task : Task) (p : option Cell) : option (list Action) :=
  Some (process task).

(** vntaptd.cpp:1051 *)
Definition processRspLogin_cast : Task -> option Cell -> option (list Action) :=
  with_cast "TapAPITradeLoginRspInfo" processRspLogin.

(** vntaptd.cpp:1081 *)
Definition processRspRequestVertificateCode_cast : Task -> option Cell -> option (list Action) :=
  with_cast "TapAPIRequestVertificateCodeRsp" processRspRequestVertificateCode.

(** vntaptd.cpp:1125 *)
Definition processRspQryTradingDate_cast : Task -> option Cell -> option (list Action) :=
  with_cast "TapAPITradingCalendarQryRsp" processRspQryTradingDate.

(** vntaptd.cpp:1147 *)
Definition processRspQryAccount_cast : Task -> option Cell -> option (list Action) :=
  with_cast "TapAPIAccountInfo" processRspQryAccount.

(** vntaptd.cpp:1166 *)
Definition processRspQryFund_cast : Task -> option Cell -> option (list Action) :=
  with_cast "TapAPIFundData" processRspQryFund.

(** vntaptd.cpp:1219 *)
Definition processRtnFund_cast : Task -> option Cell -> option (list Action) :=
  with_cast "TapAPIFundData" processRtnFund.

(** vntaptd.cpp:1272 *)
Definition processRspQryExchange_cast : Task -> option Cell -> option (list Action) :=
  with_cast "TapAPIExchangeInfo" processRspQryExchange.

(** vntaptd.cpp:1286 *)
Definition processRspQryCommodity_cast : Task -> option Cell -> option (list Action) :=
  with_cast "TapAPICommodityInfo" processRspQryCommodity.

(** vntaptd.cpp:1322 *)
Definition processRspQryContract_cast : Task -> option Cell -> option (list Action) :=
  with_cast "TapAPITradeContractInfo" processRspQryContract.

(** vntaptd.cpp:1349 *)
Definition processRtnContract_cast : Task -> option Cell -> option (list Action) :=
  with_cast "TapAPITradeContractInfo" processRtnContract.

(** vntaptd.cpp:1376 *)
Definition processRspOrderAction_cast : Task -> option Cell -> option (list Action) :=
  with_cast "TapAPIOrderActionRsp" processRspOrderAction.

(** vntaptd.cpp:1390 *)
Definition processRtnOrder_cast : Task -> option Cell -> option (list Action) :=
  with_cast "TapAPIOrderInfoNotice" processRtnOrder.

(** vntaptd.cpp:1405 *)
Definition processRspQryOrder_cast : Task -> option Cell -> option (list Action) :=
  with_cast "TapAPIOrderInfo" processRspQryOrder.

(** vntaptd.cpp:1482 *)
Definition processRspQryOrderProcess_cast : Task -> option Cell -> option (list Action) :=
  with_cast "TapAPIOrderInfo" processRspQryOrderProcess.

(** vntaptd.cpp:1559 *)
Definition processRspQryFill_cast : Task -> option Cell -> option (list Action) :=
  with_cast "TapAPIFillInfo" processRspQryFill.

(** vntaptd.cpp:1599 *)
Definition processRtnFill_cast : Task -> option Cell -> option (list Action) :=
  with_cast "TapAPIFillInfo" processRtnFill.

(** vntaptd.cpp:1639 *)
Definition processRspQryPosition_cast : Task -> option Cell -> option (list Action) :=
  with_cast "TapAPIPositionInfo" processRspQryPosition.

(** vntaptd.cpp:1679 *)
Definition processRtnPosition_cast : Task -> option Cell -> option (list Action) :=
  with_cast "TapAPIPositionInfo" processRtnPosition.

(** vntaptd.cpp:1719 *)
Definition processRspQryPositionSummary_cast : Task -> option Cell -> option (list Action) :=
  with_cast "TapAPIPositionSummary" processRspQryPositionSummary.

(** vntaptd.cpp:1742 *)
Definition processRtnPositionSummary_cast : Task -> option Cell -> option (list Action) :=
  with_cast "TapAPIPositionSummary" processRtnPositionSummary.

(** vntaptd.cpp:1765 *)
Definition processRtnPositionProfit_cast : Task -> option Cell -> option (list Action) :=
  with_cast "TapAPIPositionProfitNotice" processRtnPositionProfit.

(** vntaptd.cpp:1779 *)
Definition processRspQryCurrency_cast : Task -> option Cell -> option (list Action) :=
  with_cast "TapAPICurrencyInfo" processRspQryCurrency.

(** vntaptd.cpp:1797 *)
Definition processRspQryTradeMessage_cast : Task -> option Cell -> option (list Action) :=
  with_cast "TapAPITradeMessage" processRspQryTradeMessage.

(** vntaptd.cpp:1820 *)
Definition processRtnTradeMessage_cast : Task -> option Cell -> option (list Action) :=
  with_cast "TapAPITradeMessage" processRtnTradeMessage.

(** vntaptd.cpp:1843 *)
Definition processRspQryHisOrder_cast : Task -> option Cell -> option (list Action) :=
  with_cast "TapAPIHisOrderQryRsp" processRspQryHisOrder.

(** vntaptd.cpp:1917 *)
Definition processRspQryHisOrderProcess_cast : Task -> option Cell -> option (list Action) :=
  with_cast "TapAPIHisOrderProcessQryRsp" processRspQryHisOrderProcess.

(** vntaptd.cpp:1991 *)
Definition processRspQryHisMatch_cast : Task -> option Cell -> option (list Action) :=
  with_cast "TapAPIHisMatchQryRsp" processRspQryHisMatch.

(** vntaptd.cpp:2048 *)
Definition processRspQryHisPosition_cast : Task -> option Cell -> option (list Action) :=
  with_cast "TapAPIHisPositionQryRsp" processRspQryHisPosition.

(** vntaptd.cpp:2088 *)
Definition processRspQryHisDelivery_cast : Task -> option Cell -> option (list Action) :=
  with_cast "TapAPIHisDeliveryQryRsp" processRspQryHisDelivery.

(** vntaptd.cpp:2135 *)
Definition processRspQryAccountCashAdjust_cast : Task -> option Cell -> option (list Action) :=
  with_cast "TapAPIAccountCashAdjustQryRsp" processRspQryAccountCashAdjust.

(** vntaptd.cpp:2162 *)
Definition processRspQryBill_cast : Task -> option Cell -> option (list Action) :=
  with_cast "TapAPIBillQryRsp" processRspQryBill.

(** vntaptd.cpp:2177 *)
Definition processRspQryAccountFeeRent_cast : Task -> option Cell -> option (list Action) :=
  with_cast "TapAPIAccountFeeRentQryRsp" processRspQryAccountFeeRent.

(** vntaptd.cpp:2199 *)
Definition processRspQryAccountMarginRent_cast : Task -> option Cell -> option (list Action) :=
  with_cast "TapAPIAccountMarginRentQryRsp" processRspQryAccountMarginRent.

(** vntaptd.cpp:2226 *)
Definition processRspHKMarketOrderInsert_cast : Task -> option Cell -> option (list Action) :=
  with_cast "TapAPIOrderMarketInsertRsp" processRspHKMarketOrderInsert.

(** vntaptd.cpp:2272 *)
Definition processRspHKMarketOrderDelete_cast : Task -> option Cell -> option (list Action) :=
  with_cast "TapAPIOrderMarketDeleteRsp" processRspHKMarketOrderDelete.

(** vntaptd.cpp:2318 *)
Definition processHKMarketQuoteNotice_cast : Task -> option Cell -> option (list Action) :=
  with_cast "TapAPIOrderQuoteMarketNotice" processHKMarketQuoteNotice.

(** vntaptd.cpp:2338 *)
Definition processRspOrderLocalRemove_cast : Task -> option Cell -> option (list Action) :=
  with_cast "TapAPIOrderLocalRemoveRsp" processRspOrderLocalRemove.

(** vntaptd.cpp:2354 *)
Definition processRspOrderLocalInput_cast : Task -> option Cell -> option (list Action) :=
  with_cast "TapAPIOrderLocalInputRsp" processRspOrderLocalInput.

(** vntaptd.cpp:2431 *)
Definition processRspOrderLocalModify_cast : Task -> option Cell -> option (list Action) :=
  with_cast "TapAPIOrderLocalModifyRsp" processRspOrderLocalModify.

(** vntaptd.cpp:2508 *)
Definition processRspOrderLocalTransfer_cast : Task -> option Cell -> option (list Action) :=
  with_cast "TapAPIOrderLocalTransferRsp" processRspOrderLocalTransfer.

(** vntaptd.cpp:2585 *)
Definition processRspFillLocalInput_cast : Task -> option Cell -> option (list Action) :=
  with_cast "TapAPIFillLocalInputRsp" processRspFillLocalInput.

(** vntaptd.cpp:2620 *)
Definition processRspFillLocalRemove_cast : Task -> option Cell -> option (list Action) :=
  with_cast "TapAPIFillLocalRemoveRsp" processRspFillLocalRemove.

(** The cases of [processTask]'s switch, with the casts of their process
    functions. *)
Definition cases_cast
  : list (TaskName * (Task -> option Cell -> option (list Action))) :=
  [ (ONCONNECT, without_cast processConnect);
    (ONRSPLOGIN, processRspLogin_cast);
    (ONRTNCONTACTINFO, without_cast processRtnContactInfo);
    (ONRSPREQUESTVERTIFICATECODE, processRspRequestVertificateCode_cast);
    (ONEXPRIATIONDATE, without_cast processExpriationDate);
    (ONAPIREADY, without_cast processAPIReady);
    (ONDISCONNECT, without_cast processDisconnect);
    (ONRSPCHANGEPASSWORD, without_cast processRspChangePassword);
    (ONRSPAUTHPASSWORD, without_cast processRspAuthPassword);
    (ONRSPQRYTRADINGDATE, processRspQryTradingDate_cast);
    (ONRSPSETRESERVEDINFO, without_cast processRspSetReservedInfo);
    (ONRSPQRYACCOUNT, processRspQryAccount_cast);
    (ONRSPQRYFUND, processRspQryFund_cast);
    (ONRTNFUND, processRtnFund_cast);
    (ONRSPQRYEXCHANGE, processRspQryExchange_cast);
    (ONRSPQRYCOMMODITY, processRspQryCommodity_cast);
    (ONRSPQRYCONTRACT, processRspQryContract_cast);
    (ONRTNCONTRACT, processRtnContract_cast);
    (ONRSPORDERACTION, processRspOrderAction_cast);
    (ONRTNORDER, processRtnOrder_cast);
    (ONRSPQRYORDER, processRspQryOrder_cast);
    (ONRSPQRYORDERPROCESS, processRspQryOrderProcess_cast);
    (ONRSPQRYFILL, processRspQryFill_cast);
    (ONRTNFILL, processRtnFill_cast);
    (ONRSPQRYPOSITION, processRspQryPosition_cast);
    (ONRTNPOSITION, processRtnPosition_cast);
    (ONRSPQRYPOSITIONSUMMARY, processRspQryPositionSummary_cast);
    (ONRTNPOSITIONSUMMARY, processRtnPositionSummary_cast);
    (ONRTNPOSITIONPROFIT, processRtnPositionProfit_cast);
    (ONRSPQRYCURRENCY, processRspQryCurrency_cast);
    (ONRSPQRYTRADEMESSAGE, processRspQryTradeMessage_cast);
    (ONRTNTRADEMESSAGE, processRtnTradeMessage_cast);
    (ONRSPQRYHISORDER, processRspQryHisOrder_cast);
    (ONRSPQRYHISORDERPROCESS, processRspQryHisOrderProcess_cast);
    (ONRSPQRYHISMATCH, processRspQryHisMatch_cast);
    (ONRSPQRYHISPOSITION, processRspQryHisPosition_cast);
    (ONRSPQRYHISDELIVERY, processRspQryHisDelivery_cast);
    (ONRSPQRYACCOUNTCASHADJUST, processRspQryAccountCashAdjust_cast);
    (ONRSPQRYBILL, processRspQryBill_cast);
    (ONRSPQRYACCOUNTFEERENT, processRspQryAccountFeeRent_cast);
    (ONRSPQRYACCOUNTMARGINRENT, processRspQryAccountMarginRent_cast);
    (ONRSPHKMARKETORDERINSERT, processRspHKMarketOrderInsert_cast);
    (ONRSPHKMARKETORDERDELETE, processRspHKMarketOrderDelete_cast);
    (ONHKMARKETQUOTENOTICE, processHKMarketQuoteNotice_cast);
    (ONRSPORDERLOCALREMOVE, processRspOrderLocalRemove_cast);
    (ONRSPORDERLOCALINPUT, processRspOrderLocalInput_cast);
    (ONRSPORDERLOCALMODIFY, processRspOrderLocalModify_cast);
    (ONRSPORDERLOCALTRANSFER, processRspOrderLocalTransfer_cast);
    (ONRSPFILLLOCALINPUT, processRspFillLocalInput_cast);
    (ONRSPFILLLOCALREMOVE, processRspFillLocalRemove_cast) ].
(** The switch of [processTask] over [cases_cast]. *)
Fixpoint switch_cast
    (cs : list (TaskName * (Task -> option Cell -> option (list Action))))
    (task : Task) (p : option Cell) : option (list Action) :=
  match cs with
  | [] => Some []
  | (c, body) :: cs' =>
      if task_name task =? tag c then body task p else switch_cast cs' task p
  end.

(** The case of [cs] labelled [t], found by the position of the label. *)
Definition cast_case_of (t : TaskName)
    (cs : list (TaskName * (Task -> option Cell -> option (list Action))))
  : option (Task -> option Cell -> option (list Action)) :=
  snd <$> find (fun c => Nat.eqb (tag_index (fst c)) (tag_index t)) cs.

(** ** The life cycle (vntaptd.cpp:2634-2669) *)

(** The object with what the steps above leave out of [init()] and
    [exit()]: whether [api] points to a live SDK object, and whether
    [task_queue.terminate()] has been called. *)
Record Object := mkObject {
  bridge : TdApi;
  api_live : bool;
  terminated : bool
}.

(** A freshly constructed object: [api] is set by [createFtdcTraderApi]. *)
Definition Object0 : Object := mkObject TdApi0 false false.

(** One turn of the worker's loop, as in [step_turn], on a queue that has
    not been terminated: the worker finds [active] set, [pop] returns the
    front task and the [switch] runs on it.  [terminate()] is declared in
    the absent header with the queue; from then on [pop] is taken to hand
    out no task, which is what [processTask] catches [TerminatedError]
    for. *)
Inductive turn : Object -> Object -> Prop :=
  | turn_pop (o : Object) (k : nat) (task : Task) (rest : list Task) :
      terminated o = false ->
      task_thread (bridge o) = Some k ->
      active (bridge o) = true ->
      task_queue (bridge o) = task :: rest ->
      turn o (mkObject
                (mkTdApi (active (bridge o)) rest
                   (task_thread (bridge o)) (spawned (bridge o))
                   (trace (bridge o)
                    ++ (pair (Worker k) <$> processTask_turn task)))
                (api_live o) (terminated o)).

(** The calls on the object, and the turns of its worker.
    - [call_callback]: some thread runs a callback.
    - [call_createFtdcTraderApi]: [api] is set to the SDK object created,
      with which the object registers.
    - [call_release]: [api->Release()]; the pointer stays, and dangles.
    - [call_init]: [init()] sets [active], creates the worker and calls
      [api->Init()], which needs a live SDK object; assigning to a joinable
      [std::thread] terminates the program.
    - [call_exit]: [exit()] clears [active], terminates the queue, joins
      the worker, unregisters, releases the SDK object and sets [api] to
      null.
    - [call_exit_throws]: without a joinable worker, [join()] throws after
      [active] was cleared and the queue terminated. *)
Inductive call : Object -> Object -> Prop :=
  | call_callback (o : Object) (thr : Thread) (cb : Callback) :
      call o (mkObject
                (mkTdApi (active (bridge o))
                   (task_queue (bridge o) ++ pushed (callback cb))
                   (task_thread (bridge o)) (spawned (bridge o))
                   (trace (bridge o) ++ (pair thr <$> callback cb)))
                (api_live o) (terminated o))
  | call_createFtdcTraderApi (o : Object) :
      call o (mkObject (bridge o) true (terminated o))
  | call_release (o : Object) :
      api_live o = true ->
      call o (mkObject (bridge o) false (terminated o))
  | call_init (o : Object) :
      api_live o = true ->
      task_thread (bridge o) = None ->
      call o (mkObject
                (mkTdApi true (task_queue (bridge o))
                   (Some (spawned (bridge o))) (S (spawned (bridge o)))
                   (trace (bridge o)))
                true (terminated o))
  | call_turn (o o' : Object) :
      turn o o' ->
      call o o'
  | call_exit (o : Object) (k : nat) :
      task_thread (bridge o) = Some k ->
      api_live o = true ->
      call o (mkObject
                (mkTdApi false (task_queue (bridge o)) None
                   (spawned (bridge o)) (trace (bridge o)))
                false true)
  | call_exit_throws (o : Object) :
      task_thread (bridge o) = None ->
      call o (mkObject
                (mkTdApi false (task_queue (bridge o)) None
                   (spawned (bridge o)) (trace (bridge o)))
                (api_live o) true).

(** The objects a program can have. *)
Definition running (o : Object) : Prop := rtc call Object0 o.

(** While the queue has not been terminated, [active] tells whether there
    is a worker. *)
Definition life_inv (o : Object) : Prop :=
  (task_thread (bridge o) = None -> active (bridge o) = false)
  /\ (terminated o = false ->
      is_Some (task_thread (bridge o)) -> active (bridge o) = true).

(** * Properties *)

(** ** The tags *)

Lemma all_tags_index (t : TaskName) : all_tags !! tag_index t = Some t.
Proof. destruct t; reflexivity. Qed.

Lemma tag_index_inj (a b : TaskName) : tag_index a = tag_index b -> a = b.
Proof.
  intros H. pose proof (all_tags_index a) as Ha.
  rewrite H, all_tags_index in Ha. congruence.
Qed.

Lemma tag_index_bound (t : TaskName) : (tag_index t < 50)%nat.
Proof. destruct t; cbn; lia. Qed.

Lemma all_tags_complete (t : TaskName) : t ∈ all_tags.
Proof. apply list_elem_of_lookup. exists (tag_index t). apply all_tags_index. Qed.

Lemma tag_position_inj (a b : TaskName) : tag_position a = tag_position b -> a = b.
Proof. unfold tag_position. intros H. apply tag_index_inj. lia. Qed.

(** At most 50 pairwise distinct things can be numbered below 50. *)
Lemma NoDup_below_50 (l : list nat) :
  NoDup l -> Forall (fun i => (i < 50)%nat) l -> (length l <= 50)%nat.
Proof.
  intros Hnd Hlt.
  assert (l ⊆+ seq 0 50) as Hsub.
  { apply NoDup_submseteq; [exact Hnd|].
    intros i Hi. rewrite Forall_forall in Hlt.
    apply elem_of_seq. specialize (Hlt i Hi). lia. }
  apply submseteq_length in Hsub. rewrite length_seq in Hsub. exact Hsub.
Qed.

(** ** The conversions *)

Lemma to_int_id (z : Z) : - 2 ^ 31 <= z < 2 ^ 31 -> to_int z = z.
Proof. unfold to_int. intros H. rewrite Z.mod_small; lia. Qed.

(** [to_int] keeps the 32-bit word. *)
Lemma to_int_word (z : Z) : to_int z mod 2 ^ 32 = z mod 2 ^ 32.
Proof.
  unfold to_int.
  rewrite Zminus_mod, Zmod_mod, <- Zminus_mod.
  f_equal. lia.
Qed.

Lemma to_int_wrap (z : Z) :
  0 <= z < 2 ^ 32 -> to_int z = if z <? 2 ^ 31 then z else z - 2 ^ 32.
Proof.
  intros Hz. unfold to_int. destruct (Z.ltb_spec z (2 ^ 31)) as [Hlt|Hge].
  - rewrite Z.mod_small; lia.
  - replace (z + 2 ^ 31) with (z - 2 ^ 31 + 1 * 2 ^ 32) by lia.
    rewrite Z_mod_plus_full, Z.mod_small; lia.
Qed.

(** ** The switch *)

(** The tag constants have pairwise distinct values. *)
Hypothesis tag_inj : forall a b : TaskName, tag a = tag b -> a = b.

Lemma switch_case_of cs (t : TaskName) (task : Task) :
  task_name task = tag t ->
  switch cs task = from_option (fun body => body task) [] (case_of t cs).
Proof using tag_inj.
  intros Ht. unfold case_of. induction cs as [|[c body] cs IH]; [reflexivity|].
  cbn [switch find fst]. rewrite Ht.
  destruct (Nat.eqb_spec (tag_index c) (tag_index t)) as [Heq|Hne].
  - apply tag_index_inj in Heq. subst c. rewrite Z.eqb_refl. reflexivity.
  - destruct (Z.eqb_spec (tag t) (tag c)) as [Heq|_].
    + apply tag_inj in Heq. subst c. contradiction.
    + exact IH.
Qed.

(** ** Callback, then replay *)

Lemma replay_by_case (cb : Callback) (task : Task) (t : TaskName)
    (body : Task -> list Action) (h : HandlerCall) :
  callback cb = [Push task] ->
  task_name task = tag t ->
  case_of t cases = Some body ->
  body task = [Invoke h] ->
  replay cb = [h].
Proof using tag_inj.
  intros Hcb Ht Hcase Hbody. unfold replay. rewrite Hcb.
  change (pushed [Push task]) with [task].
  change (flat_map processTask_turn [task]) with (processTask_turn task ++ []).
  rewrite app_nil_r. unfold processTask_turn.
  change (invoked (Pop task :: switch cases task))
    with (invoked (switch cases task)).
  rewrite (switch_case_of _ t) by exact Ht.
  rewrite Hcase. cbn [from_option]. rewrite Hbody. reflexivity.
Qed.

Ltac by_case :=
  eapply replay_by_case; [reflexivity | reflexivity | reflexivity | reflexivity].

Ltac each_callback cb :=
  destruct cb;
  repeat match goal with p : option Struct |- _ => destruct p end.

(** X1.  Every callback but [OnRspQryAccount], followed by its replay, calls
    the handler of the same name once and hands it its scalars:
    [errorCode] as it is, [sessionID] converted to [int] (the same 32-bit
    word), [isLast] converted to [bool]. *)
Lemma replay_fidelity (cb : Callback) :
  cb_tag cb <> ONRSPQRYACCOUNT ->
  exists h, replay cb = [h]
    /\ h_name h = cb_tag cb
    /\ h_session h = to_int <$> cb_session cb
    /\ h_error h = cb_error cb
    /\ h_last h = to_bool <$> cb_last cb.
Proof using tag_inj.
  intros Hne.
  each_callback cb; try (exfalso; apply Hne; reflexivity);
    (eexists; split; [by_case | repeat split]).
Qed.

Lemma cb_tag_index (cb : Callback) : tag_index (cb_tag cb) = cb_index cb.
Proof. destruct cb; reflexivity. Qed.

Lemma cb_index_bound (cb : Callback) : (cb_index cb < 50)%nat.
Proof. rewrite <- cb_tag_index. apply tag_index_bound. Qed.

(** What each callback does: one push, of a task tagged with the
    callback's own constant and owning a copy of the payload. *)
Lemma callback_pushes (cb : Callback) :
  exists task, callback cb = [Push task]
    /\ task_name task = tag (cb_tag cb)
    /\ task_data task = mjoin (cb_payload cb).
Proof.
  each_callback cb; (eexists; split; [reflexivity | split; reflexivity]).
Qed.

(** ** Filling the dict *)








(** The dict a handler gets for a payload is the filled body. *)
Lemma replay_payload (cb : Callback) (s : Struct) :
  cb_payload cb = Some (Some s) ->
  exists h, replay cb = [h] /\ h_name h = cb_tag cb
    /\ h_data h = Some (fill (copied (cb_tag cb)) s ∅).
Proof using tag_inj.
  intros Hp.
  each_callback cb; try discriminate Hp;
    cbn in Hp; injection Hp as ->;
    (eexists; split; [by_case | split; reflexivity]).
Qed.

(** X2.  With a null payload the task is pushed all the same, tagged with
    the callback's constant, and the handler of the same name is called
    once with the empty dict; but for [OnRspQryAccount], the scalars are
    delivered as in the general case. *)
Lemma replay_null_payload (cb : Callback) :
  cb_payload cb = Some None ->
  exists task h, callback cb = [Push task]
    /\ task_name task = tag (cb_tag cb)
    /\ replay cb = [h]
    /\ h_name h = cb_tag cb
    /\ h_data h = Some ∅
    /\ (cb_tag cb <> ONRSPQRYACCOUNT ->
        h_session h = to_int <$> cb_session cb
        /\ h_error h = cb_error cb
        /\ h_last h = to_bool <$> cb_last cb).
Proof using tag_inj.
  intros Hp.
  each_callback cb; try discriminate Hp;
    (do 2 eexists; split; [reflexivity|]; split; [reflexivity|];
     split; [by_case|]; split; [reflexivity|]; split; [reflexivity|];
     intros Hne; try (exfalso; apply Hne; reflexivity); repeat split).
Qed.

(** ** The worker thread *)

(** X3.  A task whose tag is none of the constants runs no case: the switch
    has no [default], the loop calls no handler and drops the task. *)
Lemma switch_unknown_tag (task : Task) :
  (forall t : TaskName, task_name task <> tag t) -> switch cases task = [].
Proof.
  intros Hno. generalize cases as cs.
  induction cs as [|[c body] cs IH]; [reflexivity|].
  cbn [switch]. destruct (Z.eqb_spec (task_name task) (tag c)) as [Heq|_].
  - destruct (Hno c Heq).
  - exact IH.
Qed.

(** Every case of the switch calls one handler and does nothing else. *)
Lemma cases_invoke_once :
  Forall (fun c => forall task : Task, exists h, snd c task = [Invoke h]) cases.
Proof.
  unfold cases. repeat constructor; intros task; eexists; reflexivity.
Qed.

Lemma switch_outcome (task : Task) :
  switch cases task = [] \/ exists h, switch cases task = [Invoke h].
Proof.
  pose proof cases_invoke_once as Hall. revert Hall.
  generalize cases as cs. induction cs as [|[c body] cs IH]; intros Hall.
  - left. reflexivity.
  - cbn [switch]. apply Forall_cons in Hall as [Hc Hall].
    destruct (task_name task =? tag c).
    + right. apply (Hc task).
    + apply IH, Hall.
Qed.

Lemma turn_pushed (task : Task) : pushed (processTask_turn task) = [].
Proof.
  unfold processTask_turn.
  destruct (switch_outcome task) as [->|[h ->]]; reflexivity.
Qed.

Lemma turn_popped (task : Task) : popped (processTask_turn task) = [task].
Proof.
  unfold processTask_turn.
  destruct (switch_outcome task) as [->|[h ->]]; reflexivity.
Qed.

Lemma callback_only_pushes (cb : Callback) :
  invoked (callback cb) = [] /\ popped (callback cb) = []
  /\ forall a, a ∈ callback cb -> exists task, a = Push task.
Proof.
  destruct (callback_pushes cb) as (task & -> & _).
  repeat split. intros a Ha. apply list_elem_of_singleton in Ha. eauto.
Qed.

Lemma actions_app (s : TdApi) (thr : Thread) (acts : list Action) :
  snd <$> (trace s ++ (pair thr <$> acts)) = actions s ++ acts.
Proof.
  unfold actions. rewrite fmap_app, <- list_fmap_compose.
  f_equal. apply list_fmap_id.
Qed.

Lemma queue_invariant (s : TdApi) : reachable s -> queue_inv s.
Proof.
  unfold reachable. intros Hs.
  apply (rtc_ind_r (R:=step) queue_inv TdApi0); [split; reflexivity | | exact Hs].
  clear s Hs. unfold queue_inv. intros s s' _ Hstep [IHq IHh].
  destruct Hstep as [s thr cb|s Hnone|s k task rest Hk Hact Hq|s k Hk];
    unfold actions in *; cbn [trace task_queue] in *;
    try (split; assumption).
  - rewrite actions_app. unfold actions, pushed, popped, invoked in *.
    rewrite !omap_app.
    destruct (callback_only_pushes cb) as (Hi & Hp & _).
    unfold invoked, popped in Hi, Hp. rewrite Hi, Hp, !app_nil_r.
    split; [|exact IHh]. rewrite app_assoc. f_equal. exact IHq.
  - rewrite actions_app. pose proof (turn_pushed task) as Hpu.
    pose proof (turn_popped task) as Hpo.
    unfold actions, pushed, popped, invoked in *.
    rewrite !omap_app. rewrite Hpu, Hpo, app_nil_r. split.
    + rewrite <- IHq, Hq, <- app_assoc. reflexivity.
    + rewrite IHh, flat_map_app. cbn [flat_map]. rewrite app_nil_r.
      reflexivity.
Qed.

Lemma consumers_callback (thr : Thread) (cb : Callback) :
  consumers (pair thr <$> callback cb) = [].
Proof. destruct (callback_pushes cb) as (task & -> & _). reflexivity. Qed.

Lemma consumers_turn (k : nat) (task : Task) :
  Forall (eq k) (consumers (pair (Worker k) <$> processTask_turn task)).
Proof.
  unfold processTask_turn.
  destruct (switch_outcome task) as [->|[h ->]]; repeat constructor.
Qed.

Lemma consumers_spawned (s : TdApi) :
  (forall thr a, (thr, a) ∈ trace s -> (forall task, a <> Push task) ->
     exists k, thr = Worker k /\ (k < spawned s)%nat) ->
  Forall (fun k => (k < spawned s)%nat) (consumers (trace s)).
Proof.
  intros Ha. apply Forall_forall. intros k Hk.
  unfold consumers in Hk. apply list_elem_of_omap in Hk as ([thr a] & Hin & Hk).
  cbn [fst snd] in Hk.
  destruct a as [task|task|h]; try discriminate Hk;
    (destruct (Ha _ _ Hin) as (k' & -> & Hlt); [discriminate|];
     injection Hk as <-; exact Hlt).
Qed.

Lemma StronglySorted_constant (k : nat) (l : list nat) :
  Forall (eq k) l -> StronglySorted le l.
Proof.
  intros Hall. induction l as [|x l IH]; [constructor|].
  apply Forall_cons in Hall as [<- Hall].
  constructor; [apply IH, Hall|].
  eapply Forall_impl; [exact Hall|]. intros ? <-. apply le_n.
Qed.

Lemma worker_invariant (s : TdApi) : reachable s -> worker_inv s.
Proof.
  unfold reachable. intros Hs.
  apply (rtc_ind_r (R:=step) worker_inv TdApi0); [ | | exact Hs]; clear s Hs;
    unfold worker_inv.
  - split; [discriminate|]. split; [|constructor].
    intros thr a Ha. inversion Ha.
  - intros s s' _ Hstep (IHt & IHa & IHs).
    pose proof (consumers_spawned s IHa) as Hlt.
    destruct Hstep as [s thr' cb|s Hnone|s k' task rest Hk Hact Hq|s k' Hk];
      cbn [trace task_thread spawned] in *.
    + split; [exact IHt|]. split.
      * intros thr a Ha Hnp.
        apply elem_of_app in Ha as [Ha|Ha]; [exact (IHa _ _ Ha Hnp)|].
        apply list_elem_of_fmap in Ha as (a' & [= -> ->] & Ha').
        destruct (callback_only_pushes cb) as (_ & _ & Hp).
        destruct (Hp _ Ha') as [task ->]. destruct (Hnp task eq_refl).
      * unfold consumers in *. rewrite omap_app.
        fold (consumers (pair thr' <$> callback cb)).
        rewrite consumers_callback, app_nil_r. exact IHs.
    + split; [intros k [= <-]; reflexivity|]. split; [|exact IHs].
      intros thr a Ha Hnp. destruct (IHa _ _ Ha Hnp) as (k & -> & Hk).
      exists k. split; [reflexivity | lia].
    + pose proof (IHt _ Hk) as Hlast.
      split; [exact IHt|]. split.
      * intros thr a Ha Hnp.
        apply elem_of_app in Ha as [Ha|Ha]; [exact (IHa _ _ Ha Hnp)|].
        apply list_elem_of_fmap in Ha as (a' & [= -> ->] & _).
        exists k'. split; [reflexivity | lia].
      * pose proof (consumers_turn k' task) as Hturn.
        unfold consumers in *. rewrite omap_app.
        apply StronglySorted_app_2; [|exact IHs|].
        -- intros k1 k2 Hk1 Hk2. rewrite Forall_forall in Hlt, Hturn.
           specialize (Hlt _ Hk1). rewrite <- (Hturn _ Hk2). lia.
        -- apply (StronglySorted_constant k'), Hturn.
    + split; [discriminate|]. split; assumption.
Qed.

(** ** The claims *)

(** C2 (amended).  Exhaustive dispatch: [processTask]'s switch has 50
    cases; for every task whose [task_name] is one of the 50 event tags
    ([ONCONNECT] through [ONRSPFILLLOCALREMOVE]) the turn of the loop that
    popped it runs the case labelled with that tag, whose process function
    calls the handler of the same name exactly once, so the task is not
    dropped. *)
Theorem C2_processTask_dispatches_every_tag (t : TaskName) (task : Task) :
  task_name task = tag t ->
  exists body h,
    (t, body) ∈ cases
    /\ switch cases task = body task
    /\ body task = [Invoke h]
    /\ h_name h = t
    /\ processTask_turn task = [Pop task; Invoke h]
    /\ length cases = 50%nat.
Proof using tag_inj.
  intros Ht. unfold processTask_turn.
  rewrite (switch_case_of _ t) by exact Ht.
  destruct t;
    (do 2 eexists; split;
     [ match goal with
       | |- (?c, _) ∈ _ =>
           apply list_elem_of_lookup; exists (tag_index c); reflexivity
       end
     | repeat split; reflexivity ]).
Qed.

(** C3 (amended).  Distinct tagging: each of the 50 callbacks ([OnConnect]
    through [OnRspFillLocalRemove]) pushes exactly one task per invocation
    and does nothing else; the task carries the constant named after the
    callback, and a task pushed by a different callback carries a
    different tag. *)
Theorem C3_callbacks_push_one_task_with_own_tag (cb : Callback) :
  exists task,
    callback cb = [Push task]
    /\ task_name task = tag (cb_tag cb)
    /\ (cb_index cb < 50)%nat
    /\ forall cb' task',
         callback cb' = [Push task'] ->
         cb_index cb' <> cb_index cb ->
         task_name task' <> task_name task.
Proof using tag_inj.
  destruct (callback_pushes cb) as (task & Hcb & Ht & _).
  exists task. split; [exact Hcb|]. split; [exact Ht|].
  split; [apply cb_index_bound|].
  intros cb' task' Hcb' Hne Heq.
  destruct (callback_pushes cb') as (task'' & Hcb'' & Ht' & _).
  rewrite Hcb' in Hcb''. injection Hcb'' as <-.
  rewrite Ht, Ht' in Heq. apply tag_inj in Heq.
  apply Hne. rewrite <- !cb_tag_index, Heq. reflexivity.
Qed.




(** C5 (amended).  For every [sessionID] and every [errorCode] an
    [unsigned int] can hold, [OnRspQryAccount] followed by its replay calls
    [onRspQryAccount] once, with both the session argument and the error
    argument equal to [errorCode] converted to the [int] of the handler's
    parameters: [errorCode] itself below 2^31, and [errorCode - 2^32] from
    there on; the call does not depend on [sessionID], which is never
    delivered. *)
Theorem C5_OnRspQryAccount_delivers_errorCode_twice
    (sessionID errorCode isLast : Z) (info : option Struct) :
  0 <= errorCode < 2 ^ 32 ->
  (exists data,
     replay (CbRspQryAccount sessionID errorCode isLast info)
     = [onRspQryAccount (to_int errorCode) (to_int errorCode)
          (to_bool isLast) data])
  /\ to_int errorCode
     = (if errorCode <? 2 ^ 31 then errorCode else errorCode - 2 ^ 32)
  /\ (forall sessionID' : Z,
        replay (CbRspQryAccount sessionID' errorCode isLast info)
        = replay (CbRspQryAccount sessionID errorCode isLast info)).
Proof using tag_inj.
  intros Hrange. split; [|split].
  - destruct info; eexists; by_case.
  - apply to_int_wrap, Hrange.
  - intros sessionID'.
    destruct info; (etransitivity; [by_case | symmetry; by_case]).
Qed.

(** C6.  Decoupling: the body of a callback only pushes, it neither pops
    nor calls a handler; in every state the object can reach, each pop and
    each handler call in the trace was made by a worker thread created by
    [init]; there is one such thread at a time, the last one created, and
    the workers of successive [init]s take turns in the trace, none acting
    after a later one has. *)
Theorem C6_handlers_run_on_the_worker_thread (s : TdApi) :
  reachable s ->
  (forall cb : Callback,
     invoked (callback cb) = [] /\ popped (callback cb) = [])
  /\ (forall thr a, (thr, a) ∈ trace s -> (forall task, a <> Push task) ->
        exists k, thr = Worker k /\ (k < spawned s)%nat)
  /\ (forall k, task_thread s = Some k -> S k = spawned s)
  /\ StronglySorted le (consumers (trace s)).
Proof.
  intros Hs. destruct (worker_invariant s Hs) as (Ht & Ha & Hsorted).
  split; [|split; [|split]; assumption].
  intros cb. destruct (callback_only_pushes cb) as (Hi & Hp & _).
  split; assumption.
Qed.

(** C7.  FIFO replay order: in every state the object can reach, the tasks
    popped so far followed by the tasks still queued are the tasks pushed,
    in the order of the pushes, and the handler calls made so far followed
    by those the queued tasks will cause are the handler calls of the
    pushed tasks in push order: no task is replayed before one pushed
    earlier. *)
Theorem C7_handlers_follow_push_order (s : TdApi) :
  reachable s ->
  popped (actions s) ++ task_queue s = pushed (actions s)
  /\ invoked (actions s) ++ flat_map handled (task_queue s)
     = flat_map handled (pushed (actions s)).
Proof.
  intros Hs. destruct (queue_invariant s Hs) as [Hq Hh].
  split; [exact Hq|]. rewrite <- Hq, flat_map_app, Hh. reflexivity.
Qed.

(** C8.  [qryAccount] never reads its [req] argument: for every session
    and any two request dicts it sends the same request, a zeroed
    [TapAPIAccQryReq], and returns the same result; [qryFund] on the other
    hand sends what [getString] makes of the entry ["AccountNo"] of
    [req]. *)
Theorem C8_qryAccount_ignores_req (session : Z) (req1 req2 : dict) :
  qryAccount session req1 = qryAccount session req2
  /\ qryAccount session req1
     = (QryAccount session zeroed, api (QryAccount session zeroed))
  /\ fst (qryFund session req1)
     = QryFund session
         (set_field "AccountNo" (getString req1 "AccountNo" czero) zeroed).
Proof. repeat split. Qed.

(** ** The queries *)

Lemma read_lookup (req : dict) (s : Struct) (r : Read) (f : string) :
  read req s r f
  = if decide (f = read_field r)
    then get (read_getter r) req (read_key r) (s (read_field r))
    else s f.
Proof. reflexivity. Qed.

Lemma build_snoc (reads : list Read) (r : Read) (req : dict) :
  build (reads ++ [r]) req = read req (build reads req) r.
Proof. unfold build. apply foldl_snoc. Qed.

(** A field no read names keeps the zero of [memset]. *)
Lemma build_other (reads : list Read) (req : dict) (f : string) :
  f ∉ read_field <$> reads -> build reads req f = czero.
Proof.
  induction reads as [|r reads IH] using rev_ind; intros Hf; [reflexivity|].
  rewrite build_snoc, read_lookup.
  rewrite fmap_app, not_elem_of_app in Hf. destruct Hf as [Hreads Hr].
  cbn in Hr. rewrite list_elem_of_singleton in Hr.
  destruct (decide (f = read_field r)) as [Heq|_]; [contradiction|].
  apply IH, Hreads.
Qed.

(** A field read once holds what the getter makes of the zeroed field. *)
Lemma build_field (reads : list Read) (req : dict) (r : Read) :
  NoDup (read_field <$> reads) -> r ∈ reads ->
  build reads req (read_field r)
  = get (read_getter r) req (read_key r) czero.
Proof.
  induction reads as [|r' reads IH] using rev_ind; intros Hnd Hr.
  - inversion Hr.
  - rewrite build_snoc, read_lookup. rewrite fmap_app in Hnd.
    apply NoDup_app in Hnd as (Hnd & Hdisj & _).
    apply elem_of_app in Hr as [Hr|Hr].
    + destruct (decide (read_field r = read_field r')) as [Heq|_].
      * exfalso. apply (Hdisj (read_field r)).
        -- apply list_elem_of_fmap. exists r. split; [reflexivity | exact Hr].
        -- rewrite Heq. cbn. apply list_elem_of_here.
      * apply IH; assumption.
    + apply list_elem_of_singleton in Hr. subst r'.
      rewrite decide_True by reflexivity.
      rewrite build_other; [reflexivity|].
      intros Hin. apply (Hdisj _ Hin). cbn. apply list_elem_of_here.
Qed.

(** In every query the key read is the name of the field written, and no
    field is written twice. *)
Lemma reads_by_name (q : SdkQuery) (reads : list Read) :
  reads_of q = Some reads ->
  NoDup (read_field <$> reads)
  /\ Forall (fun r => read_key r = read_field r) reads.
Proof.
  intros Hq.
  destruct q; try discriminate Hq; injection Hq as <-;
    (split;
     [ apply (bool_decide_unpack (NoDup _))
     | apply (bool_decide_unpack (Forall _ _)) ];
     vm_compute; exact I).
Qed.

Lemma sent_build (q : SdkQuery) (session : Z) (req : dict) :
  sent q session req
  = mkSdkCall q session ((fun reads => build reads req) <$> reads_of q).
Proof. destruct q; reflexivity. Qed.

(** Two dicts of which the getters make the same give the same struct. *)
Lemma build_agree (reads : list Read) (req1 req2 : dict) :
  NoDup (read_field <$> reads) ->
  (forall r, r ∈ reads ->
     get (read_getter r) req1 (read_key r) czero
     = get (read_getter r) req2 (read_key r) czero) ->
  build reads req1 = build reads req2.
Proof.
  induction reads as [|r reads IH] using rev_ind; intros Hnd Hget;
    [reflexivity|].
  rewrite !build_snoc. rewrite fmap_app in Hnd.
  apply NoDup_app in Hnd as (Hnd & Hdisj & _).
  assert (read_field r ∉ read_field <$> reads) as Hfresh.
  { intros Hin. apply (Hdisj _ Hin). cbn. apply list_elem_of_here. }
  assert (build reads req1 = build reads req2) as Hreads.
  { apply IH; [exact Hnd|].
    intros r' Hr'. apply Hget, elem_of_app. left. exact Hr'. }
  unfold read. rewrite <- Hreads.
  rewrite build_other by exact Hfresh.
  rewrite (Hget r); [reflexivity|].
  apply elem_of_app. right. apply list_elem_of_here.
Qed.

(** X4.  What a query sends: the SDK function of its name, the session as
    given and, when it takes [req], a request struct in which every field
    it reads holds what the getter makes of the entry of [req] named like
    the field, starting from a zeroed field, and every other field is
    zero. *)
Theorem query_request_fields (q : SdkQuery) (session : Z) (req : dict) :
  exists myreq : option Struct,
    sent q session req = mkSdkCall q session myreq
    /\ match reads_of q with
       | None => myreq = None
       | Some reads =>
           exists s : Struct,
             myreq = Some s
             /\ (forall r, r ∈ reads ->
                   read_key r = read_field r
                   /\ s (read_field r)
                      = get (read_getter r) req (read_field r) czero)
             /\ (forall f, f ∉ read_field <$> reads -> s f = czero)
       end.
Proof.
  rewrite sent_build. eexists. split; [reflexivity|].
  destruct (reads_of q) as [reads|] eqn:Hq; [|reflexivity].
  destruct (reads_by_name q reads Hq) as [Hnd Hname].
  rewrite Forall_forall in Hname.
  exists (build reads req). split; [reflexivity|]. split.
  - intros r Hr. split; [apply Hname, Hr|].
    rewrite <- (Hname r Hr) at 2. apply build_field; assumption.
  - intros f Hf. apply build_other, Hf.
Qed.

(** X5.  A query looks at [req] only through the entries it names: two
    dicts of which the getters make the same, for every read of the
    function, lead to the same call. *)
Theorem query_ignores_other_entries
    (q : SdkQuery) (session : Z) (req1 req2 : dict) :
  (forall reads r, reads_of q = Some reads -> r ∈ reads ->
     get (read_getter r) req1 (read_key r) czero
     = get (read_getter r) req2 (read_key r) czero) ->
  sent q session req1 = sent q session req2.
Proof.
  intros Hget. rewrite !sent_build.
  destruct (reads_of q) as [reads|] eqn:Hq; [|reflexivity].
  cbn. f_equal. f_equal.
  destruct (reads_by_name q reads Hq) as [Hnd _].
  apply build_agree; [exact Hnd|]. intros r Hr. exact (Hget reads r eq_refl Hr).
Qed.

(** ** Callbacks received and handlers called *)

Lemma invoked_flat_map {A : Type} (f : A -> list Action) (l : list A) :
  invoked (flat_map f l) = flat_map (fun x => invoked (f x)) l.
Proof.
  induction l as [|x l IH]; [reflexivity|].
  cbn [flat_map]. unfold invoked in *. rewrite omap_app, IH. reflexivity.
Qed.

Lemma replay_handled (cb : Callback) :
  replay cb = flat_map handled (pushed (callback cb)).
Proof. unfold replay. apply invoked_flat_map. Qed.

Lemma replay_tasks_of (cbs : list Callback) :
  flat_map handled (tasks_of cbs) = flat_map replay cbs.
Proof.
  unfold tasks_of. induction cbs as [|cb cbs IH]; [reflexivity|].
  cbn [flat_map]. rewrite flat_map_app, IH, replay_handled. reflexivity.
Qed.

Lemma replay_once (cb : Callback) :
  exists h, replay cb = [h] /\ h_name h = cb_tag cb.
Proof using tag_inj.
  each_callback cb; (eexists; split; [by_case | reflexivity]).
Qed.

Lemma replay_names (cbs : list Callback) :
  h_name <$> flat_map replay cbs = cb_tag <$> cbs.
Proof using tag_inj.
  induction cbs as [|cb cbs IH]; [reflexivity|].
  cbn [flat_map]. destruct (replay_once cb) as (h & -> & Hh).
  cbn. rewrite Hh. f_equal. exact IH.
Qed.

(** The tasks pushed so far are those of the callbacks received. *)
Lemma pushed_by_callbacks (s : TdApi) :
  reachable s -> exists cbs, pushed (actions s) = tasks_of cbs.
Proof.
  unfold reachable. intros Hs.
  apply (rtc_ind_r (R:=step)
           (fun s => exists cbs, pushed (actions s) = tasks_of cbs) TdApi0);
    [exists []; reflexivity | | exact Hs].
  clear s Hs. intros s s' _ Hstep [cbs IH].
  destruct Hstep as [s thr cb|s Hnone|s k task rest Hk Hact Hq|s k Hk];
    unfold actions in *; cbn [trace] in *; try (exists cbs; exact IH).
  - exists (cbs ++ [cb]). rewrite actions_app. unfold actions, pushed in *.
    rewrite omap_app, IH. unfold tasks_of. rewrite flat_map_app.
    cbn [flat_map]. rewrite app_nil_r. reflexivity.
  - exists cbs. rewrite actions_app. pose proof (turn_pushed task) as Hpu.
    unfold actions, pushed in *. rewrite omap_app, Hpu, app_nil_r. exact IH.
Qed.

(** X6.  End to end: in every state the object can reach, the handler calls
    made so far, followed by those the queued tasks will cause, are the
    replays of the callbacks received, one handler call per callback, of
    the handler named after the callback and in the order of arrival; and
    every task popped so far has had exactly one handler call. *)
Theorem handlers_replay_the_callbacks_received (s : TdApi) :
  reachable s ->
  exists cbs : list Callback,
    pushed (actions s) = tasks_of cbs
    /\ invoked (actions s) ++ flat_map handled (task_queue s)
       = flat_map replay cbs
    /\ h_name <$> flat_map replay cbs = cb_tag <$> cbs
    /\ length (invoked (actions s)) = length (popped (actions s)).
Proof using tag_inj.
  intros Hs. destruct (pushed_by_callbacks s Hs) as [cbs Hcbs].
  destruct (queue_invariant s Hs) as [Hq Hh].
  assert (invoked (actions s) ++ flat_map handled (task_queue s)
          = flat_map replay cbs) as Hall.
  { rewrite Hh, <- flat_map_app, Hq, Hcbs. apply replay_tasks_of. }
  exists cbs. split; [exact Hcbs|]. split; [exact Hall|].
  split; [apply replay_names|].
  assert (forall tasks : list Task,
            Forall (fun task => exists h, handled task = [h]) tasks ->
            length (flat_map handled tasks) = length tasks) as Hlen.
  { induction 1 as [|task tasks [h Hh'] _ IH]; [reflexivity|].
    cbn [flat_map]. rewrite Hh'. cbn. f_equal. exact IH. }
  rewrite Hh. apply Hlen.
  assert (Forall (fun task => exists h, handled task = [h]) (tasks_of cbs))
    as Hone.
  { clear - tag_inj. unfold tasks_of. induction cbs as [|cb cbs IH]; [constructor|].
    cbn [flat_map]. apply Forall_app. split; [|exact IH].
    destruct (replay_once cb) as (h & Hr & _).
    destruct (callback_pushes cb) as (task & Hcb & _).
    rewrite replay_handled, Hcb in Hr. rewrite Hcb.
    cbn in Hr. rewrite app_nil_r in Hr.
    repeat constructor. exists h. exact Hr. }
  rewrite <- Hcbs, <- Hq in Hone. apply Forall_app in Hone as [Hone _].
  exact Hone.
Qed.

Lemma only_pushes_so_far (tr : list (Thread * Action)) :
  (forall thr a, (thr, a) ∈ tr -> exists task, a = Push task) ->
  popped (snd <$> tr) = [] /\ invoked (snd <$> tr) = [].
Proof.
  induction tr as [|[thr a] tr IH]; intros Hall; [split; reflexivity|].
  destruct (Hall thr a (list_elem_of_here _ _)) as [task ->].
  destruct IH as [IHp IHi].
  { intros thr' a' Hin. apply (Hall thr' a'). apply list_elem_of_further, Hin. }
  split; cbn; assumption.
Qed.

(** X7.  Before the first [init()] nothing is replayed and nothing is lost:
    no handler has been called and the queue holds every task pushed so
    far, oldest first. *)
Theorem before_init_tasks_wait_in_the_queue (s : TdApi) :
  reachable s ->
  spawned s = 0%nat ->
  invoked (actions s) = [] /\ task_queue s = pushed (actions s).
Proof.
  intros Hs H0. destruct (worker_invariant s Hs) as (_ & Ha & _).
  destruct (queue_invariant s Hs) as [Hq _].
  destruct (only_pushes_so_far (trace s)) as [Hp Hi].
  { intros thr a Hin. destruct a as [task|task|h]; [eauto| |];
      (destruct (Ha _ _ Hin) as (k & _ & Hk); [discriminate | lia]). }
  unfold actions in *. split; [exact Hi|]. rewrite Hp in Hq. exact Hq.
Qed.

Lemma turns_push_nothing (tasks : list Task) :
  pushed (flat_map processTask_turn tasks) = [].
Proof.
  induction tasks as [|task rest IH]; [reflexivity|].
  cbn [flat_map]. unfold pushed in *. rewrite omap_app.
  fold (pushed (processTask_turn task)). rewrite turn_pushed. exact IH.
Qed.

(** ** The life cycle *)

Lemma call_life_inv (o o' : Object) : life_inv o -> call o o' -> life_inv o'.
Proof.
  intros [Hnone Hsome] Hcall.
  destruct Hcall as [o thr cb|o|o Hl|o Hl Hn|o o' Hturn|o k Hk Hl|o Hn];
    try destruct Hturn as [o k task rest Ht Hk Hact Hq];
    split; cbn; intros; try discriminate; try reflexivity; auto.
Qed.

(** A call is a step of the object, or leaves its queue and worker as they
    are. *)
Lemma call_step (o o' : Object) :
  life_inv o -> call o o' ->
  bridge o' = bridge o \/ step (bridge o) (bridge o').
Proof.
  intros [Hnone _] Hcall.
  destruct Hcall as [o thr cb|o|o Hl|o Hl Hn|o o' Hturn|o k Hk Hl|o Hn].
  - right. apply step_callback.
  - left. reflexivity.
  - left. reflexivity.
  - right. apply step_init. exact Hn.
  - right. destruct Hturn as [o k task rest Ht Hk Hact Hq].
    apply step_turn; assumption.
  - right. apply (step_exit _ k). exact Hk.
  - left. specialize (Hnone Hn).
    destruct o as [[a q t n tr] l tm]. cbn in *. subst. reflexivity.
Qed.

Lemma running_reachable (o : Object) :
  running o -> reachable (bridge o) /\ life_inv o.
Proof.
  unfold running. intros Ho.
  apply (rtc_ind_r (R:=call)
           (fun o => reachable (bridge o) /\ life_inv o) Object0);
    [ | | exact Ho].
  - split; [apply rtc_refl|]. split; cbn; [reflexivity|].
    intros _ [k Hk]. discriminate Hk.
  - clear o Ho. intros o o' _ Hcall [Hr Hinv].
    split; [|exact (call_life_inv _ _ Hinv Hcall)].
    destruct (call_step _ _ Hinv Hcall) as [->|Hstep]; [exact Hr|].
    unfold reachable in *. eapply rtc_r; eassumption.
Qed.

(** With a worker, [active] set and a queue that is not terminated, turns
    empty the queue. *)
Lemma turns_empty_the_queue (o : Object) (k : nat) :
  terminated o = false ->
  task_thread (bridge o) = Some k ->
  active (bridge o) = true ->
  exists o', rtc turn o o'
    /\ task_queue (bridge o') = []
    /\ actions (bridge o')
       = actions (bridge o) ++ flat_map processTask_turn (task_queue (bridge o)).
Proof.
  remember (task_queue (bridge o)) as q eqn:Hq. revert o Hq.
  induction q as [|task rest IH]; intros o Hq Ht Hk Hact.
  - exists o. rewrite app_nil_r. repeat split; [apply rtc_refl | congruence].
  - pose proof (turn_pop o k task rest Ht Hk Hact (eq_sym Hq)) as Hturn.
    match type of Hturn with
    | turn _ ?o1 =>
        destruct (IH o1 eq_refl Ht Hk Hact) as (o' & Hrtc & Hq' & Hacts)
    end.
    exists o'. split; [eapply rtc_l; eassumption|].
    split; [exact Hq'|].
    rewrite Hacts. unfold actions at 1. cbn [trace bridge].
    rewrite actions_app. cbn [flat_map]. rewrite <- app_assoc. reflexivity.
Qed.

(** X8.  Nothing stays behind: whatever has been called on the object, as
    long as it has a worker and its queue has not been terminated (so
    [exit()] has not been called), turns of the worker alone lead to an
    empty queue, and the handler calls made by then are those of all the
    tasks ever pushed, in the order of the pushes. *)
Theorem worker_can_replay_every_pushed_task (o : Object) (k : nat) :
  running o ->
  task_thread (bridge o) = Some k ->
  terminated o = false ->
  exists o',
    rtc turn o o'
    /\ task_queue (bridge o') = []
    /\ pushed (actions (bridge o')) = pushed (actions (bridge o))
    /\ invoked (actions (bridge o'))
       = flat_map handled (pushed (actions (bridge o))).
Proof.
  intros Ho Hk Ht.
  destruct (running_reachable o Ho) as [_ [_ Hact]].
  specialize (Hact Ht (ex_intro _ k Hk)).
  destruct (turns_empty_the_queue o k Ht Hk Hact) as (o' & Hrtc & Hq' & Hacts).
  assert (running o') as Ho'.
  { unfold running in *. eapply rtc_trans; [exact Ho|].
    clear - Hrtc. induction Hrtc as [|a b c Hab _ IH]; [apply rtc_refl|].
    eapply rtc_l; [apply call_turn; exact Hab | exact IH]. }
  destruct (running_reachable o' Ho') as [Hs' _].
  destruct (queue_invariant _ Hs') as [Hq Hh].
  assert (pushed (actions (bridge o')) = pushed (actions (bridge o))) as Hpu.
  { rewrite Hacts. unfold pushed. rewrite omap_app.
    fold (pushed (flat_map processTask_turn (task_queue (bridge o)))).
    rewrite turns_push_nothing. apply app_nil_r. }
  exists o'. split; [exact Hrtc|]. split; [exact Hq'|]. split; [exact Hpu|].
  rewrite Hh, <- Hpu, <- Hq, Hq', app_nil_r. reflexivity.
Qed.

(** ** More on what a handler receives *)

(** X9.  The string argument of a callback ([ContactInfo], [date], [info])
    and its [int] argument that is no error code ([days], [reasonCode])
    reach the handler unchanged; this holds for every callback,
    [OnRspQryAccount] included. *)
Theorem replay_delivers_text_and_number (cb : Callback) :
  exists h, replay cb = [h]
    /\ h_name h = cb_tag cb
    /\ h_text h = cb_text cb
    /\ h_number h = cb_number cb.
Proof using tag_inj.
  each_callback cb; (eexists; split; [by_case | repeat split]).
Qed.

(** X10.  The payload pointer has no influence on the other arguments: a
    callback called with another payload, null or not, leads to a call of
    the same handler with the same session, error, last, string and
    number. *)
Theorem scalars_do_not_depend_on_the_payload
    (cb : Callback) (p : option Struct) :
  exists h h',
    replay cb = [h]
    /\ replay (with_payload p cb) = [h']
    /\ h_name h' = h_name h
    /\ h_session h' = h_session h
    /\ h_error h' = h_error h
    /\ h_last h' = h_last h
    /\ h_text h' = h_text h
    /\ h_number h' = h_number h.
Proof using tag_inj.
  each_callback cb;
    (do 2 eexists; split; [by_case|]; split; [by_case|]; repeat split).
Qed.

Lemma allocated_cast_to (cb : Callback) : allocated cb = cast_to (cb_tag cb).
Proof. destruct cb; reflexivity. Qed.

Lemma switch_cast_case_of cs (t : TaskName) (task : Task) (p : option Cell) :
  task_name task = tag t ->
  switch_cast cs task p
  = from_option (fun body => body task p) (Some []) (cast_case_of t cs).
Proof using tag_inj.
  intros Ht. unfold cast_case_of.
  induction cs as [|[c body] cs IH]; [reflexivity|].
  cbn [switch_cast find fst]. rewrite Ht.
  destruct (Z.eqb_spec (tag t) (tag c)) as [Heq|Hne].
  - apply tag_inj in Heq. subst c. rewrite Nat.eqb_refl. reflexivity.
  - destruct (Nat.eqb_spec (tag_index c) (tag_index t)) as [Hi|_].
    + apply tag_index_inj in Hi. subst c. contradiction.
    + exact IH.
Qed.

(** X11.  The [void*] of a task is read as what it is: [task_data] of the
    task a callback pushes points to the cell the callback allocated, a
    cell of the type recorded as the callback's; the process function the
    switch runs for the task casts the pointer to the type of that cell,
    so the run with the casts is defined and does what the process
    function does on the struct; and on a cell of any other type the run
    would not be defined. *)
Theorem task_data_is_cast_to_the_allocated_type
    (cb : Callback) (task : Task) :
  callback cb = [Push task] ->
  task_data task = cell_struct <$> new_cell cb
  /\ (forall d : Cell, new_cell cb = Some d -> allocated cb = Some (cell_type d))
  /\ switch_cast cases_cast task (new_cell cb) = Some (switch cases task)
  /\ (forall (T : string) (c : Cell),
        allocated cb = Some T -> cell_type c <> T ->
        switch_cast cases_cast task (Some c) = None).
Proof using tag_inj.
  intros Hcb.
  destruct (callback_pushes cb) as (task' & Hcb' & Ht & _).
  rewrite Hcb in Hcb'. injection Hcb' as <-.
  rewrite (switch_case_of _ (cb_tag cb)) by exact Ht.
  split; [|split; [|split]].
  - clear Ht. each_callback cb; injection Hcb as <-; reflexivity.
  - clear. intros d Hd.
    each_callback cb; try discriminate Hd; injection Hd as <-; reflexivity.
  - rewrite (switch_cast_case_of _ (cb_tag cb)) by exact Ht.
    clear Ht. each_callback cb; injection Hcb as <-; reflexivity.
  - intros T c HT Hne.
    rewrite (switch_cast_case_of _ (cb_tag cb)) by exact Ht.
    clear Ht Hcb. destruct cb; cbn in HT; try discriminate HT;
      injection HT as <-;
      (cbn; unfold with_cast;
       destruct (decide (cell_type c = _)) as [Heq|_];
       [contradiction | reflexivity]).
Qed.

(** Two cases that cast to the same struct type copy the same fields. *)
Lemma same_type_same_copy (t1 t2 : TaskName) :
  cast_to t1 = cast_to t2 -> copied t1 = copied t2.
Proof.
  assert (Forall (fun a => Forall (fun b =>
            cast_to a = cast_to b -> copied a = copied b) all_tags) all_tags)
    as Hall.
  { apply (bool_decide_unpack (Forall _ _)). vm_compute. exact I. }
  rewrite Forall_forall in Hall.
  specialize (Hall t1 (all_tags_complete t1)). rewrite Forall_forall in Hall.
  exact (Hall t2 (all_tags_complete t2)).
Qed.

(** X12.  Two events that carry the same vendor struct type (a query
    response and the matching notification, say [OnRspQryFund] and
    [OnRtnFund]) hand their handlers the same dict for the same struct. *)
Theorem same_struct_type_same_dict (cb1 cb2 : Callback) (s : Struct) :
  allocated cb1 = allocated cb2 ->
  cb_payload cb1 = Some (Some s) ->
  cb_payload cb2 = Some (Some s) ->
  exists h1 h2 data,
    replay cb1 = [h1] /\ replay cb2 = [h2]
    /\ h_data h1 = Some data /\ h_data h2 = Some data.
Proof using tag_inj.
  intros Htype Hp1 Hp2.
  destruct (replay_payload cb1 s Hp1) as (h1 & Hh1 & _ & Hd1).
  destruct (replay_payload cb2 s Hp2) as (h2 & Hh2 & _ & Hd2).
  exists h1, h2, (fill (copied (cb_tag cb1)) s ∅).
  repeat split; try assumption.
  rewrite Hd2. do 2 f_equal. symmetry. apply same_type_same_copy.
  rewrite <- !allocated_cast_to. exact Htype.
Qed.

Lemma replay_session_converted (cb : Callback) :
  cb_tag cb <> ONRSPQRYACCOUNT ->
  exists h, replay cb = [h] /\ h_session h = to_int <$> cb_session cb.
Proof using tag_inj.
  intros Hne.
  each_callback cb; try (exfalso; apply Hne; reflexivity);
    (eexists; split; [by_case | reflexivity]).
Qed.

(** X15.  A session ID of 2^31 or more arrives negative: a callback other
    than [OnRspQryAccount] called with an [unsigned int] session ID hands
    the handler the same number below 2^31 and the number minus 2^32 from
    there on. *)
Theorem session_wraps_from_2_31 (cb : Callback) (sessionID : Z) :
  cb_session cb = Some sessionID ->
  cb_tag cb <> ONRSPQRYACCOUNT ->
  0 <= sessionID < 2 ^ 32 ->
  exists h, replay cb = [h]
    /\ h_session h
       = Some (if sessionID <? 2 ^ 31 then sessionID else sessionID - 2 ^ 32).
Proof using tag_inj.
  intros Hs Hne Hrange.
  destruct (replay_session_converted cb Hne) as (h & Hr & Hh).
  exists h. split; [exact Hr|].
  rewrite Hh, Hs. cbn. f_equal. apply to_int_wrap, Hrange.
Qed.

(** ** Exceptions of handlers *)

Lemma perform_turn (task : Task) (w : Work) :
  escaped w = None ->
  perform (processTask_turn task) w
  = match handled task with
    | [] => w
    | h :: _ =>
        mkWork (entered w ++ [h])
          (printed w ++ fst (PyTdApi_override (entered w) h))
          (snd (PyTdApi_override (entered w) h))
    end.
Proof.
  intros Hw. unfold handled, processTask_turn.
  destruct (switch_outcome task) as [->|[h ->]]; cbn.
  - reflexivity.
  - destruct (PyTdApi_override (entered w) h) as [lines [e|]]; reflexivity.
Qed.

Lemma handled_at_most_one (task : Task) :
  handled task = [] \/ exists h, handled task = [h].
Proof.
  unfold handled, processTask_turn.
  destruct (switch_outcome task) as [->|[h ->]]; [left | right; exists h];
    reflexivity.
Qed.

(** X13.  A Python exception in a handler does not stop the replay: as long
    as nothing but [error_already_set] leaves the Python side, the loop
    enters the handler of every task in order, prints the message of each
    failed call and no exception leaves [processTask]. *)
Theorem python_errors_do_not_stop_the_worker (tasks : list Task) :
  (forall before h, python before h <> Some other_exception) ->
  work tasks (mkWork [] [] None)
  = mkWork (flat_map handled tasks)
      (complaints [] (flat_map handled tasks)) None.
Proof.
  intros Hpy.
  assert (forall w, escaped w = None ->
            work tasks w
            = mkWork (entered w ++ flat_map handled tasks)
                (printed w
                 ++ complaints (entered w) (flat_map handled tasks))
                None) as Hgen.
  { induction tasks as [|task rest IH]; intros [ent pr esc] Hw;
      cbn in Hw; subst esc.
    - cbn. rewrite !app_nil_r. reflexivity.
    - cbn [work flat_map]. rewrite perform_turn by reflexivity.
      destruct (handled_at_most_one task) as [->|[h ->]].
      + cbn. apply IH. reflexivity.
      + cbn [flat_map app entered printed complaints].
        unfold PyTdApi_override.
        pose proof (Hpy ent h) as Hh.
        destruct (python ent h) as [[what|]|];
          [ | destruct (Hh eq_refl) | ]; cbn [fst snd escaped];
          rewrite IH by reflexivity; cbn [entered printed];
          rewrite <- !app_assoc; reflexivity. }
  apply (Hgen (mkWork [] [] None)). reflexivity.
Qed.

(** X14.  Whatever the Python side does, the handlers the loop enters are
    the handlers of a prefix of the tasks, in order; the loop stops before
    the end only when an exception leaves it, and that exception is not an
    [error_already_set] but what the last handler entered let through. *)
Theorem worker_enters_handlers_in_order (tasks : list Task) :
  exists done rest,
    tasks = done ++ rest
    /\ entered (work tasks (mkWork [] [] None)) = flat_map handled done
    /\ match escaped (work tasks (mkWork [] [] None)) with
       | None => rest = []
       | Some e =>
           e = other_exception
           /\ exists before h,
                flat_map handled done = before ++ [h]
                /\ python before h = Some e
       end.
Proof.
  assert (forall w, escaped w = None ->
            exists done rest,
              tasks = done ++ rest
              /\ entered (work tasks w) = entered w ++ flat_map handled done
              /\ match escaped (work tasks w) with
                 | None => rest = []
                 | Some e =>
                     e = other_exception
                     /\ exists before h,
                          entered w ++ flat_map handled done = before ++ [h]
                          /\ python before h = Some e
                 end) as Hgen.
  { induction tasks as [|task rest IH]; intros [ent pr esc] Hw;
      cbn in Hw; subst esc.
    - exists [], []. cbn. rewrite app_nil_r. repeat split.
    - cbn [work]. rewrite perform_turn by reflexivity.
      destruct (handled_at_most_one task) as [Hnone|[h Hone]].
      + rewrite Hnone. cbn [escaped].
        destruct (IH (mkWork ent pr None) eq_refl)
          as (done & rest' & -> & Hent & Hesc).
        exists (task :: done), rest'. split; [reflexivity|].
        cbn [flat_map]. rewrite Hnone. cbn [app]. split; assumption.
      + rewrite Hone. unfold PyTdApi_override. cbn [entered printed].
        destruct (python ent h) as [[what|]|] eqn:Hp;
          cbn [fst snd escaped].
        * destruct (IH (mkWork (ent ++ [h]) (pr ++ [what]) None) eq_refl)
            as (done & rest' & -> & Hent & Hesc).
          exists (task :: done), rest'. split; [reflexivity|].
          cbn [flat_map]. rewrite Hone, Hent. cbn [entered] in *.
          rewrite <- !app_assoc. split; [reflexivity|].
          rewrite <- app_assoc in Hesc. exact Hesc.
        * exists [task], rest. split; [reflexivity|].
          cbn [flat_map]. rewrite Hone, app_nil_r.
          split; [reflexivity|]. split; [reflexivity|].
          exists ent, h. split; [reflexivity | exact Hp].
        * destruct (IH (mkWork (ent ++ [h]) (pr ++ []) None) eq_refl)
            as (done & rest' & -> & Hent & Hesc).
          exists (task :: done), rest'. split; [reflexivity|].
          cbn [flat_map]. rewrite Hone, Hent. cbn [entered] in *.
          rewrite <- !app_assoc. split; [reflexivity|].
          rewrite <- app_assoc in Hesc. exact Hesc. }
  destruct (Hgen (mkWork [] [] None) eq_refl) as (done & rest & H1 & H2 & H3).
  exists done, rest. repeat split; assumption.
Qed.

End Bridge.

(** * Instances *)

Ltac by_case_at inj :=
  eapply (replay_by_case _ _ _ inj);
  [reflexivity | reflexivity | reflexivity | reflexivity].

(** C1.  Replay fidelity fails at [OnRspQryAccount]: called with session 1
    and error code 2, it overwrites [task_id] with the error code, and the
    replay hands 2 to the handler as the session.  (The tags are numbered
    by position.) *)
Theorem C1_OnRspQryAccount_replaces_session
    {CVal PyObj : Type} (toUtf : CVal -> CVal) (cast : CVal -> PyObj)
    (info : option (@Struct CVal)) :
  exists data,
    replay toUtf cast tag_position (CbRspQryAccount 1 2 89 info)
    = [onRspQryAccount 2 2 true data]
    /\ h_session (onRspQryAccount 2 2 true data)
       <> to_int <$> cb_session (CbRspQryAccount 1 2 89 info).
Proof.
  destruct info; (eexists; split; [by_case_at tag_position_inj | discriminate]).
Qed.

(** C9.  The null-payload case at [OnRspQryAccount]: the task is pushed
    and the handler is called once with the empty dict, but the session 1
    the callback was given is not delivered; the handler gets the error
    code 2 in its place. *)
Theorem C9_null_payload_OnRspQryAccount
    {CVal PyObj : Type} (toUtf : CVal -> CVal) (cast : CVal -> PyObj) :
  callback (CVal:=CVal) (PyObj:=PyObj) tag_position (CbRspQryAccount 1 2 0 None)
  = [Push (mkTask (tag_position ONRSPQRYACCOUNT) None 2 0 false "")]
  /\ replay toUtf cast tag_position (CbRspQryAccount 1 2 0 None)
     = [onRspQryAccount 2 2 false ∅].
Proof.
  split; [reflexivity | by_case_at tag_position_inj].
Qed.


(** ** The counts *)

(** C2, as stated, speaks of 51 event tags: there are no 51 pairwise
    distinct tags, the source uses 50. *)
Lemma C2_no_51_event_tags :
  ~ exists l : list TaskName, NoDup l /\ length l = 51%nat.
Proof.
  intros (l & Hnd & Hlen).
  assert (length (tag_index <$> l) <= 50)%nat as Hle.
  { apply NoDup_below_50.
    - apply (@NoDup_fmap_2 _ _ tag_index tag_index_inj), Hnd.
    - apply Forall_fmap, Forall_forall. intros t _. apply tag_index_bound. }
  rewrite length_fmap in Hle. lia.
Qed.

(** C3, as stated, speaks of 51 callbacks: there are no 51 pairwise
    distinct callbacks, the source defines 50. *)
Lemma C3_no_51_callbacks :
  ~ exists l : list (@Callback Z),
      NoDup (cb_index <$> l) /\ length l = 51%nat.
Proof.
  intros (l & Hnd & Hlen).
  assert (length (cb_index <$> l) <= 50)%nat as Hle.
  { apply NoDup_below_50; [exact Hnd|].
    apply Forall_fmap, Forall_forall. intros cb _. apply cb_index_bound. }
  rewrite length_fmap in Hle. lia.
Qed.

(** ** The error code of [OnRspQryAccount] *)

(** C5, as stated, has both arguments equal to [errorCode]: called with
    the error code 4294967295, the largest an [unsigned int] holds, the
    handler gets -1 as session and as error, not 4294967295. *)
Lemma C5_errorCode_4294967295_arrives_as_minus_1 :
  replay (CVal:=Z) (PyObj:=Z) id id tag_position
    (CbRspQryAccount 7 4294967295 89 None)
  = [onRspQryAccount (-1) (-1) true ∅]
  /\ ~ exists (last : bool) (data : gmap string Z),
         replay (CVal:=Z) id id tag_position
           (CbRspQryAccount 7 4294967295 89 None)
         = [onRspQryAccount 4294967295 4294967295 last data].
Proof.
  assert (replay (CVal:=Z) (PyObj:=Z) id id tag_position
            (CbRspQryAccount 7 4294967295 89 None)
          = [onRspQryAccount (-1) (-1) true ∅]) as Hr
    by by_case_at tag_position_inj.
  split; [exact Hr|].
  intros (last & data & H). rewrite Hr in H. discriminate H.
Qed.

(** ** Concrete runs *)

(** A task tagged [ONRSPQRYFUND] is dispatched to [onRspQryFund]. *)
Lemma C2_witness_ONRSPQRYFUND :
  let task : @Task Z := mkTask (tag_position ONRSPQRYFUND) None 7 0 true "" in
  task_name task = tag_position ONRSPQRYFUND
  /\ exists body (h : @HandlerCall Z),
       (ONRSPQRYFUND, body) ∈ cases id id
       /\ switch tag_position (cases id id) task = body task
       /\ body task = [Invoke h]
       /\ h_name h = ONRSPQRYFUND
       /\ processTask_turn id id tag_position task = [Pop task; Invoke h]
       /\ length (cases (CVal:=Z) (PyObj:=Z) id id) = 50%nat.
Proof.
  split; [reflexivity|].
  exact (C2_processTask_dispatches_every_tag id id tag_position
           tag_position_inj ONRSPQRYFUND
           (mkTask (tag_position ONRSPQRYFUND) None 7 0 true "") eq_refl).
Defined.

(** [OnRspQryFund] pushes one task with its own tag. *)
Lemma C3_witness_OnRspQryFund :
  let cb : @Callback Z := CbRspQryFund 7 0 89 None in
  exists task : @Task Z,
    callback (PyObj:=Z) tag_position cb = [Push task]
    /\ task_name task = tag_position (cb_tag cb)
    /\ (cb_index cb < 50)%nat
    /\ forall (cb' : @Callback Z) (task' : @Task Z),
         callback (PyObj:=Z) tag_position cb' = [Push task'] ->
         cb_index cb' <> cb_index cb ->
         task_name task' <> task_name task.
Proof.
  exact (C3_callbacks_push_one_task_with_own_tag (PyObj:=Z) tag_position
           tag_position_inj (CbRspQryFund 7 0 89 None)).
Defined.


(** [OnRspQryAccount] with session 7 and error code 42. *)
Lemma C5_witness_session_7_error_42 :
  0 <= 42 < 2 ^ 32
  /\ (exists data : gmap string Z,
        replay (CVal:=Z) id id tag_position (CbRspQryAccount 7 42 89 None)
        = [onRspQryAccount (to_int 42) (to_int 42) (to_bool 89) data])
  /\ to_int 42 = (if 42 <? 2 ^ 31 then 42 else 42 - 2 ^ 32)
  /\ (forall sessionID' : Z,
        replay (CVal:=Z) (PyObj:=Z) id id tag_position
          (CbRspQryAccount sessionID' 42 89 None)
        = replay id id tag_position (CbRspQryAccount 7 42 89 None)).
Proof.
  split; [lia|].
  exact (C5_OnRspQryAccount_delivers_errorCode_twice id id tag_position
           tag_position_inj 7 42 89 None ltac:(lia)).
Defined.

(** [OnRspQryFund] delivers session 7, error 0 and a true [last]. *)
Lemma replay_fidelity_OnRspQryFund :
  let cb : @Callback Z := CbRspQryFund 7 0 89 None in
  cb_tag cb <> ONRSPQRYACCOUNT
  /\ exists h : @HandlerCall Z,
       replay id id tag_position cb = [h]
       /\ h_name h = cb_tag cb
       /\ h_session h = to_int <$> cb_session cb
       /\ h_error h = cb_error cb
       /\ h_last h = to_bool <$> cb_last cb.
Proof.
  split; [discriminate|].
  exact (replay_fidelity id id tag_position tag_position_inj
           (CbRspQryFund 7 0 89 None) ltac:(discriminate)).
Defined.

(** [OnRspLogin] with a null pointer. *)
Lemma replay_null_payload_OnRspLogin :
  let cb : @Callback Z := CbRspLogin 3 None in
  cb_payload cb = Some None
  /\ exists (task : @Task Z) (h : @HandlerCall Z),
       callback (PyObj:=Z) tag_position cb = [Push task]
       /\ task_name task = tag_position (cb_tag cb)
       /\ replay id id tag_position cb = [h]
       /\ h_name h = cb_tag cb
       /\ h_data h = Some ∅
       /\ (cb_tag cb <> ONRSPQRYACCOUNT ->
           h_session h = to_int <$> cb_session cb
           /\ h_error h = cb_error cb
           /\ h_last h = to_bool <$> cb_last cb).
Proof.
  split; [reflexivity|].
  exact (replay_null_payload id id tag_position tag_position_inj
           (CbRspLogin 3 None) eq_refl).
Defined.

(** A task tagged 50 when the tags are numbered 0 to 49. *)
Lemma switch_unknown_tag_50 :
  let task : @Task Z := mkTask 50 None 0 0 false "" in
  (forall t : TaskName, task_name task <> tag_position t)
  /\ switch (PyObj:=Z) tag_position (cases id id) task = [].
Proof.
  assert (forall t : TaskName,
            task_name (mkTask (CVal:=Z) 50 None 0 0 false "") <> tag_position t)
    as Hno.
  { intros t. unfold tag_position. cbn [task_name].
    pose proof (tag_index_bound t). lia. }
  split; [exact Hno|].
  exact (switch_unknown_tag id id tag_position _ Hno).
Defined.

(** [init()], then [OnConnect] and [OnAPIReady(3)] on two SDK threads, then
    two turns of the worker. *)
Lemma run_init_two_callbacks_two_turns :
  reachable (CVal:=Z) (PyObj:=Z) id id tag_position
    (mkTdApi true [] (Some 0%nat) 1
       [ (Sdk 0, Push Task0);
         (Sdk 1, Push (mkTask 5 None 0 3 false ""));
         (Worker 0, Pop Task0);
         (Worker 0, Invoke onConnect);
         (Worker 0, Pop (mkTask 5 None 0 3 false ""));
         (Worker 0, Invoke (onAPIReady 3)) ]).
Proof.
  unfold reachable.
  eapply rtc_l; [apply step_init; reflexivity|].
  eapply rtc_l; [apply (step_callback _ _ _ _ (Sdk 0) CbConnect)|].
  eapply rtc_l; [apply (step_callback _ _ _ _ (Sdk 1) (CbAPIReady 3))|].
  eapply rtc_l; [eapply (step_turn _ _ _ _ 0%nat); reflexivity|].
  eapply rtc_l; [eapply (step_turn _ _ _ _ 0%nat); reflexivity|].
  apply rtc_refl.
Qed.

Lemma C6_witness_two_callbacks_two_turns :
  let s : @TdApi Z Z :=
    mkTdApi true [] (Some 0%nat) 1
      [ (Sdk 0, Push Task0);
        (Sdk 1, Push (mkTask 5 None 0 3 false ""));
        (Worker 0, Pop Task0);
        (Worker 0, Invoke onConnect);
        (Worker 0, Pop (mkTask 5 None 0 3 false ""));
        (Worker 0, Invoke (onAPIReady 3)) ] in
  (forall cb : @Callback Z,
     invoked (CVal:=Z) (PyObj:=Z) (callback tag_position cb) = []
     /\ popped (PyObj:=Z) (callback tag_position cb) = [])
  /\ (forall thr a, (thr, a) ∈ trace s -> (forall task, a <> Push task) ->
        exists k, thr = Worker k /\ (k < spawned s)%nat)
  /\ (forall k, task_thread s = Some k -> S k = spawned s)
  /\ StronglySorted le (consumers (trace s)).
Proof.
  exact (C6_handlers_run_on_the_worker_thread id id tag_position _
           run_init_two_callbacks_two_turns).
Defined.

Lemma C7_witness_two_callbacks_two_turns :
  let s : @TdApi Z Z :=
    mkTdApi true [] (Some 0%nat) 1
      [ (Sdk 0, Push Task0);
        (Sdk 1, Push (mkTask 5 None 0 3 false ""));
        (Worker 0, Pop Task0);
        (Worker 0, Invoke onConnect);
        (Worker 0, Pop (mkTask 5 None 0 3 false ""));
        (Worker 0, Invoke (onAPIReady 3)) ] in
  popped (actions s) ++ task_queue s = pushed (actions s)
  /\ invoked (actions s) ++ flat_map (handled id id tag_position) (task_queue s)
     = flat_map (handled id id tag_position) (pushed (actions s)).
Proof.
  exact (C7_handlers_follow_push_order id id tag_position _
           run_init_two_callbacks_two_turns).
Defined.

(** ** Evaluations *)

Example to_int_small : to_int 5 = 5.
Proof. reflexivity. Qed.

Example to_int_wraps : to_int 4294967295 = -1.
Proof. reflexivity. Qed.

Example to_bool_letter_N : to_bool 78 = true.
Proof. reflexivity. Qed.

Example to_bool_nul : to_bool 0 = false.
Proof. reflexivity. Qed.

(** [OnRspQryFund(7, 0, 'Y', info)] reaches [onRspQryFund(7, 0, True, data)]. *)
Example replay_OnRspQryFund :
  replay (CVal:=Z) (PyObj:=Z) id id tag_position
    (CbRspQryFund 7 0 89 (Some (fun _ => 5)))
  = [onRspQryFund 7 0 true (fill id id processRspQryFund_copy (fun _ => 5) ∅)].
Proof. by_case_at tag_position_inj. Qed.

(** The dict of a login response read by the length of the field name. *)
Example fill_processRspLogin_UserNo :
  fill (CVal:=nat) (PyObj:=nat) id id processRspLogin_copy String.length ∅
    !! "UserNo" = Some 6%nat.
Proof. vm_compute. reflexivity. Qed.

Example fill_processRspLogin_missing :
  fill (CVal:=nat) (PyObj:=nat) id id processRspLogin_copy String.length ∅
    !! "Password" = None.
Proof. vm_compute. reflexivity. Qed.

(** [OnConnect] pushes a task with the tag of [ONCONNECT] and nothing
    else set. *)
Example OnConnect_pushes :
  OnConnect (CVal:=Z) (PyObj:=Z) tag_position = [Push Task0].
Proof. reflexivity. Qed.

(** In the run above the handlers are called in the order of the pushes. *)
Example two_callbacks_replayed_in_order :
  invoked (CVal:=Z) (PyObj:=Z)
    [ Push Task0;
      Push (mkTask 5 None 0 3 false "");
      Pop Task0;
      Invoke onConnect;
      Pop (mkTask 5 None 0 3 false "");
      Invoke (onAPIReady 3) ]
  = flat_map (handled id id tag_position)
      [Task0; mkTask 5 None 0 3 false ""].
Proof. reflexivity. Qed.


(** ** More concrete runs *)

(** [qryFund] with and without an entry it does not read, the getters
    taking the entry when there is one. *)
Lemma query_ignores_other_entries_qryFund :
  let getter (d : gmap string Z) (k : string) (old : Z) := default old (d !! k) in
  sent 0 getter (fun _ => 0) getter getter getter (fun _ => 0) SdkQryFund 7
    (<["AccountNo" := 1]> (<["Other" := 2]> ∅))
  = sent 0 getter (fun _ => 0) getter getter getter (fun _ => 0) SdkQryFund 7
      (<["AccountNo" := 1]> ∅).
Proof.
  refine (query_ignores_other_entries 0 _ _ _ _ _ _ SdkQryFund 7 _ _ _).
  intros reads r [= <-] Hr. apply list_elem_of_singleton in Hr. subst r.
  vm_compute. reflexivity.
Defined.

Lemma handlers_replay_the_callbacks_received_two_turns :
  let s : @TdApi Z Z :=
    mkTdApi true [] (Some 0%nat) 1
      [ (Sdk 0, Push Task0);
        (Sdk 1, Push (mkTask 5 None 0 3 false ""));
        (Worker 0, Pop Task0);
        (Worker 0, Invoke onConnect);
        (Worker 0, Pop (mkTask 5 None 0 3 false ""));
        (Worker 0, Invoke (onAPIReady 3)) ] in
  exists cbs : list (@Callback Z),
    pushed (actions s) = tasks_of (PyObj:=Z) tag_position cbs
    /\ invoked (actions s) ++ flat_map (handled id id tag_position) (task_queue s)
       = flat_map (replay id id tag_position) cbs
    /\ h_name <$> flat_map (replay (PyObj:=Z) id id tag_position) cbs
       = cb_tag <$> cbs
    /\ length (invoked (actions s)) = length (popped (actions s)).
Proof.
  exact (handlers_replay_the_callbacks_received id id tag_position
           tag_position_inj _ run_init_two_callbacks_two_turns).
Defined.

(** [OnConnect] and [OnAPIReady(3)] before any [init()]. *)
Lemma run_two_callbacks :
  reachable (CVal:=Z) (PyObj:=Z) id id tag_position
    (mkTdApi false [Task0; mkTask 5 None 0 3 false ""] None 0
       [ (Sdk 0, Push Task0);
         (Sdk 1, Push (mkTask 5 None 0 3 false "")) ]).
Proof.
  unfold reachable.
  eapply rtc_l; [apply (step_callback _ _ _ _ (Sdk 0) CbConnect)|].
  eapply rtc_l; [apply (step_callback _ _ _ _ (Sdk 1) (CbAPIReady 3))|].
  apply rtc_refl.
Qed.

Lemma before_init_tasks_wait_in_the_queue_two_callbacks :
  let s : @TdApi Z Z :=
    mkTdApi false [Task0; mkTask 5 None 0 3 false ""] None 0
      [ (Sdk 0, Push Task0);
        (Sdk 1, Push (mkTask 5 None 0 3 false "")) ] in
  spawned s = 0%nat
  /\ invoked (actions s) = [] /\ task_queue s = pushed (actions s).
Proof.
  split; [reflexivity|].
  exact (before_init_tasks_wait_in_the_queue id id tag_position _
           run_two_callbacks eq_refl).
Defined.

(** [createFtdcTraderApi], [init()], then [OnConnect] and [OnAPIReady(3)],
    before any turn. *)
Lemma run_create_init_two_callbacks :
  running (CVal:=Z) (PyObj:=Z) id id tag_position
    (mkObject
       (mkTdApi true [Task0; mkTask 5 None 0 3 false ""] (Some 0%nat) 1
          [ (Sdk 0, Push Task0);
            (Sdk 1, Push (mkTask 5 None 0 3 false "")) ])
       true false).
Proof.
  unfold running.
  eapply rtc_l; [apply call_createFtdcTraderApi|].
  eapply rtc_l; [apply call_init; reflexivity|].
  eapply rtc_l; [apply (call_callback _ _ _ _ (Sdk 0) CbConnect)|].
  eapply rtc_l; [apply (call_callback _ _ _ _ (Sdk 1) (CbAPIReady 3))|].
  apply rtc_refl.
Qed.

Lemma worker_can_replay_every_pushed_task_two_callbacks :
  let o : @Object Z Z :=
    mkObject
      (mkTdApi true [Task0; mkTask 5 None 0 3 false ""] (Some 0%nat) 1
         [ (Sdk 0, Push Task0);
           (Sdk 1, Push (mkTask 5 None 0 3 false "")) ])
      true false in
  exists o',
    rtc (turn id id tag_position) o o'
    /\ task_queue (bridge o') = []
    /\ pushed (actions (bridge o')) = pushed (actions (bridge o))
    /\ invoked (actions (bridge o'))
       = flat_map (handled id id tag_position) (pushed (actions (bridge o))).
Proof.
  exact (worker_can_replay_every_pushed_task id id tag_position _ 0%nat
           run_create_init_two_callbacks eq_refl eq_refl).
Defined.

(** [OnRtnContactInfo(3, 'Y', "hello")]. *)
Lemma replay_delivers_text_and_number_OnRtnContactInfo :
  let cb : @Callback Z := CbRtnContactInfo 3 89 "hello" in
  exists h : @HandlerCall Z,
    replay id id tag_position cb = [h]
    /\ h_name h = cb_tag cb
    /\ h_text h = cb_text cb
    /\ h_number h = cb_number cb.
Proof.
  exact (replay_delivers_text_and_number id id tag_position tag_position_inj
           (CbRtnContactInfo 3 89 "hello")).
Defined.

(** [OnRspQryFund] with a payload, and with a null pointer in its place. *)
Lemma scalars_do_not_depend_on_the_payload_OnRspQryFund :
  let cb : @Callback Z := CbRspQryFund 7 0 89 (Some (fun _ => 5)) in
  exists h h' : @HandlerCall Z,
    replay id id tag_position cb = [h]
    /\ replay id id tag_position (with_payload None cb) = [h']
    /\ h_name h' = h_name h
    /\ h_session h' = h_session h
    /\ h_error h' = h_error h
    /\ h_last h' = h_last h
    /\ h_text h' = h_text h
    /\ h_number h' = h_number h.
Proof.
  exact (scalars_do_not_depend_on_the_payload id id tag_position
           tag_position_inj (CbRspQryFund 7 0 89 (Some (fun _ => 5))) None).
Defined.

(** The task [OnRspLogin] pushes for a payload: [processRspLogin] reads the
    cell as the [TapAPITradeLoginRspInfo] it is. *)
Lemma task_data_is_cast_to_the_allocated_type_OnRspLogin :
  let s : @Struct Z := fun _ => 5 in
  let cb : @Callback Z := CbRspLogin 0 (Some s) in
  let task : @Task Z := mkTask 1 (Some s) 0 0 false "" in
  callback (PyObj:=Z) tag_position cb = [Push task]
  /\ task_data task = cell_struct <$> new_cell cb
  /\ (forall d : Cell, new_cell cb = Some d -> allocated cb = Some (cell_type d))
  /\ switch_cast tag_position (cases_cast id id) task (new_cell cb)
     = Some (switch tag_position (cases id id) task)
  /\ (forall (T : string) (c : Cell),
        allocated cb = Some T -> cell_type c <> T ->
        switch_cast (PyObj:=Z) tag_position (cases_cast id id) task (Some c)
        = None).
Proof.
  split; [reflexivity|].
  exact (task_data_is_cast_to_the_allocated_type id id tag_position
           tag_position_inj (CbRspLogin 0 (Some (fun _ => 5)))
           (mkTask 1 (Some (fun _ => 5)) 0 0 false "") eq_refl).
Defined.

(** [OnRspQryFund] and [OnRtnFund] with the same [TapAPIFundData]. *)
Lemma same_struct_type_same_dict_fund :
  let s : @Struct Z := fun _ => 5 in
  exists (h1 h2 : @HandlerCall Z) data,
    replay id id tag_position (CbRspQryFund 7 0 89 (Some s)) = [h1]
    /\ replay id id tag_position (CbRtnFund (Some s)) = [h2]
    /\ h_data h1 = Some data /\ h_data h2 = Some data.
Proof.
  exact (same_struct_type_same_dict id id tag_position tag_position_inj
           (CbRspQryFund 7 0 89 (Some (fun _ => 5)))
           (CbRtnFund (Some (fun _ => 5))) (fun _ => 5)
           eq_refl eq_refl eq_refl).
Defined.

(** A Python side whose [onConnect] always raises: the error is printed and
    [onAPIReady] is still called. *)
Lemma python_errors_do_not_stop_the_worker_onConnect_raises :
  let python (before : list (@HandlerCall Z)) (h : @HandlerCall Z) :=
    match h with
    | onConnect => Some (error_already_set "RuntimeError: boom")
    | _ => None
    end in
  work (CVal:=Z) id id tag_position python
    [Task0; mkTask 5 None 0 3 false ""] (mkWork [] [] None)
  = mkWork
      (flat_map (handled id id tag_position)
         [Task0; mkTask 5 None 0 3 false ""])
      (complaints python []
         (flat_map (handled id id tag_position)
            [Task0; mkTask 5 None 0 3 false ""]))
      None.
Proof.
  refine (python_errors_do_not_stop_the_worker id id tag_position _
            [Task0; mkTask 5 None 0 3 false ""] _).
  intros before h. destruct h; discriminate.
Defined.

(** [OnRspChangePassword] with the largest [unsigned int] as session:
    the handler gets -1. *)
Lemma session_wraps_from_2_31_largest :
  let cb : @Callback Z := CbRspChangePassword 4294967295 0 in
  exists h : @HandlerCall Z,
    replay id id tag_position cb = [h]
    /\ h_session h
       = Some (if 4294967295 <? 2 ^ 31 then 4294967295
               else 4294967295 - 2 ^ 32).
Proof.
  refine (session_wraps_from_2_31 id id tag_position tag_position_inj
            (CbRspChangePassword 4294967295 0) 4294967295 eq_refl _ _).
  - discriminate.
  - lia.
Defined.

(** ** More evaluations *)

(** The run above, computed: both handlers entered, one line printed. *)
Example work_onConnect_raises :
  work (CVal:=Z) (PyObj:=Z) id id tag_position
    (fun _ h => match h with
                | onConnect => Some (error_already_set "RuntimeError: boom")
                | _ => None
                end)
    [Task0; mkTask 5 None 0 3 false ""] (mkWork [] [] None)
  = mkWork [onConnect; onAPIReady 3] ["RuntimeError: boom"] None.
Proof. reflexivity. Qed.

(** An exception that is no [error_already_set] ends the loop: [onAPIReady]
    is never entered. *)
Example work_onConnect_lets_through :
  work (CVal:=Z) (PyObj:=Z) id id tag_position
    (fun _ h => match h with
                | onConnect => Some other_exception
                | _ => None
                end)
    [Task0; mkTask 5 None 0 3 false ""] (mkWork [] [] None)
  = mkWork [onConnect] [] (Some other_exception).
Proof. reflexivity. Qed.

(** [qryOrderProcess] with a getter that takes the entry when there is
    one: the two fields it reads are set, any other is zero. *)
Example qryOrderProcess_fields :
  let getter (d : gmap string Z) (k : string) (old : Z) := default old (d !! k) in
  match fst (qryOrderProcess 0 getter getter getter getter (fun _ => 0) 7
               (<["OrderNo" := 11]> (<["ServerFlag" := 67]> ∅))) with
  | mkSdkCall fn session (Some myreq) =>
      (fn, session, myreq "ServerFlag", myreq "OrderNo", myreq "AccountNo")
  | mkSdkCall fn session None => (fn, session, 0, 0, 0)
  end = (SdkQryOrderProcess, 7, 67, 11, 0).
Proof. vm_compute. reflexivity. Qed.

(** A session ID of 2^31 arrives as -2^31. *)
Example replay_session_2_31 :
  replay (CVal:=Z) (PyObj:=Z) id id tag_position
    (CbRspChangePassword 2147483648 0)
  = [onRspChangePassword (-2147483648) 0].
Proof. by_case_at tag_position_inj. Qed.

Example members_TapAPIRequestVertificateCodeRsp :
  members "TapAPIRequestVertificateCodeRsp"
  = Some (mkMembers ["SecondSerialID"] ["Effective"]).
Proof. reflexivity. Qed.

(** A request struct is no payload of a callback. *)
Example members_TapAPIOrderQryReq : members "TapAPIOrderQryReq" = None.
Proof. reflexivity. Qed.

(** The dict of a login response in which every member holds the length of
    its name, [toUtf] changing the sign: a [char] array and another
    member. *)
Example fill_processRspLogin_text :
  fill Z.opp id processRspLogin_copy (fun k => Z.of_nat (String.length k)) ∅
    !! "UserNo" = Some (-6).
Proof. vm_compute. reflexivity. Qed.

Example fill_processRspLogin_other :
  fill Z.opp id processRspLogin_copy (fun k => Z.of_nat (String.length k)) ∅
    !! "UserType" = Some 8.
Proof. vm_compute. reflexivity. Qed.

(** [processRspLogin] on a cell allocated as a [TapAPIFundData]. *)
Example processRspLogin_cast_other_type :
  processRspLogin_cast (CVal:=Z) (PyObj:=Z) id id Task0
    (Some (mkCell "TapAPIFundData" (fun _ => 5)))
  = None.
Proof. reflexivity. Qed.

Example processRspLogin_cast_null :
  processRspLogin_cast (CVal:=Z) (PyObj:=Z) id id Task0 None
  = Some [Invoke (onRspLogin 0 ∅)].
Proof. reflexivity. Qed.

(** [createFtdcTraderApi], [init()], [exit()], [OnConnect], then
    [createFtdcTraderApi] and [init()] again: the second worker finds the
    queue terminated and the task stays where it is. *)
Example run_exit_then_init :
  running (CVal:=Z) (PyObj:=Z) id id tag_position
    (mkObject (mkTdApi true [Task0] (Some 1%nat) 2 [(Sdk 0, Push Task0)])
       true true).
Proof.
  unfold running.
  eapply rtc_l; [apply call_createFtdcTraderApi|].
  eapply rtc_l; [apply call_init; reflexivity|].
  eapply rtc_l; [apply (call_exit _ _ _ _ 0%nat); reflexivity|].
  eapply rtc_l; [apply (call_callback _ _ _ _ (Sdk 0) CbConnect)|].
  eapply rtc_l; [apply call_createFtdcTraderApi|].
  eapply rtc_l; [apply call_init; reflexivity|].
  apply rtc_refl.
Qed.

Example no_turn_after_exit (o' : @Object Z Z) :
  ~ turn id id tag_position
      (mkObject (mkTdApi true [Task0] (Some 1%nat) 2 [(Sdk 0, Push Task0)])
         true true) o'.
Proof. intros Hturn. inversion Hturn. discriminate. Qed.

(** [init()] right after [exit()] is no call: [api] is null. *)
Example no_init_after_exit (o' : @Object Z Z) :
  call id id tag_position
    (mkObject (mkTdApi false [] None 1 []) false true) o' ->
  active (bridge o') = false.
Proof.
  intros Hcall. inversion Hcall as [| | | | ? ? Hturn | |]; subst; cbn in *;
    try reflexivity; try discriminate.
  inversion Hturn; subst; cbn in *; discriminate.
Qed.
